(** * Hours-of-service trip planning and driver log generation

    A shallow embedding of the two computational cores of the trip
    back end:

    - [RouteService.generate_hos_compliant_plan]
      (trips/route_service.py), which cuts a route into daily plans;
    - [ELDLogGenerator.generate_daily_logs]
      (trips/eld_log_generator.py), which expands each daily plan into
      duty-status changes, totals, a compliance verdict and a grid.

    Numbers: Python floats are read as exact rationals ([Q]); Python
    ints as [Z].  Rounding error of binary floating point is therefore
    outside the model, every other step of the arithmetic (floor,
    ceiling, truncation, the microsecond rounding of [timedelta]) is
    written out.  Calendar overflow of [datetime] (year 9999) is not
    modelled. *)

From Stdlib Require Import ZArith QArith Qround Qabs Lqa Lia List String Bool.
From Stdlib Require Import Sorted.
From Stdlib Require Import DecimalString.
From Equations Require Import Equations.
From Equations.Prop Require Import Logic.
From Stdlib Require Reals Lra.
Import ListNotations.

Open Scope Q_scope.

(** ** The Python fragment the two modules rely on *)

Module Py.

(** Exceptions.  [ZeroDivisionError] is what [/] raises; [InvalidInput]
    and [MalformedAllotment] are the error kinds the specification
    names, for which the source has no [raise] statement. *)
Inductive exn : Type :=
| ZeroDivisionError
| InvalidInput
| MalformedAllotment.

Inductive result (A : Type) : Type :=
| Ok (a : A)
| Raise (e : exn).

Arguments Ok {A} a.
Arguments Raise {A} e.

Definition bind {A B : Type} (m : result A) (k : A -> result B) : result B :=
  match m with
  | Ok a => k a
  | Raise e => Raise e
  end.

Definition ltb (x y : Q) : bool := negb (Qle_bool y x).
Definition leb (x y : Q) : bool := Qle_bool x y.
Definition eqb (x y : Q) : bool := Qeq_bool x y.

(** [x / y] on floats. *)
Definition div (x y : Q) : result Q :=
  if eqb y 0 then Raise ZeroDivisionError else Ok (x / y).

(** [min(x, y)]: the first argument unless the second is smaller. *)
Definition min (x y : Q) : Q := if ltb y x then y else x.

(** [int(x)]: truncation toward zero. *)
Definition int (x : Q) : Z := Z.quot (Qnum x) (Zpos (Qden x)).

(** [str(n)] for an int. *)
Definition str (n : Z) : string := NilZero.string_of_int (Z.to_int n).

End Py.

Notation "x <- m ;; k" := (Py.bind m (fun x => k))
  (at level 61, m at next level, right associativity).
Infix "<?" := Py.ltb (at level 70, no associativity) : Q_scope.
Infix "<=?" := Py.leb (at level 70, no associativity) : Q_scope.
Infix "=?" := Py.eqb (at level 70, no associativity) : Q_scope.

Import Py.

(** ** Daily plans

    A daily plan is the dict the planner appends to [daily_plans]: it
    has the seven keys below.  The log generator also reads an eighth,
    optional key ['is_final_day'] (absent from every dict the planner
    builds) and the number of keys, [len(daily_plan)]. *)

Record DailyPlan : Type := {
  dp_day : Z;
  dp_driving_hours : Q;
  dp_distance_miles : Q;
  dp_fuel_stops : Z;
  dp_mandatory_breaks : Z;
  dp_total_on_duty : Q;
  dp_pickup_dropoff_time : Q;
  dp_is_final_day : option bool
}.

(** [len(daily_plan)] *)
Definition dp_len (p : DailyPlan) : Z :=
  match dp_is_final_day p with
  | Some _ => 8
  | None => 7
  end.

(** * The day planner (trips/route_service.py) *)

Module RouteService.

Record RouteInfo : Type := {
  ri_distance_miles : Q;
  ri_duration_hours : Q
}.

Record PlanSummary : Type := {
  total_on_duty_time : Q;
  mandatory_break_time : Q;
  fuel_stop_time : Q;
  pickup_dropoff_time : Q
}.

Record HosPlan : Type := {
  total_distance : Q;
  total_driving_hours : Q;
  total_days_needed : Z;
  total_fuel_stops : Z;
  remaining_cycle_hours : Q;
  cycle_compliant : bool;
  daily_plans : list DailyPlan;
  summary : PlanSummary
}.

(** HOS rules (property-carrying, 70 hours in 8 days). *)
Definition max_driving_daily : Q := 11.
Definition max_on_duty_daily : Q := 14.
Definition max_cycle_hours : Q := 70.
Definition mandatory_break_after : Q := 8.
Definition fuel_stop_interval : Q := 1000.

(** The locals of [generate_hos_compliant_plan] that precede its loop.
    Their divisors are non-zero literals, so these divisions cannot
    raise. *)
Definition fuel_stops (distance_miles : Q) : Z :=
  (Qceiling (distance_miles / fuel_stop_interval) - 1)%Z.

Definition mandatory_breaks (driving_hours : Q) : Z :=
  Qfloor (driving_hours / mandatory_break_after).

Definition total_on_duty_needed (distance_miles driving_hours : Q) : Q :=
  driving_hours + inject_Z (fuel_stops distance_miles) * 0.5 + 2.0.

Definition total_time_with_breaks (distance_miles driving_hours : Q) : Q :=
  total_on_duty_needed distance_miles driving_hours
  + inject_Z (mandatory_breaks driving_hours) * 0.5.

Definition days_needed (distance_miles driving_hours : Q) : Z :=
  Qceiling (total_time_with_breaks distance_miles driving_hours
            / max_on_duty_daily).

(** The two tests under which the loop body adds an hour of on-duty
    time: pickup on the first day, dropoff on the day that leaves no
    distance. *)
Definition includes_pickup (current_day : Z) : bool :=
  (current_day =? 1)%Z.

Definition includes_dropoff (remaining_distance distance_today : Q) : bool :=
  remaining_distance - distance_today <=? 0.

(** [distance_miles / driving_hours if driving_hours > 0 else 55] *)
Definition avg_speed (distance_miles driving_hours : Q) : result Q :=
  if 0 <? driving_hours then Py.div distance_miles driving_hours else Ok 55.

(** One pass through the loop body, up to [daily_plans.append]. *)
Definition plan_day (distance_miles driving_hours : Q)
    (remaining_distance remaining_driving : Q) (current_day : Z)
  : result DailyPlan :=
  let max_driving_today := Py.min max_driving_daily remaining_driving in
  speed <- avg_speed distance_miles driving_hours ;;
  let distance_today := max_driving_today * speed in
  let fuel_stops_today :=
    if fuel_stop_interval <=? distance_today
    then Qfloor (distance_today / fuel_stop_interval)
    else 0%Z in
  let breaks_today := Qfloor (max_driving_today / mandatory_break_after) in
  let total_on_duty := max_driving_today + inject_Z fuel_stops_today * 0.5 in
  let total_on_duty :=
    if includes_pickup current_day then total_on_duty + 1 else total_on_duty in
  let total_on_duty :=
    if includes_dropoff remaining_distance distance_today
    then total_on_duty + 1 else total_on_duty in
  Ok {| dp_day := current_day;
        dp_driving_hours := max_driving_today;
        dp_distance_miles := distance_today;
        dp_fuel_stops := fuel_stops_today;
        dp_mandatory_breaks := breaks_today;
        dp_total_on_duty := total_on_duty;
        dp_pickup_dropoff_time := if (current_day =? 1)%Z then 2.0 else 0;
        dp_is_final_day := None |}.

(** [while remaining_distance > 0 and current_day <= days_needed]: the
    days still allowed, [days_needed + 1 - current_day], shrink at
    every pass. *)
Section PlanLoop.

Variables (distance_miles driving_hours : Q) (days : Z).

Definition plan_continue (remaining_distance : Q) (current_day : Z) : bool :=
  (0 <? remaining_distance) && (current_day <=? days)%Z.

Equations? plan_loop (remaining_distance remaining_driving : Q)
    (current_day : Z) : result (list DailyPlan)
    by wf (Z.to_nat (days + 1 - current_day)) lt :=
  plan_loop remaining_distance remaining_driving current_day
    with inspect (plan_continue remaining_distance current_day) := {
    | exist _ false _ => Ok []
    | exist _ true Hc =>
      (match plan_day distance_miles driving_hours
                      remaining_distance remaining_driving current_day with
       | Raise e => Raise e
       | Ok daily_plan =>
         match plan_loop (remaining_distance - dp_distance_miles daily_plan)
                         (remaining_driving - dp_driving_hours daily_plan)
                         (current_day + 1) with
         | Raise e => Raise e
         | Ok rest => Ok (daily_plan :: rest)
         end
       end) }.
Proof.
  unfold plan_continue in Hc.
  apply andb_true_iff in Hc as [_ Hd].
  apply Z.leb_le in Hd. lia.
Qed.

End PlanLoop.

Definition generate_hos_compliant_plan (route_info : RouteInfo)
    (current_cycle_used : Q) : result HosPlan :=
  let distance_miles := ri_distance_miles route_info in
  let driving_hours := ri_duration_hours route_info in
  let remaining_cycle_hours := max_cycle_hours - current_cycle_used in
  let fuel_stops := fuel_stops distance_miles in
  let fuel_stop_time := inject_Z fuel_stops * 0.5 in
  let pickup_dropoff_time := 2.0 in
  let total_on_duty_needed := total_on_duty_needed distance_miles driving_hours in
  let mandatory_break_time := inject_Z (mandatory_breaks driving_hours) * 0.5 in
  let total_time_with_breaks := total_time_with_breaks distance_miles driving_hours in
  let days_needed := days_needed distance_miles driving_hours in
  daily_plans <- plan_loop distance_miles driving_hours days_needed
                   distance_miles driving_hours 1 ;;
  Ok {| total_distance := distance_miles;
        total_driving_hours := driving_hours;
        total_days_needed := days_needed;
        total_fuel_stops := fuel_stops;
        remaining_cycle_hours := remaining_cycle_hours;
        cycle_compliant := total_time_with_breaks <=? remaining_cycle_hours;
        daily_plans := daily_plans;
        summary := {| total_on_duty_time := total_on_duty_needed;
                      mandatory_break_time := mandatory_break_time;
                      fuel_stop_time := fuel_stop_time;
                      pickup_dropoff_time := pickup_dropoff_time |} |}.

End RouteService.

(** * The schedule expander (trips/eld_log_generator.py) *)

Module ELDLogGenerator.

Import RouteService.

(** HOS rules kept by [__init__]. *)
Definition max_driving_daily : Q := 11.
Definition max_on_duty_daily : Q := 14.

(** The values of the [DUTY_STATUS] table. *)
Inductive DutyStatus : Type :=
| OFF_DUTY
| SLEEPER_BERTH
| DRIVING
| ON_DUTY_NOT_DRIVING.

(** *** Clock

    A [datetime] is a count of microseconds; a [log_date] is the day
    number of a datetime at midnight.  A text ['HH:MM'] is kept as its
    two numbers. *)

Definition us_per_minute : Z := 60000000.
Definition us_per_hour : Z := 3600000000.
Definition us_per_day : Z := 86400000000.

Record HHMM : Type := { hour : Z; minute : Z }.

(** [strftime('%H:%M')] *)
Definition strftime_HM (t : Z) : HHMM :=
  {| hour := ((t / us_per_hour) mod 24)%Z;
     minute := ((t / us_per_minute) mod 60)%Z |}.

(** [datetime.strptime(text, '%H:%M')], in minutes after its midnight. *)
Definition strptime_HM (text : HHMM) : Z := (hour text * 60 + minute text)%Z.

(** Rounding to the nearest integer, ties to even: how [timedelta]
    turns a fractional count of microseconds into a whole one. *)
Definition round_half_even (x : Q) : Z :=
  let f := Qfloor x in
  let r := x - inject_Z f in
  if r <? 0.5 then f
  else if 0.5 <? r then (f + 1)%Z
  else if Z.even f then f else (f + 1)%Z.

(** [timedelta(hours=h)] for a float, [timedelta(minutes=m)] for an int. *)
Definition timedelta_hours (h : Q) : Z :=
  round_half_even (h * inject_Z us_per_hour).

Definition timedelta_minutes (m : Z) : Z := (m * us_per_minute)%Z.

(** [log_date.replace(hour=6, minute=0, second=0)] *)
Definition six_am (log_date : Z) : Z :=
  (log_date * us_per_day + 6 * us_per_hour)%Z.

(** *** Records *)

Record Event : Type := {
  status : DutyStatus;
  time : HHMM;
  location : string;
  odometer : Q;
  notes : string
}.

Record Totals : Type := {
  driving : Q;
  on_duty_not_driving : Q;
  sleeper_berth : Q;
  off_duty : Q
}.

(** A violation message.  The text of each f-string is fixed by the
    numbers it interpolates, which the constructor keeps; their
    rendering with one decimal is float formatting and left out. *)
Inductive Violation : Type :=
| ExceededDrivingTime (total cap : Q)
| ExceededOnDutyTime (total cap : Q)
| DroveWithoutBreak.

Record LogSheet : Type := {
  grid : list DutyStatus;
  time_slots : list HHMM
}.

Record DailyLog : Type := {
  date : Z;
  day_of_trip : Z;
  driver_name : string;
  duty_status_changes : list Event;
  total_drive_time : Q;
  total_on_duty_time : Q;
  total_sleeper_berth_time : Q;
  total_off_duty_time : Q;
  distance_traveled : Q;
  fuel_stops : Z;
  mandatory_breaks : Z;
  odometer_start : Z;
  odometer_end : Z;
  vehicle_id : string;
  trailer_id : string;
  carrier_name : string;
  hos_compliant : bool;
  violations : list Violation;
  log_sheet_data : LogSheet
}.

(** What [generate_daily_logs] reads of [trip_plan]: the three
    coordinates as [_format_location] prints them, and
    [hos_plan['daily_plans']]. *)
Record TripPlan : Type := {
  current_location : string;
  pickup_location : string;
  dropoff_location : string;
  tp_daily_plans : list DailyPlan
}.

(** *** Helpers *)

Definition _calculate_odometer (day_idx : nat) (daily_plans : list DailyPlan)
    (base_odometer : Z) : Z :=
  let total_distance :=
    fold_left (fun total p => total + dp_distance_miles p)
              (firstn day_idx daily_plans) 0 in
  (base_odometer + Py.int total_distance)%Z.

Definition _interpolate_location (distance_covered total_distance : Q)
    (start_loc end_loc : string) : result string :=
  if total_distance =? 0 then Ok start_loc
  else
    progress <- Py.div distance_covered total_distance ;;
    if progress <? 0.3 then Ok ("En route from " ++ start_loc)%string
    else if progress <? 0.7 then
      Ok ("Highway - " ++ Py.str (Py.int (progress * 100))
          ++ "% to destination")%string
    else Ok ("Approaching " ++ end_loc)%string.

(** *** Duty status changes of one day *)

Record DrivingState : Type := {
  ds_changes : list Event;
  ds_current_time : Z;
  ds_distance_covered : Q;
  ds_remaining_driving : Q
}.

Section DrivingLoop.

Variables (daily_plan : DailyPlan) (day_idx : nat).
Variables (pickup_loc dropoff_loc : string).

Let driving_hours : Q := dp_driving_hours daily_plan.
Let total_distance : Q := dp_distance_miles daily_plan.
Let base : Q := inject_Z (_calculate_odometer day_idx [] 250000).

(** The fuel stop in the middle of a segment, when there is one. *)
Definition fuel_stop_events (changes : list Event) (current_time : Z)
    (distance_covered driving_segment segment_distance : Q)
  : result (list Event) :=
  if (0 <? dp_fuel_stops daily_plan)%Z && (500 <? segment_distance) then
    let fuel_time := (current_time + timedelta_hours (driving_segment / 2))%Z in
    let fuel_distance := distance_covered + segment_distance / 2 in
    loc <- _interpolate_location fuel_distance total_distance
                                 pickup_loc dropoff_loc ;;
    let changes :=
      changes ++ [ {| status := ON_DUTY_NOT_DRIVING;
                      time := strftime_HM fuel_time;
                      location := ("Fuel Stop - " ++ loc)%string;
                      odometer := base + fuel_distance;
                      notes := "Fueling - 30 minutes" |} ] in
    let fuel_time := (fuel_time + timedelta_minutes 30)%Z in
    loc <- _interpolate_location fuel_distance total_distance
                                 pickup_loc dropoff_loc ;;
    Ok (changes ++ [ {| status := DRIVING;
                        time := strftime_HM fuel_time;
                        location := ("Fuel Stop - " ++ loc)%string;
                        odometer := base + fuel_distance;
                        notes := "Resume driving after fuel" |} ])
  else Ok changes.

(** One pass through the body of [while remaining_driving > 0]. *)
Definition drive_segment (s : DrivingState) : result DrivingState :=
  let driving_segment := Py.min 8.0 (ds_remaining_driving s) in
  loc <- _interpolate_location (ds_distance_covered s) total_distance
                               pickup_loc dropoff_loc ;;
  let changes :=
    ds_changes s ++ [ {| status := DRIVING;
                      time := strftime_HM (ds_current_time s);
                      location := loc;
                      odometer := base + ds_distance_covered s;
                      notes := "Begin driving" |} ] in
  ratio <- Py.div driving_segment driving_hours ;;
  let segment_distance := ratio * total_distance in
  changes <- fuel_stop_events changes (ds_current_time s) (ds_distance_covered s)
                              driving_segment segment_distance ;;
  let current_time := (ds_current_time s + timedelta_hours driving_segment)%Z in
  let distance_covered := ds_distance_covered s + segment_distance in
  let remaining_driving := ds_remaining_driving s - driving_segment in
  if (0 <? remaining_driving) && (8 <=? driving_segment) then
    Ok {| ds_changes :=
            changes ++ [ {| status := OFF_DUTY;
                            time := strftime_HM current_time;
                            location := "Rest Area";
                            odometer := base + distance_covered;
                            notes := "Mandatory 30-minute break after 8 hours driving" |} ];
          ds_current_time := (current_time + timedelta_minutes 30)%Z;
          ds_distance_covered := distance_covered;
          ds_remaining_driving := remaining_driving |}
  else
    Ok {| ds_changes := changes;
          ds_current_time := current_time;
          ds_distance_covered := distance_covered;
          ds_remaining_driving := remaining_driving |}.

(** Segments of eight hours still to drive: the loop's variant. *)
Definition segments_left (s : DrivingState) : nat :=
  Z.to_nat (Qceiling (ds_remaining_driving s / 8)).

Equations? drive_loop (s : DrivingState) : result DrivingState
    by wf (segments_left s) lt :=
  drive_loop s with inspect (0 <? ds_remaining_driving s) := {
    | exist _ false _ => Ok s
    | exist _ true Hc with inspect (drive_segment s) := {
      | exist _ (Raise e) _ => Raise e
      | exist _ (Ok s') Hb => drive_loop s' } }.
Proof.
  assert (Hr : ds_remaining_driving s' =
               ds_remaining_driving s - Py.min 8.0 (ds_remaining_driving s)).
  { unfold drive_segment in Hb.
    destruct (_interpolate_location _ _ _ _); [simpl in Hb | discriminate].
    destruct (Py.div _ _); [simpl in Hb | discriminate].
    destruct (fuel_stop_events _ _ _ _ _); [simpl in Hb | discriminate].
    destruct (_ && _); injection Hb as <-; reflexivity. }
  unfold segments_left. rewrite Hr. clear Hr Hb s'.
  set (r := ds_remaining_driving s) in *.
  assert (Hpos : 0 < r).
  { unfold Py.ltb in Hc. apply negb_true_iff in Hc.
    destruct (Qlt_le_dec 0 r) as [H | H]; [exact H |].
    apply Qle_bool_iff in H. congruence. }
  assert (Hc1 : (1 <= Qceiling (r / 8))%Z).
  { assert (H0 : 0 < inject_Z (Qceiling (r / 8))).
    { apply Qlt_le_trans with (r / 8); [| apply Qle_ceiling].
      apply Qlt_shift_div_l; lra. }
    unfold Qlt in H0. simpl in H0. lia. }
  assert (Hle : (Qceiling ((r - Py.min 8.0 r) / 8) <= Qceiling (r / 8) - 1)%Z).
  { rewrite <- (Qceiling_Z (Qceiling (r / 8) - 1)).
    apply Qceiling_resp_le.
    assert (Hq : inject_Z (Qceiling (r / 8) - 1)
                 == inject_Z (Qceiling (r / 8)) - 1).
    { unfold Z.sub. rewrite inject_Z_plus. reflexivity. }
    rewrite Hq.
    pose proof (Qle_ceiling (r / 8)) as Hceil.
    assert (Hc1q : inject_Z 1 <= inject_Z (Qceiling (r / 8))).
    { rewrite <- Zle_Qle. exact Hc1. }
    change (inject_Z 1) with 1 in Hc1q.
    unfold Py.min. destruct (r <? 8.0) eqn:Hlt.
    - assert (E : (r - r) / 8 == 0) by field.
      rewrite E. lra.
    - unfold Py.ltb in Hlt. apply negb_false_iff in Hlt.
      apply Qle_bool_iff in Hlt.
      assert (E : (r - 8.0) / 8 == r / 8 - 1) by field.
      rewrite E. lra. }
  lia.
Qed.

End DrivingLoop.

(** The changes before the driving loop, with the clock they leave:
    the end of the night's rest after the first day, the pre-trip
    inspection, the pickup on the first day. *)
Definition opening_changes (day_idx : nat) (current_loc pickup_loc : string)
    (log_date : Z) : list Event * Z :=
  let base := inject_Z (_calculate_odometer day_idx [] 250000) in
  let changes := [] in
  let current_time := six_am log_date in
  let changes :=
    if (0 <? day_idx)%nat then
      changes ++ [ {| status := OFF_DUTY;
                      time := strftime_HM current_time;
                      location := if (day_idx =? 0)%nat then current_loc
                                  else "Rest Area";
                      odometer := base;
                      notes := "End of required 10-hour off-duty period" |} ]
    else changes in
  let current_time := (current_time + timedelta_minutes 15)%Z in
  let changes :=
    changes ++ [ {| status := ON_DUTY_NOT_DRIVING;
                    time := strftime_HM current_time;
                    location := if (day_idx =? 0)%nat then current_loc
                                else "Rest Area";
                    odometer := base;
                    notes := "Pre-trip inspection" |} ] in
  if (day_idx =? 0)%nat then
    let current_time := (current_time + timedelta_minutes 45)%Z in
    let changes :=
      changes ++ [ {| status := ON_DUTY_NOT_DRIVING;
                      time := strftime_HM current_time;
                      location := pickup_loc;
                      odometer := base + 50;
                      notes := "Arrived at pickup location" |} ] in
    let current_time := (current_time + timedelta_hours 1)%Z in
    (changes ++ [ {| status := ON_DUTY_NOT_DRIVING;
                     time := strftime_HM current_time;
                     location := pickup_loc;
                     odometer := base + 50;
                     notes := "Completed pickup - ready to drive" |} ],
     current_time)
  else (changes, current_time).

(** [day_idx == len(daily_plan) - 1] *)
Definition last_day (daily_plan : DailyPlan) (day_idx : nat) : bool :=
  (Z.of_nat day_idx =? dp_len daily_plan - 1)%Z.

(** [daily_plan.get('is_final_day', False)] *)
Definition final_day_flag (daily_plan : DailyPlan) : bool :=
  match dp_is_final_day daily_plan with
  | Some flag => flag
  | None => false
  end.

(** The changes after the driving loop: the dropoff when the test for
    the last day holds, the post-trip inspection, the start of the
    night's rest. *)
Definition closing_changes (daily_plan : DailyPlan) (day_idx : nat)
    (dropoff_loc : string) (changes : list Event) (current_time : Z)
  : list Event :=
  let base := inject_Z (_calculate_odometer day_idx [] 250000) in
  let total_distance := dp_distance_miles daily_plan in
  let '(changes, current_time) :=
    if last_day daily_plan day_idx || final_day_flag daily_plan then
      let changes :=
        changes ++ [ {| status := ON_DUTY_NOT_DRIVING;
                        time := strftime_HM current_time;
                        location := dropoff_loc;
                        odometer := base + total_distance;
                        notes := "Arrived at delivery location" |} ] in
      let current_time := (current_time + timedelta_hours 1)%Z in
      (changes ++ [ {| status := ON_DUTY_NOT_DRIVING;
                       time := strftime_HM current_time;
                       location := dropoff_loc;
                       odometer := base + total_distance;
                       notes := "Completed delivery" |} ],
       current_time)
    else (changes, current_time) in
  let current_time := (current_time + timedelta_minutes 15)%Z in
  let changes :=
    changes ++ [ {| status := ON_DUTY_NOT_DRIVING;
                    time := strftime_HM current_time;
                    location := if last_day daily_plan day_idx
                                then dropoff_loc else "Rest Area";
                    odometer := base + total_distance;
                    notes := "Post-trip inspection" |} ] in
  let current_time := (current_time + timedelta_minutes 15)%Z in
  changes ++ [ {| status := OFF_DUTY;
                  time := strftime_HM current_time;
                  location := if last_day daily_plan day_idx
                              then dropoff_loc else "Rest Area";
                  odometer := base + total_distance;
                  notes := "Begin 10-hour off-duty period" |} ].

Definition _generate_duty_status_changes (daily_plan : DailyPlan)
    (day_idx : nat) (current_loc pickup_loc dropoff_loc : string)
    (log_date : Z) : result (list Event) :=
  let '(changes, current_time) :=
    opening_changes day_idx current_loc pickup_loc log_date in
  let driving_hours := dp_driving_hours daily_plan in
  s <- drive_loop daily_plan day_idx pickup_loc dropoff_loc
         {| ds_changes := changes;
            ds_current_time := current_time;
            ds_distance_covered := 0;
            ds_remaining_driving := driving_hours |} ;;
  Ok (closing_changes daily_plan day_idx dropoff_loc
        (ds_changes s) (ds_current_time s)).

(** *** Totals, compliance, violations *)

(** [totals[status] += duration] *)
Definition add_duration (totals : Totals) (st : DutyStatus) (duration : Q)
  : Totals :=
  match st with
  | DRIVING =>
    {| driving := driving totals + duration;
       on_duty_not_driving := on_duty_not_driving totals;
       sleeper_berth := sleeper_berth totals;
       off_duty := off_duty totals |}
  | ON_DUTY_NOT_DRIVING =>
    {| driving := driving totals;
       on_duty_not_driving := on_duty_not_driving totals + duration;
       sleeper_berth := sleeper_berth totals;
       off_duty := off_duty totals |}
  | SLEEPER_BERTH =>
    {| driving := driving totals;
       on_duty_not_driving := on_duty_not_driving totals;
       sleeper_berth := sleeper_berth totals + duration;
       off_duty := off_duty totals |}
  | OFF_DUTY =>
    {| driving := driving totals;
       on_duty_not_driving := on_duty_not_driving totals;
       sleeper_berth := sleeper_berth totals;
       off_duty := off_duty totals + duration |}
  end.

(** Hours from one change to the next, a day added when the next text
    is the earlier one. *)
Definition duration_hours (change next_change : Event) : Q :=
  let current_time := strptime_HM (time change) in
  let next_time := strptime_HM (time next_change) in
  let next_time :=
    if (next_time <? current_time)%Z then (next_time + 24 * 60)%Z
    else next_time in
  inject_Z ((next_time - current_time) * 60) / 3600.

Fixpoint accumulate_totals (duty_status_changes : list Event)
    (totals : Totals) : Totals :=
  match duty_status_changes with
  | change :: ((next_change :: _) as rest) =>
    accumulate_totals rest
      (add_duration totals (status change)
                    (duration_hours change next_change))
  | _ => totals
  end.

Definition _calculate_daily_totals (duty_status_changes : list Event)
  : Totals :=
  accumulate_totals duty_status_changes
    {| driving := 0.0; on_duty_not_driving := 0.0;
       sleeper_berth := 0.0; off_duty := 0.0 |}.

Definition _check_hos_compliance (totals : Totals) : bool :=
  (driving totals <=? max_driving_daily)
  && (driving totals + on_duty_not_driving totals <=? max_on_duty_daily).

(** The scan for a run of more than 16 driving entries; [true] when the
    message is appended (and the scan left by [break]). *)
Fixpoint consecutive_driving_scan (changes : list Event)
    (consecutive_driving : Z) : bool :=
  match changes with
  | [] => false
  | change :: rest =>
    let consecutive_driving :=
      match status change with
      | DRIVING => (consecutive_driving + 1)%Z
      | OFF_DUTY | SLEEPER_BERTH => 0%Z
      | ON_DUTY_NOT_DRIVING => consecutive_driving
      end in
    if (16 <? consecutive_driving)%Z then true
    else consecutive_driving_scan rest consecutive_driving
  end.

Definition _check_violations (totals : Totals) (changes : list Event)
  : list Violation :=
  let violations := [] in
  let violations :=
    if max_driving_daily <? driving totals
    then violations ++ [ExceededDrivingTime (driving totals) max_driving_daily]
    else violations in
  let violations :=
    if max_on_duty_daily <? driving totals + on_duty_not_driving totals then
      let total_on_duty := driving totals + on_duty_not_driving totals in
      violations ++ [ExceededOnDutyTime total_on_duty max_on_duty_daily]
    else violations in
  if consecutive_driving_scan changes 0
  then violations ++ [DroveWithoutBreak]
  else violations.

(** *** The 96-slot grid *)

(** [grid[slot] = status] ([slot] is below the length where it is used) *)
Fixpoint set_slot (grid : list DutyStatus) (slot : nat) (st : DutyStatus)
  : list DutyStatus :=
  match grid, slot with
  | [], _ => []
  | _ :: tl, O => st :: tl
  | hd :: tl, S n => hd :: set_slot tl n st
  end.

(** [for slot in range(start_slot, end_slot): if slot < 96: ...] *)
Definition fill_slots (grid : list DutyStatus) (start_slot end_slot : Z)
    (st : DutyStatus) : list DutyStatus :=
  fold_left
    (fun grid slot => if (slot <? 96)%nat then set_slot grid slot st else grid)
    (seq (Z.to_nat start_slot) (Z.to_nat (end_slot - start_slot)))
    grid.

Fixpoint fill_grid (duty_status_changes : list Event)
    (grid : list DutyStatus) : list DutyStatus :=
  match duty_status_changes with
  | change :: ((next_change :: _) as rest) =>
    let start_time := time change in
    (* a day added to [end_time] leaves its hour and minute as they are *)
    let end_time := time next_change in
    let start_slot := (hour start_time * 4 + minute start_time / 15)%Z in
    let end_slot := Z.min 96 (hour end_time * 4 + minute end_time / 15) in
    fill_grid rest (fill_slots grid start_slot end_slot (status change))
  | _ => grid
  end.

Definition _generate_log_sheet_grid (duty_status_changes : list Event)
  : LogSheet :=
  {| grid := fill_grid duty_status_changes (repeat OFF_DUTY 96);
     time_slots :=
       flat_map (fun h => map (fun m => {| hour := h; minute := m |})
                              [0; 15; 30; 45]%Z)
                (map Z.of_nat (seq 0 24)) |}.

(** *** The daily logs of a trip *)

(** The log of one day: the dict built in the body of the loop over
    the daily plans. *)
Definition daily_log (daily_plans : list DailyPlan) (log_date : Z)
    (day_idx : nat) (daily_plan : DailyPlan)
    (duty_status_changes : list Event) : DailyLog :=
  let totals := _calculate_daily_totals duty_status_changes in
  {| date := log_date;
     day_of_trip := (Z.of_nat day_idx + 1)%Z;
     driver_name := "Commercial Driver";
     duty_status_changes := duty_status_changes;
     total_drive_time := driving totals;
     total_on_duty_time := on_duty_not_driving totals + driving totals;
     total_sleeper_berth_time := sleeper_berth totals;
     total_off_duty_time := off_duty totals;
     distance_traveled := dp_distance_miles daily_plan;
     fuel_stops := dp_fuel_stops daily_plan;
     mandatory_breaks := dp_mandatory_breaks daily_plan;
     odometer_start := _calculate_odometer day_idx daily_plans 250000;
     odometer_end := _calculate_odometer (day_idx + 1) daily_plans 250000;
     vehicle_id := "TRUCK001";
     trailer_id := "TRAILER001";
     carrier_name := "Commercial Carrier";
     hos_compliant := _check_hos_compliance totals;
     violations := _check_violations totals duty_status_changes;
     log_sheet_data := _generate_log_sheet_grid duty_status_changes |}.

(** [for day_idx, daily_plan in enumerate(daily_plans)], from [day_idx]
    on; an exception leaves the whole call. *)
Fixpoint daily_logs_from (all_plans : list DailyPlan)
    (current_location pickup_location dropoff_location : string)
    (start_datetime : Z) (day_idx : nat) (plans : list DailyPlan)
  : result (list DailyLog) :=
  match plans with
  | [] => Ok []
  | daily_plan :: rest =>
    let log_date := (start_datetime + Z.of_nat day_idx)%Z in
    duty_status_changes <-
      _generate_duty_status_changes daily_plan day_idx current_location
        pickup_location dropoff_location log_date ;;
    let daily_log :=
      daily_log all_plans log_date day_idx daily_plan duty_status_changes in
    logs <- daily_logs_from all_plans current_location pickup_location
              dropoff_location start_datetime (S day_idx) rest ;;
    Ok (daily_log :: logs)
  end.

(** [now] is what [datetime.now()] reads, a datetime; [start_date] is
    the day a well-formed ['%Y-%m-%d'] text names, [None] when the
    argument is missing or empty. *)
Definition generate_daily_logs (now : Z) (trip_plan : TripPlan)
    (start_date : option Z) : result (list DailyLog) :=
  let start_date :=
    match start_date with
    | Some d => d
    | None => (now / us_per_day)%Z
    end in
  let start_datetime := start_date in
  let daily_plans := tp_daily_plans trip_plan in
  daily_logs_from daily_plans (current_location trip_plan)
    (pickup_location trip_plan) (dropoff_location trip_plan)
    start_datetime 0 daily_plans.

End ELDLogGenerator.

(** * The log sheet drawing (trips/utils/generate_log.py) *)

Module GenerateLog.

(** A duty period is a dict read with [.get]: each of its three keys
    can be missing. *)
Record Period : Type := {
  duty_type : option string;
  start_hour : option Q;
  end_hour : option Q
}.

(** [d.get(key, default)] *)
Definition get {A : Type} (value : option A) (default : A) : A :=
  match value with
  | Some v => v
  | None => default
  end.

Definition grid_start_y : Z := 80.
Definition grid_height : Z := 400.
Definition grid_start_x : Z := 80.
Definition grid_width : Z := 600.
Definition row_height : Z := (grid_height / 4)%Z.

(** [duty_colors.get(duty_type, 'black')] *)
Definition duty_colors (duty_type : string) : string :=
  if String.eqb duty_type "off_duty" then "blue"
  else if String.eqb duty_type "sleeper_berth" then "green"
  else if String.eqb duty_type "driving" then "red"
  else if String.eqb duty_type "on_duty" then "orange"
  else "black".

(** [grid_start_x + (hour * grid_width // 24)] *)
Definition hour_x (hour : Q) : Z :=
  (grid_start_x + Qfloor (hour * inject_Z grid_width / 24))%Z.

(** The [if]/[elif] chain that picks the row of a duty type. *)
Definition row (duty_type : string) : Z :=
  if String.eqb duty_type "off_duty" then 0%Z
  else if String.eqb duty_type "sleeper_berth" then 1%Z
  else if String.eqb duty_type "driving" then 2%Z
  else 3%Z.

(** A call of [draw.line], of width 4. *)
Record Line : Type := {
  start_point : Z * Z;
  end_point : Z * Z;
  fill : string
}.

(** The body of the loop that draws the duty periods. *)
Definition period_line (period : Period) : Line :=
  let duty_type := get (duty_type period) "off_duty"%string in
  let start_hour := get (start_hour period) 0 in
  let end_hour := get (end_hour period) 0 in
  let start_x := hour_x start_hour in
  let end_x := hour_x end_hour in
  let row := row duty_type in
  let y := (grid_start_y + row * row_height + 5)%Z in
  let line_y := (y + row_height / 2 - 5)%Z in
  let color := duty_colors duty_type in
  {| start_point := (start_x, line_y);
     end_point := (end_x, line_y);
     fill := color |}.

(** The dict [totals], with its four keys. *)
Record Totals : Type := {
  off_duty : Q;
  sleeper_berth : Q;
  driving : Q;
  on_duty : Q
}.

(** A result, or the [KeyError] of a subscript with a missing key. *)
Inductive outcome (A : Type) : Type :=
| Done (a : A)
| KeyError (key : string).

Arguments Done {A} a.
Arguments KeyError {A} key.

(** [totals[duty_type] += hours] *)
Definition add_hours (totals : Totals) (duty_type : string) (hours : Q)
  : outcome Totals :=
  if String.eqb duty_type "off_duty" then
    Done {| off_duty := off_duty totals + hours;
            sleeper_berth := sleeper_berth totals;
            driving := driving totals;
            on_duty := on_duty totals |}
  else if String.eqb duty_type "sleeper_berth" then
    Done {| off_duty := off_duty totals;
            sleeper_berth := sleeper_berth totals + hours;
            driving := driving totals;
            on_duty := on_duty totals |}
  else if String.eqb duty_type "driving" then
    Done {| off_duty := off_duty totals;
            sleeper_berth := sleeper_berth totals;
            driving := driving totals + hours;
            on_duty := on_duty totals |}
  else if String.eqb duty_type "on_duty" then
    Done {| off_duty := off_duty totals;
            sleeper_berth := sleeper_berth totals;
            driving := driving totals;
            on_duty := on_duty totals + hours |}
  else KeyError duty_type.

(** The loop that adds up the hours of the summary. *)
Fixpoint sum_periods (duty_periods : list Period) (totals : Totals)
  : outcome Totals :=
  match duty_periods with
  | [] => Done totals
  | period :: rest =>
    let duty_type := get (duty_type period) "off_duty"%string in
    let hours := get (end_hour period) 0 - get (start_hour period) 0 in
    match add_hours totals duty_type hours with
    | Done totals => sum_periods rest totals
    | KeyError key => KeyError key
    end
  end.

(** What [generate_log_sheet] makes of [duty_periods]: the lines of the
    periods, which it draws first, and the totals of its summary; a
    [KeyError] in the second loop leaves the function before the image
    is saved.  The title, the grid, the labels and the file are
    outside this model. *)
Definition generate_log_sheet (duty_periods : list Period)
  : outcome (list Line * Totals) :=
  let lines := map period_line duty_periods in
  match sum_periods duty_periods
          {| off_duty := 0; sleeper_berth := 0; driving := 0; on_duty := 0 |}
  with
  | Done totals => Done (lines, totals)
  | KeyError key => KeyError key
  end.

End GenerateLog.

(** * The fallback distance (trips/route_service.py)

    [_calculate_distance_fallback], the Haversine formula, over the
    real numbers.  [math.sqrt] and [math.asin] raise [ValueError]
    outside their domains: the result is [None] there. *)

Module RouteFallback.

Import Stdlib.Reals.Reals.
Local Open Scope R_scope.

(** [math.radians] *)
Definition radians (x : R) : R := x * (PI / 180).

Definition _calculate_distance_fallback (coord1 coord2 : R * R) : option R :=
  let '(lat1, lon1) := coord1 in
  let '(lat2, lon2) := coord2 in
  let lat1 := radians lat1 in
  let lon1 := radians lon1 in
  let lat2 := radians lat2 in
  let lon2 := radians lon2 in
  let dlat := lat2 - lat1 in
  let dlon := lon2 - lon1 in
  let a := sin (dlat / 2) ^ 2 + cos lat1 * cos lat2 * sin (dlon / 2) ^ 2 in
  if Rlt_dec a 0 then None
  else if Rlt_dec 1 (sqrt a) then None
  else
    let c := 2 * asin (sqrt a) in
    let r := 3956 in
    Some (c * r).

End RouteFallback.

(** * Properties *)

Import RouteService ELDLogGenerator.

(** ** What the properties are stated with *)

Definition sum_driving_hours (plans : list DailyPlan) : Q :=
  fold_right (fun p acc => dp_driving_hours p + acc) 0 plans.

Definition sum_distance_miles (plans : list DailyPlan) : Q :=
  fold_right (fun p acc => dp_distance_miles p + acc) 0 plans.

(** [|x - y| <= 1e-3] *)
Definition within_tolerance (x y : Q) : Prop :=
  Qabs (x - y) <= 1 # 1000.

(** The inputs the planner is specified for. *)
Definition valid_input (route_info : RouteInfo) (cycle_used : Q) : Prop :=
  0 <= ri_distance_miles route_info
  /\ 0 <= ri_duration_hours route_info
  /\ 0 <= cycle_used
  /\ ~ (0 < ri_duration_hours route_info /\ ri_distance_miles route_info == 0).

Definition route (distance_miles duration_hours : Q) : RouteInfo :=
  {| ri_distance_miles := distance_miles; ri_duration_hours := duration_hours |}.

(** The status and printed time of each change, and the same for
    instants of the clock that are still to be printed. *)
Definition timeline (changes : list Event) : list (DutyStatus * HHMM) :=
  map (fun e => (status e, time e)) changes.

Definition stamp (entry : DutyStatus * Z) : DutyStatus * HHMM :=
  (fst entry, strftime_HM (snd entry)).

(** The instants at which one pass of the driving loop records a
    change: the start, the fuel stop and the restart when there is a
    fuel stop, the break when there is one. *)
Definition segment_instants (fuel brk : bool) (t : Z) (driving_segment : Q)
  : list (DutyStatus * Z) :=
  [(DRIVING, t)]
  ++ (if fuel
      then [(ON_DUTY_NOT_DRIVING, (t + timedelta_hours (driving_segment / 2))%Z);
            (DRIVING, (t + timedelta_hours (driving_segment / 2)
                       + timedelta_minutes 30)%Z)]
      else [])
  ++ (if brk then [(OFF_DUTY, (t + timedelta_hours driving_segment)%Z)]
      else []).

(** The instants of the changes before and after the driving loop, and
    the clock at which the loop is entered. *)
Definition opening_instants (day_idx : nat) (log_date : Z)
  : list (DutyStatus * Z) :=
  let t := six_am log_date in
  (if (0 <? day_idx)%nat then [(OFF_DUTY, t)] else [])
  ++ [(ON_DUTY_NOT_DRIVING, (t + timedelta_minutes 15)%Z)]
  ++ (if (day_idx =? 0)%nat
      then [(ON_DUTY_NOT_DRIVING,
             (t + timedelta_minutes 15 + timedelta_minutes 45)%Z);
            (ON_DUTY_NOT_DRIVING,
             (t + timedelta_minutes 15 + timedelta_minutes 45
              + timedelta_hours 1)%Z)]
      else []).

Definition opening_clock (day_idx : nat) (log_date : Z) : Z :=
  if (day_idx =? 0)%nat
  then (six_am log_date + timedelta_minutes 15 + timedelta_minutes 45
        + timedelta_hours 1)%Z
  else (six_am log_date + timedelta_minutes 15)%Z.

Definition closing_instants (dropoff : bool) (t : Z) : list (DutyStatus * Z) :=
  if dropoff
  then [(ON_DUTY_NOT_DRIVING, t);
        (ON_DUTY_NOT_DRIVING, (t + timedelta_hours 1)%Z);
        (ON_DUTY_NOT_DRIVING,
         (t + timedelta_hours 1 + timedelta_minutes 15)%Z);
        (OFF_DUTY,
         (t + timedelta_hours 1 + timedelta_minutes 15
          + timedelta_minutes 15)%Z)]
  else [(ON_DUTY_NOT_DRIVING, (t + timedelta_minutes 15)%Z);
        (OFF_DUTY, (t + timedelta_minutes 15 + timedelta_minutes 15)%Z)].

(** The totals as they depend on the changes: through the status and
    the printed time of each. *)
Definition timeline_duration (change next_change : DutyStatus * HHMM) : Q :=
  let current_time := strptime_HM (snd change) in
  let next_time := strptime_HM (snd next_change) in
  let next_time :=
    if (next_time <? current_time)%Z then (next_time + 24 * 60)%Z
    else next_time in
  inject_Z ((next_time - current_time) * 60) / 3600.

Fixpoint timeline_totals (entries : list (DutyStatus * HHMM))
    (totals : Totals) : Totals :=
  match entries with
  | change :: ((next_change :: _) as rest) =>
    timeline_totals rest
      (add_duration totals (fst change)
                    (timeline_duration change next_change))
  | _ => totals
  end.

Definition no_hours : Totals :=
  {| driving := 0.0; on_duty_not_driving := 0.0;
     sleeper_berth := 0.0; off_duty := 0.0 |}.

(** Instants in non-decreasing order, all of them between two bounds. *)
Definition ordered_within (lo hi : Z) (instants : list (DutyStatus * Z))
  : Prop :=
  StronglySorted Z.le (map snd instants)
  /\ Forall (fun entry => (lo <= snd entry <= hi)%Z) instants.

(** What the driving loop keeps, for a day that starts at [lo] and is to
    leave the loop by [limit]: the changes recorded so far were made at
    instants in order, none after the clock; and the clock leaves room
    for the driving that remains, at 17/16 hour of clock (3825000000
    microseconds) per hour of driving, breaks included. *)
Definition on_schedule (lo limit : Z) (s : DrivingState) : Prop :=
  (exists instants,
     timeline (ds_changes s) = map stamp instants
     /\ ordered_within lo (ds_current_time s) instants)
  /\ (lo <= ds_current_time s)%Z
  /\ (0 < ds_remaining_driving s ->
      inject_Z (ds_current_time s) + 3825000000 * ds_remaining_driving s
      <= inject_Z limit)
  /\ (ds_remaining_driving s <= 0 -> (ds_current_time s <= limit)%Z).

(** The tests of the loop body, on the segment it is about to drive. *)
Definition segment_distance (daily_plan : DailyPlan) (driving_segment : Q) : Q :=
  driving_segment / dp_driving_hours daily_plan * dp_distance_miles daily_plan.

Definition fuel_fires (daily_plan : DailyPlan) (driving_segment : Q) : bool :=
  (0 <? dp_fuel_stops daily_plan)%Z
  && (500 <? segment_distance daily_plan driving_segment).

Definition break_follows (remaining_driving driving_segment : Q) : bool :=
  (0 <? remaining_driving - driving_segment) && (8 <=? driving_segment).

(** The place [_interpolate_location] names; its division is guarded,
    so it always names one ([interpolate_place] below). *)
Definition place (covered total : Q) (start_loc end_loc : string) : string :=
  match _interpolate_location covered total start_loc end_loc with
  | Ok loc => loc
  | Raise _ => EmptyString
  end.

(** The changes one pass of the driving loop records, and the state it
    leaves, when its division does not raise. *)
Definition segment_changes (daily_plan : DailyPlan) (day_idx : nat)
    (pickup_loc dropoff_loc : string) (t : Z) (covered seg : Q) (brk : bool)
  : list Event :=
  let base := inject_Z (_calculate_odometer day_idx [] 250000) in
  let total := dp_distance_miles daily_plan in
  let fuel_distance := covered + segment_distance daily_plan seg / 2 in
  let fuel_loc :=
    ("Fuel Stop - " ++ place fuel_distance total pickup_loc dropoff_loc)%string in
  [ {| status := DRIVING;
       time := strftime_HM t;
       location := place covered total pickup_loc dropoff_loc;
       odometer := base + covered;
       notes := "Begin driving" |} ]
  ++ (if fuel_fires daily_plan seg
      then [ {| status := ON_DUTY_NOT_DRIVING;
                time := strftime_HM (t + timedelta_hours (seg / 2));
                location := fuel_loc;
                odometer := base + fuel_distance;
                notes := "Fueling - 30 minutes" |};
             {| status := DRIVING;
                time := strftime_HM (t + timedelta_hours (seg / 2)
                                     + timedelta_minutes 30);
                location := fuel_loc;
                odometer := base + fuel_distance;
                notes := "Resume driving after fuel" |} ]
      else [])
  ++ (if brk
      then [ {| status := OFF_DUTY;
                time := strftime_HM (t + timedelta_hours seg);
                location := "Rest Area";
                odometer := base + (covered + segment_distance daily_plan seg);
                notes := "Mandatory 30-minute break after 8 hours driving" |} ]
      else []).

Definition pass (daily_plan : DailyPlan) (day_idx : nat)
    (pickup_loc dropoff_loc : string) (s : DrivingState) : DrivingState :=
  let seg := Py.min 8.0 (ds_remaining_driving s) in
  let brk := break_follows (ds_remaining_driving s) seg in
  {| ds_changes :=
       ds_changes s
       ++ segment_changes daily_plan day_idx pickup_loc dropoff_loc
            (ds_current_time s) (ds_distance_covered s) seg brk;
     ds_current_time :=
       if brk
       then (ds_current_time s + timedelta_hours seg + timedelta_minutes 30)%Z
       else (ds_current_time s + timedelta_hours seg)%Z;
     ds_distance_covered :=
       ds_distance_covered s + segment_distance daily_plan seg;
     ds_remaining_driving := ds_remaining_driving s - seg |}.

(** A state with its clock [k] days later. *)
Definition later (k : Z) (s : DrivingState) : DrivingState :=
  {| ds_changes := ds_changes s;
     ds_current_time := (ds_current_time s + k * us_per_day)%Z;
     ds_distance_covered := ds_distance_covered s;
     ds_remaining_driving := ds_remaining_driving s |}.

(** A trip as [get_trip_plan] hands it to the log generator. *)
Definition trip_of (plan : HosPlan) (current pickup dropoff : string)
  : TripPlan :=
  {| current_location := current;
     pickup_location := pickup;
     dropoff_location := dropoff;
     tp_daily_plans := daily_plans plan |}.

(** The changes of all the days of a trip, in order. *)
Definition all_changes (logs : list DailyLog) : list Event :=
  flat_map duty_status_changes logs.

(** The two changes of the dropoff. *)
Definition is_dropoff_change (e : Event) : bool :=
  String.eqb (notes e) "Arrived at delivery location"
  || String.eqb (notes e) "Completed delivery".

(** The printed times of a day, in minutes after midnight. *)
Definition minutes (changes : list Event) : list Z :=
  map (fun e => strptime_HM (time e)) changes.

(** A log with its date blanked. *)
Definition undated (log : DailyLog) : DailyLog :=
  {| date := 0;
     day_of_trip := day_of_trip log;
     driver_name := driver_name log;
     duty_status_changes := duty_status_changes log;
     total_drive_time := total_drive_time log;
     total_on_duty_time := total_on_duty_time log;
     total_sleeper_berth_time := total_sleeper_berth_time log;
     total_off_duty_time := total_off_duty_time log;
     distance_traveled := distance_traveled log;
     fuel_stops := ELDLogGenerator.fuel_stops log;
     mandatory_breaks := ELDLogGenerator.mandatory_breaks log;
     odometer_start := odometer_start log;
     odometer_end := odometer_end log;
     vehicle_id := vehicle_id log;
     trailer_id := trailer_id log;
     carrier_name := carrier_name log;
     hos_compliant := hos_compliant log;
     violations := violations log;
     log_sheet_data := log_sheet_data log |}.

Definition undated_logs (r : result (list DailyLog)) : result (list DailyLog) :=
  match r with
  | Ok logs => Ok (map undated logs)
  | Raise e => Raise e
  end.

(** The state in which the driving loop is entered. *)
Definition loop_entry (daily_plan : DailyPlan) (changes : list Event)
    (current_time : Z) : DrivingState :=
  {| ds_changes := changes;
     ds_current_time := current_time;
     ds_distance_covered := 0;
     ds_remaining_driving := dp_driving_hours daily_plan |}.

(** ** Further notions

    What the properties of the second part are stated with. *)

(** The on-duty hours of a planned day before any hour for the dropoff:
    driving, half an hour per fuel stop, one hour for the pickup on
    day 1. *)
Definition on_duty_before_dropoff (day : DailyPlan) : Q :=
  dp_driving_hours day + inject_Z (dp_fuel_stops day) * 0.5
  + (if (dp_day day =? 1)%Z then 1 else 0).

Definition sum_fuel_stops (plans : list DailyPlan) : Z :=
  fold_right (fun p acc => (dp_fuel_stops p + acc)%Z) 0%Z plans.






(** How many changes of a day carry a given note. *)
Definition has_notes (text : string) (e : Event) : bool :=
  String.eqb (notes e) text.

Definition count_notes (text : string) (changes : list Event) : nat :=
  List.length (filter (has_notes text) changes).

Definition break_notes : string :=
  "Mandatory 30-minute break after 8 hours driving".

Definition begin_driving_notes : string := "Begin driving".

Definition fueling_notes : string := "Fueling - 30 minutes".

(** The hours a log accounts for. *)
Definition total_hours (totals : Totals) : Q :=
  driving totals + on_duty_not_driving totals
  + sleeper_berth totals + off_duty totals.

(** The quarter of an hour of the day in which a printed time falls,
    and the times [strptime] reads. *)
Definition slot_of (t : HHMM) : Z := (hour t * 4 + minute t / 15)%Z.

Definition valid_time (t : HHMM) : Prop :=
  (0 <= hour t < 24)%Z /\ (0 <= minute t < 60)%Z.

(** Odometer readings that never step back, all of them between two
    bounds. *)
Definition climbing (lo hi : Q) (readings : list Q) : Prop :=
  StronglySorted Qle readings /\ Forall (fun o => lo <= o <= hi) readings.


(** The duty types the summary of a log sheet has a key for, and the
    hours of a list of periods. *)
Definition known_duty_type (period : GenerateLog.Period) : bool :=
  let duty_type :=
    GenerateLog.get (GenerateLog.duty_type period) "off_duty"%string in
  String.eqb duty_type "off_duty" || String.eqb duty_type "sleeper_berth"
  || String.eqb duty_type "driving" || String.eqb duty_type "on_duty".

Definition period_hours (period : GenerateLog.Period) : Q :=
  GenerateLog.get (GenerateLog.end_hour period) 0
  - GenerateLog.get (GenerateLog.start_hour period) 0.

Definition sum_hours (periods : list GenerateLog.Period) : Q :=
  fold_right (fun p acc => period_hours p + acc) 0 periods.

Definition sheet_hours (totals : GenerateLog.Totals) : Q :=
  GenerateLog.off_duty totals + GenerateLog.sleeper_berth totals
  + GenerateLog.driving totals + GenerateLog.on_duty totals.

(** The total of one status. *)
Definition hours_of (st : DutyStatus) (totals : Totals) : Q :=
  match st with
  | OFF_DUTY => off_duty totals
  | SLEEPER_BERTH => sleeper_berth totals
  | DRIVING => driving totals
  | ON_DUTY_NOT_DRIVING => on_duty_not_driving totals
  end.

Definition same_status (a b : DutyStatus) : bool :=
  match a, b with
  | OFF_DUTY, OFF_DUTY | SLEEPER_BERTH, SLEEPER_BERTH
  | DRIVING, DRIVING | ON_DUTY_NOT_DRIVING, ON_DUTY_NOT_DRIVING => true
  | _, _ => false
  end.

(** The changes of a day as statuses with minutes after midnight, and
    the minutes such a list spends in one status. *)
Definition in_minutes (changes : list Event) : list (DutyStatus * Z) :=
  map (fun e => (status e, strptime_HM (time e))) changes.

Fixpoint minutes_in (st : DutyStatus) (entries : list (DutyStatus * Z)) : Z :=
  match entries with
  | change :: ((next_change :: _) as rest) =>
    ((if same_status (fst change) st then snd next_change - snd change else 0)
     + minutes_in st rest)%Z
  | _ => 0%Z
  end.

(** A day with a whole number [m] of driving minutes and no fuel stop,
    in minutes after midnight: what is done before driving, the
    driving with its break after eight hours, what is done after it. *)
Definition scale (entry : DutyStatus * Z) : DutyStatus * Z :=
  (fst entry, (snd entry * us_per_minute)%Z).

Definition opening_minutes (day_idx : nat) : list (DutyStatus * Z) :=
  (if (0 <? day_idx)%nat then [(OFF_DUTY, 360%Z)] else [])
  ++ [(ON_DUTY_NOT_DRIVING, 375%Z)]
  ++ (if (day_idx =? 0)%nat
      then [(ON_DUTY_NOT_DRIVING, 420%Z); (ON_DUTY_NOT_DRIVING, 480%Z)]
      else []).

Definition opening_minute (day_idx : nat) : Z :=
  if (day_idx =? 0)%nat then 480%Z else 375%Z.

Definition driving_minutes (m t : Z) : list (DutyStatus * Z) :=
  if (m <=? 480)%Z then [(DRIVING, t)]
  else [(DRIVING, t); (OFF_DUTY, (t + 480)%Z); (DRIVING, (t + 510)%Z)].

Definition closing_minutes (dropoff : bool) (t : Z) : list (DutyStatus * Z) :=
  if dropoff
  then [(ON_DUTY_NOT_DRIVING, t); (ON_DUTY_NOT_DRIVING, (t + 60)%Z);
        (ON_DUTY_NOT_DRIVING, (t + 75)%Z); (OFF_DUTY, (t + 90)%Z)]
  else [(ON_DUTY_NOT_DRIVING, (t + 15)%Z); (OFF_DUTY, (t + 30)%Z)].

Definition day_minutes (day_idx : nat) (dropoff : bool) (m : Z)
  : list (DutyStatus * Z) :=
  opening_minutes day_idx
  ++ driving_minutes m (opening_minute day_idx)
  ++ closing_minutes dropoff
       (opening_minute day_idx + m + (if (m <=? 480)%Z then 0 else 30))%Z.

(** ** Comparisons *)

Lemma ltb_lt (x y : Q) : (x <? y) = true <-> x < y.
Proof.
  unfold Py.ltb. rewrite negb_true_iff. split; intros H.
  - destruct (Qlt_le_dec x y) as [Hlt | Hle]; [exact Hlt |].
    apply Qle_bool_iff in Hle. congruence.
  - destruct (Qle_bool y x) eqn:E; [| reflexivity].
    apply Qle_bool_iff in E. lra.
Qed.

Lemma ltb_ge (x y : Q) : (x <? y) = false <-> y <= x.
Proof.
  unfold Py.ltb. rewrite negb_false_iff. apply Qle_bool_iff.
Qed.

Lemma leb_le (x y : Q) : (x <=? y) = true <-> x <= y.
Proof. apply Qle_bool_iff. Qed.

Lemma leb_gt (x y : Q) : (x <=? y) = false <-> y < x.
Proof.
  unfold Py.leb. split; intros H.
  - destruct (Qlt_le_dec y x) as [Hlt | Hle]; [exact Hlt |].
    apply Qle_bool_iff in Hle. congruence.
  - destruct (Qle_bool x y) eqn:E; [| reflexivity].
    apply Qle_bool_iff in E. lra.
Qed.

Lemma eqb_eq (x y : Q) : (x =? y) = true <-> x == y.
Proof. apply Qeq_bool_iff. Qed.

Lemma eqb_neq (x y : Q) : (x =? y) = false <-> ~ x == y.
Proof.
  unfold Py.eqb. split; intros H.
  - apply Qeq_bool_neq. exact H.
  - destruct (Qeq_bool x y) eqn:E; [| reflexivity].
    apply Qeq_bool_iff in E. contradiction.
Qed.

Lemma min_le_l (x y : Q) : Py.min x y <= x.
Proof.
  unfold Py.min. destruct (y <? x) eqn:E; [| lra].
  apply ltb_lt in E. lra.
Qed.

Lemma min_le_r (x y : Q) : Py.min x y <= y.
Proof.
  unfold Py.min. destruct (y <? x) eqn:E; [lra |].
  apply ltb_ge in E. exact E.
Qed.

Lemma Ok_inj {A : Type} (a b : A) : Ok a = Ok b -> a = b.
Proof. intros H. injection H. trivial. Qed.

Lemma div_ok (x y : Q) : ~ y == 0 -> Py.div x y = Ok (x / y).
Proof.
  intros H. unfold Py.div. apply eqb_neq in H. rewrite H. reflexivity.
Qed.

(** ** The planner's loops unfolded *)

Lemma plan_loop_eq dm dh days rd rh cd :
  plan_loop dm dh days rd rh cd =
  if plan_continue days rd cd then
    match plan_day dm dh rd rh cd with
    | Raise e => Raise e
    | Ok daily_plan =>
      match plan_loop dm dh days (rd - dp_distance_miles daily_plan)
                      (rh - dp_driving_hours daily_plan) (cd + 1) with
      | Raise e => Raise e
      | Ok rest => Ok (daily_plan :: rest)
      end
    end
  else Ok [].
Proof.
  funelim (plan_loop dm dh days rd rh cd);
    match goal with
    | E : plan_continue _ _ _ = _ |- _ => rewrite E; reflexivity
    end.
Qed.

Lemma avg_speed_ok dm dh :
  exists v, avg_speed dm dh = Ok v
            /\ (0 < dh -> v == dm / dh) /\ (dh <= 0 -> v = 55).
Proof.
  unfold avg_speed. destruct (0 <? dh) eqn:E.
  - apply ltb_lt in E. exists (dm / dh). rewrite div_ok by lra.
    split; [reflexivity |]. split; intros; [reflexivity | lra].
  - apply ltb_ge in E. exists 55.
    split; [reflexivity |]. split; intros; [lra | reflexivity].
Qed.

Lemma plan_day_ok dm dh rd rh cd : exists p, plan_day dm dh rd rh cd = Ok p.
Proof.
  unfold plan_day. destruct (avg_speed_ok dm dh) as (v & -> & _).
  simpl. eexists. reflexivity.
Qed.

Lemma plan_loop_ok dm dh days rd rh cd :
  exists plans, plan_loop dm dh days rd rh cd = Ok plans.
Proof.
  funelim (plan_loop dm dh days rd rh cd); [| eexists; reflexivity].
  destruct (plan_day_ok dm dh remaining_distance remaining_driving current_day)
    as [p Hp].
  rewrite Hp.
  match goal with
  | IH : forall d : DailyPlan, exists _, _ |- _ => destruct (IH p) as [l ->]
  end.
  eexists. reflexivity.
Qed.

Lemma plan_loop_no_distance dm dh days rd rh cd :
  rd <= 0 -> plan_loop dm dh days rd rh cd = Ok [].
Proof.
  intros H. rewrite plan_loop_eq. unfold plan_continue.
  apply ltb_ge in H. rewrite H. reflexivity.
Qed.

(** ** The planner *)

(** C4.  On 500 miles, 9 hours and no cycle hours used the planner
    returns one day: [days_needed] is 1, no fuel stop, one mandatory
    break (half an hour of break time in the summary), 9 hours of
    driving, and both the pickup test and the dropoff test of the loop
    body hold for that day (one hour of on-duty time each: 11 hours). *)
Theorem scenario_500_miles_9_hours :
  exists plan day,
    generate_hos_compliant_plan (route 500 9) 0 = Ok plan
    /\ total_days_needed plan = 1%Z
    /\ total_fuel_stops plan = 0%Z
    /\ RouteService.mandatory_breaks 9 = 1%Z
    /\ mandatory_break_time (summary plan) == 0.5
    /\ daily_plans plan = [day]
    /\ dp_day day = 1%Z
    /\ dp_driving_hours day = 9
    /\ dp_distance_miles day == 500
    /\ dp_fuel_stops day = 0%Z
    /\ dp_mandatory_breaks day = 1%Z
    /\ includes_pickup (dp_day day) = true
    /\ includes_dropoff 500 (dp_distance_miles day) = true
    /\ dp_total_on_duty day == 11.
Proof.
  eexists. eexists.
  split; [vm_compute; reflexivity |].
  repeat split; vm_compute; congruence.
Qed.

(** C1, at the failing input.  1000 miles in 23 hours is a valid input;
    [days_needed] is 2, the loop stops after two days of 11 hours, and
    the daily plans cover 22 hours and 22000/23 miles: one hour and
    about 43.5 miles of the route are in no day. *)
Theorem plan_stops_short_of_the_route :
  exists plan,
    valid_input (route 1000 23) 0
    /\ generate_hos_compliant_plan (route 1000 23) 0 = Ok plan
    /\ total_days_needed plan = 2%Z
    /\ List.length (daily_plans plan) = 2%nat
    /\ sum_driving_hours (daily_plans plan) == 22
    /\ sum_distance_miles (daily_plans plan) == 22000 # 23
    /\ ~ within_tolerance (sum_driving_hours (daily_plans plan)) 23
    /\ ~ within_tolerance (sum_distance_miles (daily_plans plan)) 1000.
Proof.
  eexists.
  split.
  { unfold valid_input, route; simpl. lra. }
  split; [vm_compute; reflexivity |].
  repeat split; vm_compute; congruence.
Qed.

(** C3, counterexample.  Negative distance, duration and cycle hours,
    and a positive duration over zero distance, both come back as a
    normal plan with no day in it. *)
Lemma invalid_input_returns_a_plan :
  (exists plan,
     generate_hos_compliant_plan (route (-5) (-1)) (-3) = Ok plan
     /\ daily_plans plan = [])
  /\ (exists plan,
        generate_hos_compliant_plan (route 0 5) 0 = Ok plan
        /\ daily_plans plan = [])
  /\ generate_hos_compliant_plan (route (-5) (-1)) (-3) <> Raise InvalidInput
  /\ generate_hos_compliant_plan (route 0 5) 0 <> Raise InvalidInput.
Proof.
  repeat split.
  - eexists. split; vm_compute; reflexivity.
  - eexists. split; vm_compute; reflexivity.
  - vm_compute. discriminate.
  - vm_compute. discriminate.
Qed.

(** C3, as amended.  The planner checks nothing and raises nothing: for
    every input it returns a plan, and when the distance is not
    positive that plan has no day. *)
Theorem planner_always_returns (route_info : RouteInfo) (cycle_used : Q) :
  exists plan,
    generate_hos_compliant_plan route_info cycle_used = Ok plan
    /\ (ri_distance_miles route_info <= 0 -> daily_plans plan = []).
Proof.
  unfold generate_hos_compliant_plan.
  destruct (plan_loop_ok (ri_distance_miles route_info)
              (ri_duration_hours route_info)
              (days_needed (ri_distance_miles route_info)
                           (ri_duration_hours route_info))
              (ri_distance_miles route_info)
              (ri_duration_hours route_info) 1) as [plans Hplans].
  rewrite Hplans. simpl. eexists. split; [reflexivity |].
  simpl. intros Hd.
  rewrite plan_loop_no_distance in Hplans by exact Hd.
  congruence.
Qed.

Lemma planner_always_returns_witness :
  exists plan,
    generate_hos_compliant_plan (route 0 5) 0 = Ok plan
    /\ daily_plans plan = [].
Proof.
  destruct (planner_always_returns (route 0 5) 0) as (plan & Hplan & Hnone).
  exists plan. split; [exact Hplan |].
  apply Hnone. simpl. lra.
Defined.

(** Every day of a plan comes out of the loop body. *)
Lemma plan_loop_Forall (P : DailyPlan -> Prop) dm dh days :
  (forall rd rh cd day, plan_day dm dh rd rh cd = Ok day -> P day) ->
  forall rd rh cd plans,
    plan_loop dm dh days rd rh cd = Ok plans -> Forall P plans.
Proof.
  intros HP rd rh cd.
  funelim (plan_loop dm dh days rd rh cd); intros plans Hplans.
  - destruct (plan_day dm dh remaining_distance remaining_driving current_day)
      as [day |] eqn:Hday; [| discriminate].
    destruct (plan_loop dm dh days _ _ _) as [rest |] eqn:Hrest;
      [| discriminate].
    injection Hplans as <-. constructor.
    + eapply HP. exact Hday.
    + match goal with
      | IH : forall d : DailyPlan, _ |- _ => eapply (IH day); [exact HP | exact Hrest]
      end.
  - injection Hplans as <-. constructor.
Qed.

Lemma Qfloor_lt_bound (x : Q) (n : Z) : x < inject_Z n -> (Qfloor x < n)%Z.
Proof.
  intros H. rewrite Zlt_Qlt.
  apply Qle_lt_trans with x; [apply Qfloor_le | exact H].
Qed.

Lemma plan_day_caps dm dh rd rh cd day :
  plan_day dm dh rd rh cd = Ok day ->
  dp_driving_hours day <= 11
  /\ (0 <= dm -> dm * 11 < 3000 * dh -> dp_total_on_duty day <= 14).
Proof.
  unfold plan_day.
  destruct (avg_speed_ok dm dh) as (v & -> & Hv & _).
  cbn [Py.bind]. intros Hday. apply Ok_inj in Hday. subst day.
  cbn [dp_driving_hours dp_total_on_duty].
  pose proof (min_le_l RouteService.max_driving_daily rh) as Hdrv.
  unfold RouteService.max_driving_daily in *.
  set (drv := Py.min 11 rh) in *.
  split; [exact Hdrv |].
  intros Hdm Hspeed.
  assert (Hdh : 0 < dh) by lra.
  specialize (Hv Hdh).
  assert (Hv0 : 0 <= v).
  { rewrite Hv. apply Qle_shift_div_l; lra. }
  assert (Hv11 : v * 11 < 3000).
  { rewrite Hv.
    assert (E : dm / dh * 11 == dm * 11 / dh) by (field; lra).
    rewrite E. apply Qlt_shift_div_r; lra. }
  assert (Hdist : drv * v < 3000).
  { assert (H0 : 0 <= (11 - drv) * v) by (apply Qmult_le_0_compat; lra).
    lra. }
  assert (Hfuel : inject_Z
            (if fuel_stop_interval <=? drv * v
             then Qfloor (drv * v / fuel_stop_interval) else 0%Z) <= 2).
  { destruct (fuel_stop_interval <=? drv * v); [| unfold Qle; simpl; lia].
    change 2 with (inject_Z 2). rewrite <- Zle_Qle.
    apply Z.lt_succ_r. apply Qfloor_lt_bound.
    unfold fuel_stop_interval. simpl inject_Z.
    apply Qlt_shift_div_r; [lra |].
    change (inject_Z 3%Z) with 3. lra. }
  destruct (includes_pickup cd), (includes_dropoff rd (drv * v)); lra.
Qed.

(** C2, counterexample.  3000 miles in 11 hours is a valid input, and
    the only day planned has three fuel stops: 14.5 hours on duty. *)
Lemma on_duty_cap_counterexample :
  exists plan day,
    valid_input (route 3000 11) 0
    /\ generate_hos_compliant_plan (route 3000 11) 0 = Ok plan
    /\ In day (daily_plans plan)
    /\ dp_total_on_duty day == 14.5
    /\ ~ dp_total_on_duty day <= 14.
Proof.
  eexists. eexists.
  split; [unfold valid_input, route; simpl; lra |].
  split; [vm_compute; reflexivity |].
  split; [left; reflexivity |].
  split; vm_compute; congruence.
Qed.

(** C2, as amended.  Every day of every plan has at most 11 hours of
    driving.  Its on-duty total is at most 14 hours when the route's
    average speed is below 3000/11 mph, that is when
    [distance_miles * 11 < 3000 * duration_hours]: a day then has at
    most two fuel stops. *)
Theorem daily_caps (route_info : RouteInfo) (cycle_used : Q) (plan : HosPlan) :
  generate_hos_compliant_plan route_info cycle_used = Ok plan ->
  Forall (fun day =>
            dp_driving_hours day <= 11
            /\ (ri_distance_miles route_info * 11
                  < 3000 * ri_duration_hours route_info ->
                dp_total_on_duty day <= 14))
         (daily_plans plan).
Proof.
  unfold generate_hos_compliant_plan.
  set (dm := ri_distance_miles route_info).
  set (dh := ri_duration_hours route_info).
  destruct (plan_loop dm dh (days_needed dm dh) dm dh 1) as [plans |] eqn:Hloop;
    [| discriminate].
  simpl. intros [= <-]. simpl.
  destruct (Qlt_le_dec 0 dm) as [Hpos | Hneg].
  - eapply plan_loop_Forall; [| exact Hloop].
    intros rd rh cd day Hday.
    destruct (plan_day_caps _ _ _ _ _ _ Hday) as [H11 H14].
    split; [exact H11 |]. intros Hspeed. apply H14; [lra | exact Hspeed].
  - rewrite plan_loop_no_distance in Hloop by exact Hneg.
    injection Hloop as <-. constructor.
Qed.

Lemma daily_caps_witness :
  exists plan,
    generate_hos_compliant_plan (route 1000 23) 0 = Ok plan
    /\ Forall (fun day => dp_driving_hours day <= 11
                          /\ dp_total_on_duty day <= 14)
              (daily_plans plan).
Proof.
  eexists. split; [vm_compute; reflexivity |].
  pose proof (daily_caps (route 1000 23) 0 _ eq_refl) as H.
  eapply Forall_impl; [| exact H].
  intros day [H11 H14]. split; [exact H11 |].
  apply H14. simpl. lra.
Defined.



(** ** The clock *)

Lemma strftime_HM_day_shift (t k : Z) :
  strftime_HM (t + k * us_per_day) = strftime_HM t.
Proof.
  unfold strftime_HM, us_per_day, us_per_hour, us_per_minute. f_equal.
  - replace (k * 86400000000)%Z with (k * 24 * 3600000000)%Z by lia.
    rewrite Z.div_add by lia. rewrite Z.mod_add by lia. reflexivity.
  - replace (k * 86400000000)%Z with (k * 1440 * 60000000)%Z by lia.
    rewrite Z.div_add by lia.
    replace (k * 1440)%Z with (k * 24 * 60)%Z by lia.
    rewrite Z.mod_add by lia. reflexivity.
Qed.

(** Reading back a printed time gives the minute of the day. *)
Lemma strptime_strftime (t : Z) :
  strptime_HM (strftime_HM t) = ((t / us_per_minute) mod 1440)%Z.
Proof.
  unfold strptime_HM, strftime_HM, us_per_hour, us_per_minute. simpl.
  replace 3600000000%Z with (60000000 * 60)%Z by reflexivity.
  rewrite <- Z.div_div by lia.
  set (m := (t / 60000000)%Z).
  replace 1440%Z with (60 * 24)%Z by reflexivity.
  rewrite Z.rem_mul_r by lia. lia.
Qed.

(** Within the day that starts at [day * us_per_day], the minute of the
    day grows with the clock. *)
Lemma minute_of_day_in_day (day t : Z) :
  (day * us_per_day <= t < (day + 1) * us_per_day)%Z ->
  strptime_HM (strftime_HM t) = (t / us_per_minute - day * 1440)%Z.
Proof.
  intros [Hlo Hhi]. rewrite strptime_strftime.
  unfold us_per_day, us_per_minute in *.
  assert (H1 : (day * 1440 <= t / 60000000)%Z).
  { apply Z.div_le_lower_bound; lia. }
  assert (H2 : (t / 60000000 < (day + 1) * 1440)%Z).
  { apply Z.div_lt_upper_bound; lia. }
  replace (t / 60000000)%Z
    with ((t / 60000000 - day * 1440) + day * 1440)%Z by lia.
  rewrite Z.mod_add by lia. rewrite Z.mod_small by lia. lia.
Qed.

Lemma round_half_even_comp (x y : Q) :
  x == y -> round_half_even x = round_half_even y.
Proof.
  intros E. unfold round_half_even.
  rewrite (Qfloor_comp x y E).
  set (f := Qfloor y).
  assert (Er : x - inject_Z f == y - inject_Z f) by (rewrite E; reflexivity).
  assert (E1 : (x - inject_Z f <? 0.5) = (y - inject_Z f <? 0.5)).
  { destruct (y - inject_Z f <? 0.5) eqn:H.
    - apply ltb_lt. apply ltb_lt in H. lra.
    - apply ltb_ge. apply ltb_ge in H. lra. }
  assert (E2 : (0.5 <? x - inject_Z f) = (0.5 <? y - inject_Z f)).
  { destruct (0.5 <? y - inject_Z f) eqn:H.
    - apply ltb_lt. apply ltb_lt in H. lra.
    - apply ltb_ge. apply ltb_ge in H. lra. }
  rewrite E1, E2. reflexivity.
Qed.

(** Rounding moves a number by at most one half. *)
Lemma round_half_even_near (x : Q) :
  inject_Z (round_half_even x) - 0.5 <= x
  /\ x <= inject_Z (round_half_even x) + 0.5.
Proof.
  unfold round_half_even.
  pose proof (Qfloor_le x) as Hlo.
  pose proof (Qlt_floor x) as Hhi.
  rewrite inject_Z_plus in Hhi. change (inject_Z 1) with 1 in Hhi.
  set (f := Qfloor x) in *.
  destruct (x - inject_Z f <? 0.5) eqn:E1.
  { apply ltb_lt in E1. lra. }
  apply ltb_ge in E1.
  assert (Hup : inject_Z (f + 1) == inject_Z f + 1).
  { rewrite inject_Z_plus. reflexivity. }
  destruct (0.5 <? x - inject_Z f) eqn:E2.
  { rewrite Hup. lra. }
  apply ltb_ge in E2.
  destruct (Z.even f); [| rewrite Hup]; lra.
Qed.

Lemma round_half_even_Z (n : Z) : round_half_even (inject_Z n) = n.
Proof.
  unfold round_half_even. rewrite Qfloor_Z.
  assert (E : (inject_Z n - inject_Z n <? 0.5) = true).
  { apply ltb_lt. lra. }
  rewrite E. reflexivity.
Qed.

Lemma round_half_even_nonneg (x : Q) : 0 <= x -> (0 <= round_half_even x)%Z.
Proof.
  intros H. destruct (round_half_even_near x) as [_ Hhi].
  assert (Hn : inject_Z (-1) < inject_Z (round_half_even x)).
  { change (inject_Z (-1)) with (-1 # 1). lra. }
  rewrite <- Zlt_Qlt in Hn. lia.
Qed.

Lemma timedelta_hours_nonneg (h : Q) : 0 <= h -> (0 <= timedelta_hours h)%Z.
Proof.
  intros H. apply round_half_even_nonneg.
  apply Qmult_le_0_compat; [exact H |].
  unfold us_per_hour. unfold Qle. simpl. lia.
Qed.

Lemma timedelta_hours_comp (x y : Q) :
  x == y -> timedelta_hours x = timedelta_hours y.
Proof.
  intros E. apply round_half_even_comp. rewrite E. reflexivity.
Qed.

(** ** The driving loop *)

Lemma drive_loop_eq dp i pl dl s :
  drive_loop dp i pl dl s =
  if 0 <? ds_remaining_driving s then
    match drive_segment dp i pl dl s with
    | Raise e => Raise e
    | Ok s' => drive_loop dp i pl dl s'
    end
  else Ok s.
Proof.
  funelim (drive_loop dp i pl dl s);
    match goal with
    | E : (0 <? _) = _ |- _ => rewrite E
    end;
    try match goal with
        | E : drive_segment _ _ _ _ _ = _ |- _ => rewrite E
        end;
    reflexivity.
Qed.

Lemma interpolate_ok (covered total : Q) (start_loc end_loc : string) :
  exists loc, _interpolate_location covered total start_loc end_loc = Ok loc.
Proof.
  unfold _interpolate_location.
  destruct (total =? 0) eqn:E; [eexists; reflexivity |].
  apply eqb_neq in E. rewrite div_ok by exact E. cbn [Py.bind].
  destruct (_ <? 0.3); [eexists; reflexivity |].
  destruct (_ <? 0.7); eexists; reflexivity.
Qed.

Lemma interpolate_place (covered total : Q) (start_loc end_loc : string) :
  _interpolate_location covered total start_loc end_loc
  = Ok (place covered total start_loc end_loc).
Proof.
  unfold place.
  destruct (interpolate_ok covered total start_loc end_loc) as [loc ->].
  reflexivity.
Qed.

(** One pass of the loop body: it raises when the day's driving hours
    are zero, and otherwise leaves the state [pass]. *)
Lemma drive_segment_eq dp i pl dl s :
  drive_segment dp i pl dl s =
  if dp_driving_hours dp =? 0 then Raise ZeroDivisionError
  else Ok (pass dp i pl dl s).
Proof.
  unfold drive_segment. rewrite interpolate_place. cbn [Py.bind].
  unfold Py.div at 1. destruct (dp_driving_hours dp =? 0); [reflexivity |].
  cbn [Py.bind]. unfold fuel_stop_events.
  set (seg := Py.min 8.0 (ds_remaining_driving s)).
  fold (segment_distance dp seg). fold (fuel_fires dp seg).
  fold (break_follows (ds_remaining_driving s) seg).
  unfold pass, segment_changes. fold seg.
  destruct (fuel_fires dp seg).
  - rewrite interpolate_place. cbn [Py.bind].
    destruct (break_follows (ds_remaining_driving s) seg);
      rewrite <- !app_assoc; reflexivity.
  - cbn [Py.bind].
    destruct (break_follows (ds_remaining_driving s) seg);
      rewrite <- ?app_assoc; reflexivity.
Qed.

Lemma drive_segment_pass dp i pl dl s :
  ~ dp_driving_hours dp == 0 ->
  drive_segment dp i pl dl s = Ok (pass dp i pl dl s).
Proof.
  intros H. rewrite drive_segment_eq. apply eqb_neq in H. rewrite H.
  reflexivity.
Qed.

Lemma timeline_segment_changes dp i pl dl t covered seg brk :
  timeline (segment_changes dp i pl dl t covered seg brk)
  = map stamp (segment_instants (fuel_fires dp seg) brk t seg).
Proof.
  unfold segment_changes, segment_instants.
  destruct (fuel_fires dp seg), brk; reflexivity.
Qed.


Lemma drive_loop_skipped dp i pl dl s :
  ds_remaining_driving s <= 0 -> drive_loop dp i pl dl s = Ok s.
Proof.
  intros H. rewrite drive_loop_eq. apply ltb_ge in H. rewrite H. reflexivity.
Qed.

(** Induction along the passes of the loop. *)
Lemma drive_loop_passes dp i pl dl (P : DrivingState -> Prop) :
  (forall s, ds_remaining_driving s <= 0 -> P s) ->
  (forall s e, 0 < ds_remaining_driving s ->
               drive_segment dp i pl dl s = Raise e -> P s) ->
  (forall s s', 0 < ds_remaining_driving s ->
                drive_segment dp i pl dl s = Ok s' -> P s' -> P s) ->
  forall s, P s.
Proof.
  intros Hexit Hraise Hpass s.
  funelim (drive_loop dp i pl dl s).
  - apply Hexit. apply ltb_ge. assumption.
  - eapply Hpass; [apply ltb_lt; assumption | eassumption |].
    match goal with
    | IH : forall P : DrivingState -> Prop, _ |- _ =>
      apply IH; assumption
    end.
  - eapply Hraise; [apply ltb_lt; assumption | eassumption].
Qed.

(** The rule of the [while] loop: what every pass keeps holds at the
    exit, where no driving remains. *)
Lemma drive_loop_rule (I : DrivingState -> Prop) dp i pl dl :
  (forall s s', I s -> 0 < ds_remaining_driving s ->
                drive_segment dp i pl dl s = Ok s' -> I s') ->
  forall s s', I s -> drive_loop dp i pl dl s = Ok s' ->
               I s' /\ ds_remaining_driving s' <= 0.
Proof.
  intros Hstep s.
  apply (drive_loop_passes dp i pl dl
           (fun s => forall s', I s -> drive_loop dp i pl dl s = Ok s' ->
                                I s' /\ ds_remaining_driving s' <= 0)).
  - intros s0 Hexit sf HI Hloop.
    rewrite drive_loop_skipped in Hloop by exact Hexit.
    apply Ok_inj in Hloop. subst sf. split; assumption.
  - intros s0 e Hpos Hseg sf HI Hloop.
    rewrite drive_loop_eq in Hloop.
    apply ltb_lt in Hpos. rewrite Hpos, Hseg in Hloop. discriminate.
  - intros s0 s1 Hpos Hseg IH sf HI Hloop.
    rewrite drive_loop_eq in Hloop.
    pose proof Hpos as Hposb. apply ltb_lt in Hposb.
    rewrite Hposb, Hseg in Hloop.
    apply IH; [eapply Hstep; eassumption | exact Hloop].
Qed.

(** The loop returns: a pass is entered with driving hours that are not
    zero, the only condition under which its division could raise. *)
Lemma drive_loop_returns dp i pl dl s :
  (0 < ds_remaining_driving s -> ~ dp_driving_hours dp == 0) ->
  exists s', drive_loop dp i pl dl s = Ok s'.
Proof.
  apply (drive_loop_passes dp i pl dl
           (fun s => (0 < ds_remaining_driving s -> ~ dp_driving_hours dp == 0)
                     -> exists s', drive_loop dp i pl dl s = Ok s')).
  - intros s0 Hexit _.
    rewrite drive_loop_skipped by exact Hexit. eexists. reflexivity.
  - intros s0 e Hpos Hseg Hdh. exfalso.
    rewrite drive_segment_pass in Hseg by exact (Hdh Hpos). discriminate.
  - intros s0 s1 Hpos Hseg IH Hdh.
    rewrite drive_loop_eq.
    pose proof Hpos as Hposb. apply ltb_lt in Hposb. rewrite Hposb, Hseg.
    apply IH. intros _. apply Hdh. exact Hpos.
Qed.

Lemma loop_entry_returns dp i pl dl changes t :
  exists s, drive_loop dp i pl dl (loop_entry dp changes t) = Ok s.
Proof.
  apply drive_loop_returns. unfold loop_entry. cbn [ds_remaining_driving].
  intros Hpos E. lra.
Qed.

Lemma generate_changes_eq dp i cur pl dl log_date :
  _generate_duty_status_changes dp i cur pl dl log_date =
  match drive_loop dp i pl dl
          (loop_entry dp (fst (opening_changes i cur pl log_date))
                      (snd (opening_changes i cur pl log_date))) with
  | Ok s => Ok (closing_changes dp i dl (ds_changes s) (ds_current_time s))
  | Raise e => Raise e
  end.
Proof.
  unfold _generate_duty_status_changes, loop_entry.
  destruct (opening_changes i cur pl log_date) as [changes t].
  reflexivity.
Qed.

Lemma closing_changes_last dp i dl changes t :
  exists body closing,
    closing_changes dp i dl changes t = body ++ [closing]
    /\ status closing = OFF_DUTY
    /\ notes closing = "Begin 10-hour off-duty period"%string.
Proof.
  unfold closing_changes.
  destruct (last_day dp i || final_day_flag dp);
    eexists; eexists; (split; [reflexivity |]); split; reflexivity.
Qed.



(** ** Dropoff and odometer on a planned trip *)

Lemma sorted_consecutive {A : Type} (R : A -> A -> Prop) (l : list A)
    (i : nat) (a b : A) :
  StronglySorted R l ->
  nth_error l i = Some a -> nth_error l (S i) = Some b -> R a b.
Proof.
  revert l. induction i as [| i IH]; intros [| x l] Hs Ha Hb;
    try discriminate.
  - destruct l as [| y l]; [discriminate |].
    simpl in Ha, Hb. injection Ha as ->. injection Hb as ->.
    apply StronglySorted_inv in Hs as [_ Hs].
    apply Forall_inv in Hs. exact Hs.
  - apply StronglySorted_inv in Hs as [Hs _].
    eapply IH; eassumption.
Qed.

(** C6, at the failing input.  The trip planned for 500 miles in 9
    hours has one day, and that day leaves no distance; its log has no
    dropoff change, and none of its changes is at the dropoff
    location. *)
Theorem single_day_trip_has_no_dropoff :
  exists plan day log,
    generate_hos_compliant_plan (route 500 9) 0 = Ok plan
    /\ daily_plans plan = [day]
    /\ includes_dropoff 500 (dp_distance_miles day) = true
    /\ generate_daily_logs 0 (trip_of plan "A" "B" "C") (Some 0%Z) = Ok [log]
    /\ existsb is_dropoff_change (duty_status_changes log) = false
    /\ existsb (fun e => String.eqb (location e) "C")
               (duty_status_changes log) = false.
Proof.
  do 3 eexists.
  split; [vm_compute; reflexivity |].
  split; [reflexivity |].
  split; [vm_compute; reflexivity |].
  split; [vm_compute; reflexivity |].
  split; vm_compute; reflexivity.
Qed.

(** C7, at the failing input.  On the same trip the odometer reads
    250050 when the pickup is completed and 250000 at the change that
    follows, the start of driving: the readings of the trip are not in
    non-decreasing order. *)
Theorem odometer_steps_back_after_pickup :
  exists plan logs pickup driving,
    generate_hos_compliant_plan (route 500 9) 0 = Ok plan
    /\ generate_daily_logs 0 (trip_of plan "A" "B" "C") (Some 0%Z) = Ok logs
    /\ nth_error (all_changes logs) 2 = Some pickup
    /\ nth_error (all_changes logs) 3 = Some driving
    /\ notes pickup = "Completed pickup - ready to drive"%string
    /\ notes driving = "Begin driving"%string
    /\ odometer pickup == 250050
    /\ odometer driving == 250000
    /\ ~ StronglySorted Qle (map odometer (all_changes logs)).
Proof.
  do 4 eexists.
  split; [vm_compute; reflexivity |].
  split; [vm_compute; reflexivity |].
  split; [vm_compute; reflexivity |].
  split; [vm_compute; reflexivity |].
  split; [reflexivity |].
  split; [reflexivity |].
  split; [vm_compute; reflexivity |].
  split; [vm_compute; reflexivity |].
  intros Hsorted.
  apply (sorted_consecutive Qle _ 2 250050 250000) in Hsorted;
    [| vm_compute; reflexivity | vm_compute; reflexivity].
  vm_compute in Hsorted. apply Hsorted. reflexivity.
Qed.

(** The same defect between days: on the trip planned for 1000 miles
    in 18 hours the first day ends at 250000 + 5500/9 miles and the
    second day opens at 250000. *)
Lemma odometer_restarts_each_day :
  exists plan logs day1 day2 last_of_day1 first_of_day2,
    generate_hos_compliant_plan (route 1000 18) 0 = Ok plan
    /\ generate_daily_logs 0 (trip_of plan "A" "B" "C") (Some 0%Z) = Ok logs
    /\ logs = [day1; day2]
    /\ last (duty_status_changes day1) first_of_day2 = last_of_day1
    /\ hd last_of_day1 (duty_status_changes day2) = first_of_day2
    /\ odometer last_of_day1 == 250000 + 5500 / 9
    /\ odometer first_of_day2 == 250000
    /\ odometer_start day2 = 250611%Z.
Proof.
  do 6 eexists.
  split; [vm_compute; reflexivity |].
  split; [vm_compute; reflexivity |].
  split; [reflexivity |].
  split; [vm_compute; reflexivity |].
  split; [vm_compute; reflexivity |].
  split; [vm_compute; reflexivity |].
  split; vm_compute; reflexivity.
Qed.

(** ** The date of a day does not reach its changes *)

Lemma strftime_HM_later_1 (t k a : Z) :
  strftime_HM (t + k * us_per_day + a) = strftime_HM (t + a).
Proof.
  replace (t + k * us_per_day + a)%Z with (t + a + k * us_per_day)%Z by lia.
  apply strftime_HM_day_shift.
Qed.

Lemma strftime_HM_later_2 (t k a b : Z) :
  strftime_HM (t + k * us_per_day + a + b) = strftime_HM (t + a + b).
Proof.
  replace (t + k * us_per_day + a + b)%Z
    with (t + a + b + k * us_per_day)%Z by lia.
  apply strftime_HM_day_shift.
Qed.

Lemma strftime_HM_later_3 (t k a b c : Z) :
  strftime_HM (t + k * us_per_day + a + b + c) = strftime_HM (t + a + b + c).
Proof.
  replace (t + k * us_per_day + a + b + c)%Z
    with (t + a + b + c + k * us_per_day)%Z by lia.
  apply strftime_HM_day_shift.
Qed.

Lemma segment_changes_later dp i pl dl t k covered seg brk :
  segment_changes dp i pl dl (t + k * us_per_day) covered seg brk
  = segment_changes dp i pl dl t covered seg brk.
Proof.
  unfold segment_changes.
  rewrite strftime_HM_later_2, !strftime_HM_later_1, strftime_HM_day_shift.
  reflexivity.
Qed.

Lemma pass_later dp i pl dl k s :
  pass dp i pl dl (later k s) = later k (pass dp i pl dl s).
Proof.
  unfold pass, later. cbn [ds_changes ds_current_time ds_distance_covered
                           ds_remaining_driving].
  rewrite segment_changes_later. f_equal.
  destruct (break_follows _ _); lia.
Qed.

Lemma drive_loop_later dp i pl dl k s :
  drive_loop dp i pl dl (later k s) =
  match drive_loop dp i pl dl s with
  | Ok s' => Ok (later k s')
  | Raise e => Raise e
  end.
Proof.
  apply (drive_loop_passes dp i pl dl
           (fun s => drive_loop dp i pl dl (later k s) =
                     match drive_loop dp i pl dl s with
                     | Ok s' => Ok (later k s')
                     | Raise e => Raise e
                     end)).
  - intros s0 Hexit.
    rewrite (drive_loop_skipped dp i pl dl s0) by exact Hexit.
    apply drive_loop_skipped. exact Hexit.
  - intros s0 e Hpos Hseg.
    rewrite (drive_loop_eq dp i pl dl s0), (drive_loop_eq dp i pl dl (later k s0)).
    cbn [later ds_remaining_driving]. apply ltb_lt in Hpos. rewrite Hpos.
    rewrite Hseg. rewrite drive_segment_eq in Hseg |- *.
    destruct (dp_driving_hours dp =? 0); [congruence | discriminate].
  - intros s0 s1 Hpos Hseg IH.
    rewrite (drive_loop_eq dp i pl dl s0), (drive_loop_eq dp i pl dl (later k s0)).
    cbn [later ds_remaining_driving]. apply ltb_lt in Hpos. rewrite Hpos.
    rewrite Hseg. rewrite drive_segment_eq in Hseg |- *.
    destruct (dp_driving_hours dp =? 0); [discriminate |].
    apply Ok_inj in Hseg. subst s1.
    fold (later k s0). rewrite pass_later. exact IH.
Qed.

Lemma opening_changes_later i cur pl d k :
  opening_changes i cur pl (d + k)
  = (fst (opening_changes i cur pl d),
     (snd (opening_changes i cur pl d) + k * us_per_day)%Z).
Proof.
  unfold opening_changes.
  assert (E : six_am (d + k) = (six_am d + k * us_per_day)%Z).
  { unfold six_am. lia. }
  rewrite E.
  destruct (0 <? i)%nat, (i =? 0)%nat; cbn [fst snd];
    rewrite ?strftime_HM_later_3, ?strftime_HM_later_2, ?strftime_HM_later_1,
            ?strftime_HM_day_shift;
    f_equal; lia.
Qed.

Lemma closing_changes_later dp i dl changes t k :
  closing_changes dp i dl changes (t + k * us_per_day)
  = closing_changes dp i dl changes t.
Proof.
  unfold closing_changes.
  destruct (last_day dp i || final_day_flag dp).
  - rewrite strftime_HM_later_3, strftime_HM_later_2, strftime_HM_later_1,
            strftime_HM_day_shift.
    reflexivity.
  - rewrite strftime_HM_later_2, strftime_HM_later_1. reflexivity.
Qed.

(** The changes of a day are those of the same day at date 0. *)
Lemma changes_any_date dp i cur pl dl log_date :
  _generate_duty_status_changes dp i cur pl dl log_date
  = _generate_duty_status_changes dp i cur pl dl 0.
Proof.
  rewrite !generate_changes_eq.
  replace log_date with (0 + log_date)%Z at 1 2 by lia.
  rewrite opening_changes_later. cbn [fst snd].
  change (loop_entry dp (fst (opening_changes i cur pl 0))
            (snd (opening_changes i cur pl 0) + log_date * us_per_day))
    with (later log_date
            (loop_entry dp (fst (opening_changes i cur pl 0))
                        (snd (opening_changes i cur pl 0)))).
  rewrite drive_loop_later.
  destruct (drive_loop dp i pl dl _) as [s |]; [| reflexivity].
  cbn [later ds_changes ds_current_time].
  rewrite closing_changes_later. reflexivity.
Qed.

Lemma daily_logs_any_date all_plans cur pl dl d1 d2 plans :
  forall i,
    undated_logs (daily_logs_from all_plans cur pl dl d1 i plans)
    = undated_logs (daily_logs_from all_plans cur pl dl d2 i plans).
Proof.
  induction plans as [| dp plans IH]; intros i; [reflexivity |].
  cbn [daily_logs_from].
  rewrite (changes_any_date dp i cur pl dl (d1 + Z.of_nat i)).
  rewrite (changes_any_date dp i cur pl dl (d2 + Z.of_nat i)).
  destruct (_generate_duty_status_changes dp i cur pl dl 0) as [changes |];
    [| reflexivity].
  cbn [Py.bind].
  specialize (IH (S i)).
  destruct (daily_logs_from all_plans cur pl dl d1 (S i) plans) as [l1 |],
           (daily_logs_from all_plans cur pl dl d2 (S i) plans) as [l2 |];
    cbn [undated_logs Py.bind map] in *; try congruence.
  apply Ok_inj in IH. rewrite IH. reflexivity.
Qed.

(** C9, counterexample.  With no start date, two calls on the same trip
    return different logs when the clock reads different days.  (The
    counterexample's second call is made one day after the first.) *)
Lemma logs_depend_on_the_clock :
  exists plan,
    generate_hos_compliant_plan (route 500 9) 0 = Ok plan
    /\ generate_daily_logs 0 (trip_of plan "A" "B" "C") None
       <> generate_daily_logs us_per_day (trip_of plan "A" "B" "C") None.
Proof.
  eexists. split; [vm_compute; reflexivity |].
  intros H.
  apply (f_equal (fun r => match r with
                           | Ok logs => map date logs
                           | Raise _ => []
                           end)) in H.
  vm_compute in H. discriminate.
Qed.

(** C9, as amended.  With a start date the logs are a function of the
    arguments alone: the clock is not read.  With none the clock
    decides the dates of the logs and nothing else: two calls return
    logs that are equal once their dates are blanked. *)
Theorem logs_deterministic_up_to_date (now1 now2 : Z) (trip_plan : TripPlan) :
  (forall start_date,
     generate_daily_logs now1 trip_plan (Some start_date)
     = generate_daily_logs now2 trip_plan (Some start_date))
  /\ undated_logs (generate_daily_logs now1 trip_plan None)
     = undated_logs (generate_daily_logs now2 trip_plan None).
Proof.
  split; [reflexivity |].
  unfold generate_daily_logs. apply daily_logs_any_date.
Qed.

(** ** Timelines *)

Lemma timeline_app (a b : list Event) :
  timeline (a ++ b) = timeline a ++ timeline b.
Proof. apply map_app. Qed.

Lemma timeline_opening i cur pl d :
  timeline (fst (opening_changes i cur pl d)) = map stamp (opening_instants i d)
  /\ snd (opening_changes i cur pl d) = opening_clock i d.
Proof.
  unfold opening_changes, opening_instants, opening_clock.
  destruct (0 <? i)%nat, (i =? 0)%nat; split; reflexivity.
Qed.

Lemma timeline_closing dp i dl changes t :
  timeline (closing_changes dp i dl changes t)
  = timeline changes
    ++ map stamp (closing_instants (last_day dp i || final_day_flag dp) t).
Proof.
  unfold closing_changes, closing_instants.
  destruct (last_day dp i || final_day_flag dp);
    rewrite !timeline_app, <- !app_assoc; reflexivity.
Qed.

Lemma timeline_pass dp i pl dl s :
  timeline (ds_changes (pass dp i pl dl s))
  = timeline (ds_changes s)
    ++ map stamp
         (segment_instants
            (fuel_fires dp (Py.min 8.0 (ds_remaining_driving s)))
            (break_follows (ds_remaining_driving s)
                           (Py.min 8.0 (ds_remaining_driving s)))
            (ds_current_time s)
            (Py.min 8.0 (ds_remaining_driving s))).
Proof.
  unfold pass. cbn [ds_changes].
  rewrite timeline_app, timeline_segment_changes. reflexivity.
Qed.

Lemma accumulate_totals_timeline (changes : list Event) :
  forall totals,
    accumulate_totals changes totals = timeline_totals (timeline changes) totals.
Proof.
  induction changes as [| change rest IH]; intros totals; [reflexivity |].
  destruct rest as [| next_change rest]; [reflexivity |].
  change (accumulate_totals (change :: next_change :: rest) totals)
    with (accumulate_totals (next_change :: rest)
            (add_duration totals (status change)
                          (duration_hours change next_change))).
  rewrite IH. reflexivity.
Qed.

Lemma daily_totals_timeline (changes : list Event) :
  _calculate_daily_totals changes = timeline_totals (timeline changes) no_hours.
Proof. apply accumulate_totals_timeline. Qed.

(** ** A day of twelve driving hours *)

Lemma min_8_of_more (r : Q) : 8 <= r -> Py.min 8.0 r = 8.0.
Proof.
  intros H. unfold Py.min.
  assert (E : (r <? 8.0) = false) by (apply ltb_ge; lra).
  rewrite E. reflexivity.
Qed.

Lemma min_8_of_less (r : Q) : r < 8 -> Py.min 8.0 r = r.
Proof.
  intros H. unfold Py.min.
  assert (E : (r <? 8.0) = true) by (apply ltb_lt; lra).
  rewrite E. reflexivity.
Qed.

Lemma segment_instants_comp fuel brk t (seg seg' : Q) :
  seg == seg' ->
  segment_instants fuel brk t seg = segment_instants fuel brk t seg'.
Proof.
  intros E. unfold segment_instants.
  rewrite (timedelta_hours_comp seg seg' E).
  rewrite (timedelta_hours_comp (seg / 2) (seg' / 2)) by (rewrite E; reflexivity).
  reflexivity.
Qed.





(** ** The logs of a trip, day by day *)

Lemma changes_return dp i cur pl dl log_date :
  exists changes,
    _generate_duty_status_changes dp i cur pl dl log_date = Ok changes.
Proof.
  rewrite generate_changes_eq.
  destruct (loop_entry_returns dp i pl dl
              (fst (opening_changes i cur pl log_date))
              (snd (opening_changes i cur pl log_date))) as [s ->].
  eexists. reflexivity.
Qed.


Lemma over_cap_flagged (totals : Totals) (changes : list Event) :
  11 < driving totals ->
  _check_hos_compliance totals = false
  /\ In (ExceededDrivingTime (driving totals) 11)
        (_check_violations totals changes).
Proof.
  intros H. split.
  - unfold _check_hos_compliance. apply andb_false_iff. left.
    apply leb_gt. exact H.
  - unfold _check_violations.
    assert (E : (max_driving_daily <? driving totals) = true)
      by (apply ltb_lt; exact H).
    rewrite E.
    destruct (max_on_duty_daily <? _), (consecutive_driving_scan changes 0);
      rewrite <- ?app_assoc; left; reflexivity.
Qed.




(** ** The order of the changes of a day *)

Lemma ordered_within_nil lo hi : ordered_within lo hi [].
Proof. split; constructor. Qed.

Lemma ordered_within_cons lo hi st t rest :
  (lo <= t <= hi)%Z ->
  ordered_within t hi rest ->
  ordered_within lo hi ((st, t) :: rest).
Proof.
  intros Ht [Hsorted Hall]. split.
  - cbn [map snd]. constructor; [exact Hsorted |].
    rewrite Forall_map. eapply Forall_impl; [| exact Hall].
    intros entry H. cbn beta in *. lia.
  - constructor; [exact Ht |].
    eapply Forall_impl; [| exact Hall]. intros entry H. cbn beta in *. lia.
Qed.

Lemma ordered_within_app lo mid hi a b :
  ordered_within lo mid a -> ordered_within mid hi b ->
  (lo <= mid <= hi)%Z ->
  ordered_within lo hi (a ++ b).
Proof.
  intros [Sa Fa] [Sb Fb] Hle. split.
  - rewrite map_app.
    induction a as [| [st t] a IH]; [exact Sb |].
    cbn [map app snd] in *.
    apply StronglySorted_inv in Sa as [Sa Ha].
    constructor.
    + apply IH; [exact Sa |]. apply Forall_inv_tail in Fa. exact Fa.
    + apply Forall_app. split; [exact Ha |].
      apply Forall_inv in Fa. cbn [snd] in Fa.
      rewrite Forall_map. eapply Forall_impl; [| exact Fb].
      intros entry H. cbn beta in *. lia.
  - apply Forall_app. split.
    + eapply Forall_impl; [| exact Fa]. intros entry H. cbn beta in *. lia.
    + eapply Forall_impl; [| exact Fb]. intros entry H. cbn beta in *. lia.
Qed.

(** A fuel stop of half an hour fits in a segment of an hour or more. *)
Lemma fuel_stop_fits (seg : Q) :
  1 <= seg ->
  (timedelta_hours (seg / 2) + timedelta_minutes 30 <= timedelta_hours seg)%Z.
Proof.
  intros Hseg.
  destruct (Z_le_gt_dec (timedelta_hours (seg / 2) + timedelta_minutes 30)
                        (timedelta_hours seg)) as [Hle | Hgt]; [exact Hle |].
  exfalso.
  unfold timedelta_hours, timedelta_minutes, us_per_minute in *.
  change (30 * 60000000)%Z with 1800000000%Z in Hgt.
  destruct (round_half_even_near (seg / 2 * inject_Z us_per_hour)) as [Ha _].
  destruct (round_half_even_near (seg * inject_Z us_per_hour)) as [_ Hb].
  set (a := round_half_even (seg / 2 * inject_Z us_per_hour)) in *.
  set (b := round_half_even (seg * inject_Z us_per_hour)) in *.
  assert (Hq : inject_Z (b + 1) <= inject_Z (a + 1800000000)).
  { rewrite <- Zle_Qle. lia. }
  rewrite !inject_Z_plus in Hq.
  change (inject_Z 1) with 1 in Hq.
  change (inject_Z 1800000000) with 1800000000 in Hq.
  unfold us_per_hour in *.
  change (inject_Z 3600000000) with 3600000000 in *.
  assert (Hhalf : seg / 2 * 3600000000 == seg * 1800000000) by field.
  rewrite Hhalf in Ha.
  assert (E : seg == 1) by lra.
  assert (Ea : a = 1800000000%Z).
  { subst a. rewrite (round_half_even_comp _ (inject_Z 1800000000)).
    - apply round_half_even_Z.
    - rewrite E. reflexivity. }
  assert (Eb : b = 3600000000%Z).
  { subst b. rewrite (round_half_even_comp _ (inject_Z 3600000000)).
    - apply round_half_even_Z.
    - rewrite E. reflexivity. }
  lia.
Qed.

Lemma opening_ordered i :
  ordered_within (six_am 0) (opening_clock i 0) (opening_instants i 0)
  /\ (six_am 0 <= opening_clock i 0 <= 28800000000)%Z.
Proof.
  unfold opening_instants, opening_clock.
  change (timedelta_hours 1) with 3600000000%Z.
  change (six_am 0) with 21600000000%Z.
  change (timedelta_minutes 15) with 900000000%Z.
  change (timedelta_minutes 45) with 2700000000%Z.
  destruct i as [| i]; cbn [Nat.ltb Nat.leb Nat.eqb app]; split; try lia;
    repeat (apply ordered_within_cons; [lia |]); apply ordered_within_nil.
Qed.

Lemma closing_ordered (dropoff : bool) (t : Z) :
  ordered_within t (t + 5400000000) (closing_instants dropoff t).
Proof.
  unfold closing_instants.
  change (timedelta_hours 1) with 3600000000%Z.
  change (timedelta_minutes 15) with 900000000%Z.
  destruct dropoff;
    repeat (apply ordered_within_cons; [lia |]); apply ordered_within_nil.
Qed.

Lemma segment_ordered (fuel brk : bool) (t : Z) (seg : Q) :
  0 <= seg -> (fuel = true -> 1 <= seg) ->
  ordered_within t
    (if brk then (t + timedelta_hours seg + timedelta_minutes 30)%Z
     else (t + timedelta_hours seg)%Z)
    (segment_instants fuel brk t seg).
Proof.
  intros Hseg Hfuel. unfold segment_instants.
  pose proof (timedelta_hours_nonneg seg Hseg) as H1.
  assert (Hhalf : 0 <= seg / 2) by (apply Qle_shift_div_l; lra).
  pose proof (timedelta_hours_nonneg (seg / 2) Hhalf) as H2.
  change (timedelta_minutes 30) with 1800000000%Z in *.
  destruct fuel.
  - pose proof (fuel_stop_fits seg (Hfuel eq_refl)) as H3.
    change (timedelta_minutes 30) with 1800000000%Z in H3.
    destruct brk; cbn [app];
      repeat (apply ordered_within_cons; [lia |]); apply ordered_within_nil.
  - destruct brk; cbn [app];
      repeat (apply ordered_within_cons; [lia |]); apply ordered_within_nil.
Qed.

(** Under a day's average of 500 mph a segment with a fuel stop lasts
    an hour at least. *)
Lemma fuel_needs_an_hour dp seg :
  0 < dp_driving_hours dp -> 0 < seg ->
  (dp_fuel_stops dp <= 0)%Z
  \/ dp_distance_miles dp <= 500 * dp_driving_hours dp ->
  fuel_fires dp seg = true -> 1 <= seg.
Proof.
  intros Hdh Hseg Hplan Hfires.
  unfold fuel_fires in Hfires. apply andb_true_iff in Hfires as [Hstops Hdist].
  apply Z.ltb_lt in Hstops. apply ltb_lt in Hdist.
  destruct Hplan as [Hnone | Hspeed]; [lia |].
  unfold segment_distance in Hdist.
  set (q := seg / dp_driving_hours dp) in *.
  assert (Hq : 0 < q) by (apply Qlt_shift_div_l; lra).
  assert (Eq : q * dp_driving_hours dp == seg) by (unfold q; field; lra).
  assert (Hle : q * dp_distance_miles dp <= q * (500 * dp_driving_hours dp)).
  { apply Qmult_le_l; assumption. }
  assert (E500 : q * (500 * dp_driving_hours dp) == 500 * seg).
  { rewrite <- Eq. ring. }
  lra.
Qed.

Lemma pass_on_schedule dp i pl dl lo limit s :
  0 < dp_driving_hours dp ->
  (dp_fuel_stops dp <= 0)%Z
  \/ dp_distance_miles dp <= 500 * dp_driving_hours dp ->
  on_schedule lo limit s -> 0 < ds_remaining_driving s ->
  on_schedule lo limit (pass dp i pl dl s).
Proof.
  intros Hdh Hplan ((instants & Htl & Hord) & Hlo & Hroom & _) Hr.
  specialize (Hroom Hr).
  set (r := ds_remaining_driving s) in *.
  set (t := ds_current_time s) in *.
  assert (Hseg : 0 < Py.min 8.0 r /\ Py.min 8.0 r <= r /\ Py.min 8.0 r <= 8).
  { pose proof (min_le_l 8.0 r). pose proof (min_le_r 8.0 r).
    split; [| split; lra].
    unfold Py.min. destruct (r <? 8.0); lra. }
  destruct Hseg as (Hseg0 & Hsegr & Hseg8).
  pose proof (fuel_needs_an_hour dp (Py.min 8.0 r) Hdh Hseg0 Hplan) as Hfuel.
  pose proof (segment_ordered (fuel_fires dp (Py.min 8.0 r))
                (break_follows r (Py.min 8.0 r)) t (Py.min 8.0 r)
                (Qlt_le_weak _ _ Hseg0) Hfuel) as Hsegord.
  pose proof (timedelta_hours_nonneg (Py.min 8.0 r) (Qlt_le_weak _ _ Hseg0))
    as Hstep.
  unfold on_schedule.
  rewrite timeline_pass. fold r. fold t.
  unfold pass. cbn [ds_current_time ds_remaining_driving]. fold r. fold t.
  change (timedelta_minutes 30) with 1800000000%Z in *.
  set (t' := if break_follows r (Py.min 8.0 r)
             then (t + timedelta_hours (Py.min 8.0 r) + 1800000000)%Z
             else (t + timedelta_hours (Py.min 8.0 r))%Z) in *.
  assert (Ht' : (t <= t')%Z).
  { subst t'. destruct (break_follows r (Py.min 8.0 r)); lia. }
  split.
  { exists (instants
            ++ segment_instants (fuel_fires dp (Py.min 8.0 r))
                 (break_follows r (Py.min 8.0 r)) t (Py.min 8.0 r)).
    split; [rewrite Htl, map_app; reflexivity |].
    eapply ordered_within_app; [exact Hord | exact Hsegord | lia]. }
  split; [lia |].
  destruct (Qlt_le_dec r 8) as [Hlt | Hge].
  - (* the last segment: what remains is driven in one go *)
    assert (Emin : Py.min 8.0 r = r) by (apply min_8_of_less; exact Hlt).
    assert (Ebrk : break_follows r r = false).
    { unfold break_follows. apply andb_false_iff. left. apply ltb_ge. lra. }
    subst t'. rewrite Emin in *. rewrite Ebrk in *.
    split; [intros Hpos; lra |].
    intros _.
    destruct (round_half_even_near (r * inject_Z us_per_hour)) as [Hnear _].
    fold (timedelta_hours r) in Hnear.
    change (inject_Z us_per_hour) with 3600000000 in Hnear.
    assert (Hq : inject_Z (t + timedelta_hours r) < inject_Z (limit + 1)).
    { rewrite !inject_Z_plus. change (inject_Z 1) with 1. lra. }
    rewrite <- Zlt_Qlt in Hq. lia.
  - (* a full segment of eight hours *)
    assert (Emin : Py.min 8.0 r = 8.0) by (apply min_8_of_more; exact Hge).
    subst t'. rewrite Emin in *.
    change (timedelta_hours 8.0) with 28800000000%Z in *.
    unfold break_follows in *.
    assert (E8 : (8 <=? 8.0) = true) by reflexivity.
    rewrite E8 in *. rewrite andb_true_r in *.
    destruct (0 <? r - 8.0) eqn:Emore.
    + apply ltb_lt in Emore. split; [| intros Hle; lra].
      intros _. rewrite !inject_Z_plus.
      change (inject_Z 28800000000) with 28800000000.
      change (inject_Z 1800000000) with 1800000000.
      lra.
    + apply ltb_ge in Emore. split; [intros Hpos; lra |].
      intros _.
      assert (Hq : inject_Z (t + 28800000000) <= inject_Z limit).
      { rewrite inject_Z_plus. change (inject_Z 28800000000) with 28800000000.
        lra. }
      rewrite <- Zle_Qle in Hq. exact Hq.
Qed.

(** The clock with which a day of at most eleven driving hours leaves
    the driving loop: at most 11 hours and 41 minutes 15 seconds
    (42075000000 microseconds) after it entered it. *)
Lemma loop_exit_on_schedule dp i cur pl dl :
  dp_driving_hours dp <= 11 ->
  (dp_fuel_stops dp <= 0)%Z
  \/ dp_distance_miles dp <= 500 * dp_driving_hours dp ->
  exists s,
    drive_loop dp i pl dl
      (loop_entry dp (fst (opening_changes i cur pl 0))
                  (snd (opening_changes i cur pl 0))) = Ok s
    /\ on_schedule (six_am 0) (opening_clock i 0 + 42075000000) s
    /\ ds_remaining_driving s <= 0.
Proof.
  intros Hcap Hplan.
  destruct (timeline_opening i cur pl 0) as [Htl Hclock].
  destruct (opening_ordered i) as [Hord Hbounds].
  set (entry := loop_entry dp (fst (opening_changes i cur pl 0))
                           (snd (opening_changes i cur pl 0))).
  assert (Hentry : on_schedule (six_am 0) (opening_clock i 0 + 42075000000)
                               entry).
  { unfold on_schedule, entry, loop_entry.
    cbn [ds_changes ds_current_time ds_remaining_driving].
    rewrite Hclock. split; [| split; [lia | split]].
    - exists (opening_instants i 0). split; [exact Htl | exact Hord].
    - intros Hpos. rewrite inject_Z_plus.
      change (inject_Z 42075000000) with 42075000000. lra.
    - intros _. lia. }
  destruct (loop_entry_returns dp i pl dl
              (fst (opening_changes i cur pl 0))
              (snd (opening_changes i cur pl 0))) as [s Hs].
  fold entry in Hs. exists s. split; [exact Hs |].
  destruct (Qlt_le_dec 0 (dp_driving_hours dp)) as [Hpos | Hneg].
  - eapply drive_loop_rule; [| exact Hentry | exact Hs].
    intros s0 s1 Hinv Hr Hseg.
    rewrite drive_segment_pass in Hseg by lra.
    apply Ok_inj in Hseg. subst s1.
    apply pass_on_schedule; assumption.
  - unfold entry in Hs. rewrite drive_loop_skipped in Hs by exact Hneg.
    apply Ok_inj in Hs. subst s. split; [exact Hentry | exact Hneg].
Qed.

(** Printed times of instants in order within one calendar day are in
    order. *)
Lemma printed_in_order lo hi instants :
  ordered_within lo hi instants -> (0 <= lo)%Z -> (hi < us_per_day)%Z ->
  StronglySorted Z.le
    (map (fun entry => strptime_HM (snd (stamp entry))) instants).
Proof.
  intros [Hsorted Hall] Hlo Hhi.
  assert (Hminute : forall entry,
             (lo <= snd entry <= hi)%Z ->
             strptime_HM (snd (stamp entry))
             = (snd entry / us_per_minute)%Z).
  { intros entry Hin. unfold stamp. cbn [snd].
    rewrite (minute_of_day_in_day 0) by lia. lia. }
  induction instants as [| entry rest IH]; [constructor |].
  cbn [map snd] in Hsorted |- *.
  apply StronglySorted_inv in Hsorted as [Hrest Hfirst].
  pose proof (Forall_inv Hall) as Hentry.
  pose proof (Forall_inv_tail Hall) as Hothers.
  constructor; [apply IH; assumption |].
  rewrite Forall_map in Hfirst |- *.
  rewrite Forall_forall in *. intros other Hin.
  rewrite (Hminute entry Hentry), (Hminute other (Hothers other Hin)).
  apply Z.div_le_mono; [reflexivity |]. apply Hfirst. exact Hin.
Qed.

Lemma minutes_of_timeline changes instants :
  timeline changes = map stamp instants ->
  minutes changes
  = map (fun entry => strptime_HM (snd (stamp entry))) instants.
Proof.
  intros H. unfold minutes.
  transitivity (map (fun e => strptime_HM (snd e)) (timeline changes)).
  - unfold timeline. rewrite map_map. reflexivity.
  - rewrite H, map_map. reflexivity.
Qed.


(** Why the amended statement has its two conditions.  A day of 20
    driving hours runs past midnight, and its printed times fall from
    16:30 to 00:30.  The day planned for 2000 miles in a quarter of an
    hour has a fuel stop in a segment of 15 minutes: driving resumes
    at 08:37 and the post-trip inspection is at 08:30. *)
Lemma order_lost_outside_the_conditions :
  (exists changes,
     _generate_duty_status_changes
       {| dp_day := 1; dp_driving_hours := 20; dp_distance_miles := 1100;
          dp_fuel_stops := 0; dp_mandatory_breaks := 2; dp_total_on_duty := 22;
          dp_pickup_dropoff_time := 2; dp_is_final_day := None |}
       0 "A" "B" "C" 0 = Ok changes
     /\ nth_error (minutes changes) 5 = Some 990%Z
     /\ nth_error (minutes changes) 6 = Some 30%Z
     /\ ~ StronglySorted Z.le (minutes changes))
  /\ (exists plan log,
        generate_hos_compliant_plan (route 2000 0.25) 0 = Ok plan
        /\ generate_daily_logs 0 (trip_of plan "A" "B" "C") (Some 0%Z)
           = Ok [log]
        /\ nth_error (minutes (duty_status_changes log)) 5 = Some 517%Z
        /\ nth_error (minutes (duty_status_changes log)) 6 = Some 510%Z
        /\ ~ StronglySorted Z.le (minutes (duty_status_changes log))).
Proof.
  split.
  - eexists. split; [vm_compute; reflexivity |].
    split; [vm_compute; reflexivity |].
    split; [vm_compute; reflexivity |].
    intros Hsorted.
    apply (sorted_consecutive Z.le _ 5 990%Z 30%Z) in Hsorted;
      [lia | vm_compute; reflexivity | vm_compute; reflexivity].
  - do 2 eexists. split; [vm_compute; reflexivity |].
    split; [vm_compute; reflexivity |].
    split; [vm_compute; reflexivity |].
    split; [vm_compute; reflexivity |].
    intros Hsorted.
    apply (sorted_consecutive Z.le _ 5 517%Z 510%Z) in Hsorted;
      [lia | vm_compute; reflexivity | vm_compute; reflexivity].
Qed.



(** ** Where the dropoff is logged *)


Lemma existsb_dropoff_app (a b : list Event) :
  existsb is_dropoff_change (a ++ b)
  = existsb is_dropoff_change a || existsb is_dropoff_change b.
Proof. apply existsb_app. Qed.

Lemma loop_logs_no_dropoff dp i pl dl s s' :
  drive_loop dp i pl dl s = Ok s' ->
  existsb is_dropoff_change (ds_changes s) = false ->
  existsb is_dropoff_change (ds_changes s') = false.
Proof.
  intros Hloop Hnone.
  apply (drive_loop_rule
           (fun s => existsb is_dropoff_change (ds_changes s) = false)
           dp i pl dl) with (s := s); [| exact Hnone | exact Hloop].
  intros s0 s1 H0 _ Hseg.
  rewrite drive_segment_eq in Hseg.
  destruct (dp_driving_hours dp =? 0); [discriminate |].
  apply Ok_inj in Hseg. subst s1.
  unfold pass. cbn [ds_changes].
  rewrite existsb_dropoff_app, H0. unfold segment_changes.
  destruct (fuel_fires dp _), (break_follows _ _); reflexivity.
Qed.

(** The changes of a day hold those of the dropoff exactly when
    [day_idx == len(daily_plan) - 1] or the plan is flagged: for a plan
    as the planner builds it, with seven keys and no flag, on the
    seventh day of the trip and on no other. *)
Lemma dropoff_logged_on_seventh_day dp i cur pl dl log_date changes :
  _generate_duty_status_changes dp i cur pl dl log_date = Ok changes ->
  existsb is_dropoff_change changes = last_day dp i || final_day_flag dp
  /\ (dp_is_final_day dp = None ->
      existsb is_dropoff_change changes = (i =? 6)%nat).
Proof.
  intros Hchanges.
  assert (Hmain : existsb is_dropoff_change changes
                  = last_day dp i || final_day_flag dp).
  { rewrite generate_changes_eq in Hchanges.
    destruct (drive_loop dp i pl dl _) as [s |] eqn:Hloop; [| discriminate].
    apply Ok_inj in Hchanges. subst changes.
    assert (Hnone : existsb is_dropoff_change (ds_changes s) = false).
    { eapply loop_logs_no_dropoff; [exact Hloop |].
      unfold loop_entry, opening_changes. cbn [ds_changes].
      destruct (0 <? i)%nat, (i =? 0)%nat; reflexivity. }
    unfold closing_changes.
    destruct (last_day dp i || final_day_flag dp);
      rewrite !existsb_dropoff_app, Hnone; reflexivity. }
  split; [exact Hmain |].
  intros Hflag. rewrite Hmain.
  unfold last_day, final_day_flag, dp_len. rewrite Hflag.
  rewrite orb_false_r.
  destruct (Nat.eqb_spec i 6) as [-> | Hne]; [reflexivity |].
  apply Z.eqb_neq. lia.
Qed.

(** * Further properties *)

(** ** The planner, day by day *)

(** Induction along the days the planner's loop appends. *)
Lemma plan_loop_days dm dh days (P : Q -> Q -> Z -> list DailyPlan -> Prop) :
  (forall rd rh cd, plan_continue days rd cd = false -> P rd rh cd []) ->
  (forall rd rh cd day rest,
     plan_continue days rd cd = true ->
     plan_day dm dh rd rh cd = Ok day ->
     plan_loop dm dh days (rd - dp_distance_miles day)
               (rh - dp_driving_hours day) (cd + 1)%Z = Ok rest ->
     P (rd - dp_distance_miles day) (rh - dp_driving_hours day) (cd + 1)%Z
       rest ->
     P rd rh cd (day :: rest)) ->
  forall rd rh cd plans,
    plan_loop dm dh days rd rh cd = Ok plans -> P rd rh cd plans.
Proof.
  intros Hstop Hstep rd rh cd.
  funelim (plan_loop dm dh days rd rh cd); intros plans Hplans;
    clear Heqcall.
  - destruct (plan_day dm dh remaining_distance remaining_driving current_day)
      as [day |] eqn:Hday; [| discriminate].
    destruct (plan_loop dm dh days _ _ _) as [rest |] eqn:Hrest;
      [| discriminate].
    apply Ok_inj in Hplans. subst plans.
    apply Hstep; [assumption | exact Hday | exact Hrest |].
    match goal with
    | IH : forall d : DailyPlan, _ |- _ =>
      apply (IH day P Hstop Hstep rest Hrest)
    end.
  - apply Ok_inj in Hplans. subst plans. apply Hstop. assumption.
Qed.

(** The planner's result, with the days its loop returns. *)
Lemma planner_result (route_info : RouteInfo) (cycle_used : Q) :
  exists plan,
    generate_hos_compliant_plan route_info cycle_used = Ok plan
    /\ plan_loop (ri_distance_miles route_info) (ri_duration_hours route_info)
         (days_needed (ri_distance_miles route_info)
                      (ri_duration_hours route_info))
         (ri_distance_miles route_info) (ri_duration_hours route_info) 1
       = Ok (daily_plans plan)
    /\ total_days_needed plan
       = days_needed (ri_distance_miles route_info)
                     (ri_duration_hours route_info)
    /\ total_fuel_stops plan
       = RouteService.fuel_stops (ri_distance_miles route_info).
Proof.
  unfold generate_hos_compliant_plan.
  destruct (plan_loop_ok (ri_distance_miles route_info)
              (ri_duration_hours route_info)
              (days_needed (ri_distance_miles route_info)
                           (ri_duration_hours route_info))
              (ri_distance_miles route_info)
              (ri_duration_hours route_info) 1) as [plans Hplans].
  rewrite Hplans. cbn [Py.bind]. eexists. split; [reflexivity |].
  cbn [daily_plans total_days_needed total_fuel_stops].
  split; [reflexivity |]. split; reflexivity.
Qed.

(** What one pass of the loop body writes in the day it appends. *)
Lemma plan_day_fields dm dh rd rh cd day :
  plan_day dm dh rd rh cd = Ok day ->
  exists v,
    avg_speed dm dh = Ok v
    /\ dp_day day = cd
    /\ dp_driving_hours day = Py.min 11 rh
    /\ dp_distance_miles day = Py.min 11 rh * v
    /\ dp_fuel_stops day
       = (if 1000 <=? Py.min 11 rh * v
          then Qfloor (Py.min 11 rh * v / 1000) else 0%Z)
    /\ dp_mandatory_breaks day = Qfloor (Py.min 11 rh / 8)
    /\ dp_total_on_duty day
       == on_duty_before_dropoff day
          + (if includes_dropoff rd (Py.min 11 rh * v) then 1 else 0)
    /\ dp_is_final_day day = None.
Proof.
  unfold plan_day.
  destruct (avg_speed dm dh) as [v |] eqn:Hv; [| discriminate].
  cbn [Py.bind]. intros H. apply Ok_inj in H. subst day.
  exists v. split; [reflexivity |].
  unfold on_duty_before_dropoff, includes_pickup.
  cbn [dp_day dp_driving_hours dp_distance_miles dp_fuel_stops
       dp_mandatory_breaks dp_total_on_duty dp_is_final_day].
  repeat split; try reflexivity.
  destruct (includes_dropoff _ _), (cd =? 1)%Z; ring.
Qed.

(** X1.  The days of a plan are numbered 1, 2, 3, ... in the order of
    the list, and there are never more of them than
    [total_days_needed]. *)
Theorem days_numbered_and_bounded (route_info : RouteInfo) (cycle_used : Q) :
  exists plan,
    generate_hos_compliant_plan route_info cycle_used = Ok plan
    /\ map dp_day (daily_plans plan)
       = map (fun k => Z.of_nat k) (seq 1 (List.length (daily_plans plan)))
    /\ (Z.of_nat (List.length (daily_plans plan))
        <= Z.max 0 (total_days_needed plan))%Z.
Proof.
  destruct (planner_result route_info cycle_used)
    as (plan & Hplan & Hloop & Hdays & _).
  exists plan. split; [exact Hplan |]. rewrite Hdays.
  set (days := days_needed _ _) in *.
  assert (H : map dp_day (daily_plans plan)
              = map (fun k => (1 + Z.of_nat k)%Z)
                    (seq 0 (List.length (daily_plans plan)))
              /\ (Z.of_nat (List.length (daily_plans plan))
                  <= Z.max 0 (days + 1 - 1))%Z).
  { refine (plan_loop_days _ _ days
             (fun _ _ cd plans =>
                map dp_day plans
                = map (fun k => (cd + Z.of_nat k)%Z)
                      (seq 0 (List.length plans))
                /\ (Z.of_nat (List.length plans)
                    <= Z.max 0 (days + 1 - cd))%Z) _ _ _ _ 1%Z _ Hloop).
    - intros rd rh cd _. split; [reflexivity | simpl; lia].
    - intros rd rh cd day rest Hc Hday _ [IHmap IHlen].
      destruct (plan_day_fields _ _ _ _ _ _ Hday) as (v & _ & Hd & _).
      unfold plan_continue in Hc. apply andb_true_iff in Hc as [_ Hc].
      apply Z.leb_le in Hc.
      split.
      + cbn [map List.length seq]. rewrite Hd, IHmap.
        f_equal; [lia |].
        rewrite <- seq_shift, map_map. apply map_ext. intros k. lia.
      + cbn [List.length]. lia. }
  destruct H as [Hmap Hlen]. split.
  - rewrite Hmap, <- seq_shift, map_map. apply map_ext. intros k. lia.
  - replace (days + 1 - 1)%Z with days in Hlen by lia. exact Hlen.
Qed.

(** *** Routes with a positive distance and a positive duration *)

Lemma avg_speed_pos dm dh : 0 < dh -> avg_speed dm dh = Ok (dm / dh).
Proof.
  intros H. unfold avg_speed.
  assert (E : (0 <? dh) = true) by (apply ltb_lt; exact H).
  rewrite E. apply div_ok. lra.
Qed.

Lemma min_cases (x y : Q) :
  (y < x /\ Py.min x y = y) \/ (x <= y /\ Py.min x y = x).
Proof.
  unfold Py.min. destruct (y <? x) eqn:E.
  - left. split; [apply ltb_lt; exact E | reflexivity].
  - right. split; [apply ltb_ge; exact E | reflexivity].
Qed.

(** The loop keeps the distance that remains equal to the hours that
    remain at the average speed; induction along the days with that
    invariant at hand. *)
Lemma plan_loop_days_at_speed dm dh days
    (P : Q -> Q -> Z -> list DailyPlan -> Prop) :
  0 < dm -> 0 < dh ->
  (forall rd rh cd,
     0 <= rh -> rd == rh * (dm / dh) ->
     plan_continue days rd cd = false -> P rd rh cd []) ->
  (forall rd rh cd day rest,
     0 < rh -> rd == rh * (dm / dh) ->
     (cd <= days)%Z ->
     plan_day dm dh rd rh cd = Ok day ->
     dp_driving_hours day = Py.min 11 rh ->
     dp_distance_miles day = Py.min 11 rh * (dm / dh) ->
     plan_loop dm dh days (rd - dp_distance_miles day)
               (rh - dp_driving_hours day) (cd + 1)%Z = Ok rest ->
     P (rd - dp_distance_miles day) (rh - dp_driving_hours day) (cd + 1)%Z
       rest ->
     P rd rh cd (day :: rest)) ->
  forall rd rh cd plans,
    0 <= rh -> rd == rh * (dm / dh) ->
    plan_loop dm dh days rd rh cd = Ok plans -> P rd rh cd plans.
Proof.
  intros Hdm Hdh Hstop Hstep rd rh cd plans Hrh Hrd Hplans.
  assert (Hv : 0 < dm / dh) by (apply Qlt_shift_div_l; lra).
  revert Hrh Hrd.
  refine (plan_loop_days dm dh days
            (fun rd rh cd plans =>
               0 <= rh -> rd == rh * (dm / dh) -> P rd rh cd plans)
            _ _ rd rh cd plans Hplans); clear rd rh cd plans Hplans.
  - intros rd rh cd Hc Hrh Hrd. apply Hstop; assumption.
  - intros rd rh cd day rest Hc Hday Hrest IH Hrh Hrd.
    destruct (plan_day_fields _ _ _ _ _ _ Hday)
      as (v & Hspeed & _ & Hdrv & Hdist & _).
    rewrite avg_speed_pos in Hspeed by exact Hdh.
    apply Ok_inj in Hspeed. subst v.
    unfold plan_continue in Hc. apply andb_true_iff in Hc as [Hpos Hcd].
    apply ltb_lt in Hpos. apply Z.leb_le in Hcd.
    assert (Hrh' : 0 < rh).
    { destruct (Qlt_le_dec 0 rh) as [H | H]; [exact H |].
      assert (Hm : 0 <= (0 - rh) * (dm / dh))
        by (apply Qmult_le_0_compat; lra).
      lra. }
    apply Hstep; try assumption.
    apply IH.
    + rewrite Hdrv. destruct (min_cases 11 rh) as [[_ ->] | [H ->]]; lra.
    + rewrite Hdrv, Hdist, Hrd. ring.
Qed.

Lemma Qfloor_unique (x : Q) (n : Z) :
  inject_Z n <= x -> x < inject_Z (n + 1) -> Qfloor x = n.
Proof.
  intros Hlo Hhi.
  assert (H1 : (n <= Qfloor x)%Z).
  { rewrite <- (Qfloor_Z n). apply Qfloor_resp_le. exact Hlo. }
  assert (H2 : (Qfloor x < n + 1)%Z) by (apply Qfloor_lt_bound; exact Hhi).
  lia.
Qed.

Lemma Qfloor_nonneg (x : Q) : 0 <= x -> (0 <= Qfloor x)%Z.
Proof.
  intros H. rewrite <- (Qfloor_Z 0). apply Qfloor_resp_le. exact H.
Qed.

(** The fuel stops of a day are the whole thousands of its miles. *)
Lemma day_fuel_stops_floor (x : Q) :
  0 <= x ->
  (if 1000 <=? x then Qfloor (x / 1000) else 0%Z) = Qfloor (x / 1000).
Proof.
  intros H. destruct (1000 <=? x) eqn:E; [reflexivity |].
  apply leb_gt in E. symmetry. apply Qfloor_unique.
  - apply Qle_shift_div_l; [lra |]. change (inject_Z 0) with 0. lra.
  - apply Qlt_shift_div_r; [lra |]. change (inject_Z (0 + 1)) with 1. lra.
Qed.



(** *** Fuel stops: the days against the summary *)

Lemma Qfloor_plus_le (x y : Q) : (Qfloor x + Qfloor y <= Qfloor (x + y))%Z.
Proof.
  rewrite <- (Qfloor_Z (Qfloor x + Qfloor y)). apply Qfloor_resp_le.
  rewrite inject_Z_plus.
  pose proof (Qfloor_le x). pose proof (Qfloor_le y). lra.
Qed.

Lemma Qfloor_le_ceiling (x : Q) : (Qfloor x <= Qceiling x)%Z.
Proof.
  rewrite Zle_Qle.
  apply Qle_trans with x; [apply Qfloor_le | apply Qle_ceiling].
Qed.

Lemma plan_loop_fuel_stops dm dh days :
  0 < dm -> 0 < dh ->
  forall rd rh cd plans,
    0 <= rh -> rd == rh * (dm / dh) ->
    plan_loop dm dh days rd rh cd = Ok plans ->
    (0 <= sum_fuel_stops plans <= Qfloor (rd / 1000))%Z.
Proof.
  intros Hdm Hdh.
  assert (Hv : 0 < dm / dh) by (apply Qlt_shift_div_l; lra).
  apply (plan_loop_days_at_speed dm dh days
           (fun rd _ _ plans =>
              (0 <= sum_fuel_stops plans <= Qfloor (rd / 1000))%Z) Hdm Hdh).
  - intros rd rh cd Hrh Hrd _. cbn [sum_fuel_stops fold_right].
    split; [lia |]. apply Qfloor_nonneg. apply Qle_shift_div_l; [lra |].
    assert (Hm : 0 <= rh * (dm / dh)) by (apply Qmult_le_0_compat; lra).
    lra.
  - intros rd rh cd day rest Hrh Hrd Hcd Hday Hdrv Hdist _ [IH0 IH].
    destruct (plan_day_fields _ _ _ _ _ _ Hday)
      as (v & Hspeed & _ & _ & _ & Hfuel & _).
    rewrite avg_speed_pos in Hspeed by exact Hdh.
    apply Ok_inj in Hspeed. subst v.
    rewrite <- Hdist in Hfuel.
    assert (Hm : 0 <= dp_distance_miles day).
    { rewrite Hdist. apply Qmult_le_0_compat; [| lra].
      destruct (min_cases 11 rh) as [[_ ->] | [_ ->]]; lra. }
    rewrite day_fuel_stops_floor in Hfuel by exact Hm.
    cbn [sum_fuel_stops fold_right]. fold (sum_fuel_stops rest).
    assert (H0 : (0 <= dp_fuel_stops day)%Z).
    { rewrite Hfuel. apply Qfloor_nonneg. apply Qle_shift_div_l; lra. }
    split; [lia |].
    pose proof (Qfloor_plus_le (dp_distance_miles day / 1000)
                  ((rd - dp_distance_miles day) / 1000)) as Hsum.
    assert (E : dp_distance_miles day / 1000
                + (rd - dp_distance_miles day) / 1000 == rd / 1000) by field.
    rewrite (Qfloor_comp _ _ E) in Hsum. lia.
Qed.

(** X3.  On a route with a positive distance and a positive duration
    the fuel stops of the days are counted apart from the
    [total_fuel_stops] of the plan, and the two can differ: the days
    together never have more than [total_fuel_stops + 1] fuel stops. *)
Theorem daily_fuel_stops_bounded (route_info : RouteInfo) (cycle_used : Q) :
  0 < ri_distance_miles route_info ->
  0 < ri_duration_hours route_info ->
  exists plan,
    generate_hos_compliant_plan route_info cycle_used = Ok plan
    /\ (0 <= sum_fuel_stops (daily_plans plan)
        <= total_fuel_stops plan + 1)%Z.
Proof.
  intros Hdm Hdh.
  destruct (planner_result route_info cycle_used)
    as (plan & Hplan & Hloop & _ & Htotal).
  exists plan. split; [exact Hplan |].
  apply plan_loop_fuel_stops in Hloop;
    [| exact Hdm | exact Hdh | lra | field; lra].
  rewrite Htotal. unfold RouteService.fuel_stops, fuel_stop_interval.
  pose proof (Qfloor_le_ceiling (ri_distance_miles route_info / 1000)).
  lia.
Qed.

(** The bound is reached on 3000 miles in 11 hours (three fuel stops in
    the one day, two in the summary); on 2500 miles in 46 hours the
    summary has two fuel stops and the days have none. *)
Lemma daily_fuel_stops_bounded_witness :
  (exists plan,
     generate_hos_compliant_plan (route 3000 11) 0 = Ok plan
     /\ (0 <= sum_fuel_stops (daily_plans plan)
         <= total_fuel_stops plan + 1)%Z)
  /\ (exists plan,
        generate_hos_compliant_plan (route 3000 11) 0 = Ok plan
        /\ sum_fuel_stops (daily_plans plan) = 3%Z
        /\ total_fuel_stops plan = 2%Z)
  /\ (exists plan,
        generate_hos_compliant_plan (route 2500 46) 0 = Ok plan
        /\ sum_fuel_stops (daily_plans plan) = 0%Z
        /\ total_fuel_stops plan = 2%Z).
Proof.
  split; [apply (daily_fuel_stops_bounded (route 3000 11) 0); simpl; lra |].
  split; eexists; (split; [vm_compute; reflexivity |]);
    split; vm_compute; reflexivity.
Defined.




(** *** The hours of the pickup and of the dropoff *)


Lemma plan_loop_cons dm dh days rd rh cd day rest :
  plan_loop dm dh days rd rh cd = Ok (day :: rest) ->
  0 < rd /\ (cd <= days)%Z.
Proof.
  rewrite plan_loop_eq. destruct (plan_continue days rd cd) eqn:E;
    [| discriminate].
  intros _. unfold plan_continue in E. apply andb_true_iff in E as [H1 H2].
  split; [apply ltb_lt; exact H1 | apply Z.leb_le; exact H2].
Qed.

(** X5.  For every input, the hour of the pickup is in the on-duty time
    of day 1 and of no other day, and no day but the last of the list
    has the hour of the dropoff: the on-duty time of each earlier day
    is its driving, half an hour per fuel stop and, on day 1, the hour
    of the pickup. *)
Theorem dropoff_hour_only_on_last_day (route_info : RouteInfo)
    (cycle_used : Q) :
  exists plan,
    generate_hos_compliant_plan route_info cycle_used = Ok plan
    /\ Forall (fun day => dp_total_on_duty day == on_duty_before_dropoff day)
              (removelast (daily_plans plan))
    /\ Forall (fun day =>
                 dp_total_on_duty day == on_duty_before_dropoff day
                 \/ dp_total_on_duty day == on_duty_before_dropoff day + 1)
              (daily_plans plan).
Proof.
  destruct (planner_result route_info cycle_used)
    as (plan & Hplan & Hloop & _).
  exists plan. split; [exact Hplan |].
  refine (plan_loop_days _ _ _
            (fun _ _ _ plans =>
               Forall (fun day =>
                         dp_total_on_duty day == on_duty_before_dropoff day)
                      (removelast plans)
               /\ Forall (fun day =>
                    dp_total_on_duty day == on_duty_before_dropoff day
                    \/ dp_total_on_duty day == on_duty_before_dropoff day + 1)
                    plans)
            _ _ _ _ 1%Z _ Hloop).
  - intros. split; constructor.
  - intros rd rh cd day rest _ Hday Hrest [IH1 IH2].
    destruct (plan_day_fields _ _ _ _ _ _ Hday)
      as (v & _ & _ & _ & Hdist & _ & _ & Hduty & _).
    rewrite <- Hdist in Hduty.
    split.
    + destruct rest as [| next rest]; [constructor |].
      change (removelast (day :: next :: rest))
        with (day :: removelast (next :: rest)).
      constructor; [| exact IH1].
      apply plan_loop_cons in Hrest as [Hpos _].
      assert (E : includes_dropoff rd (dp_distance_miles day) = false).
      { unfold includes_dropoff. apply leb_gt. exact Hpos. }
      rewrite E in Hduty. rewrite Hduty. ring.
    + constructor; [| exact IH2].
      destruct (includes_dropoff rd (dp_distance_miles day));
        [right | left]; rewrite Hduty; ring.
Qed.

(** *** Routes the days allowed can hold *)







(** *** Short routes and routes that take no time *)

Lemma Qceiling_pos (x : Q) : 0 < x -> (1 <= Qceiling x)%Z.
Proof.
  intros H. assert (H0 : 0 < inject_Z (Qceiling x)).
  { apply Qlt_le_trans with x; [exact H | apply Qle_ceiling]. }
  change 0 with (inject_Z 0) in H0. rewrite <- Zlt_Qlt in H0. lia.
Qed.

Lemma days_needed_pos dm dh : 0 < dm -> 0 <= dh -> (1 <= days_needed dm dh)%Z.
Proof.
  intros Hdm Hdh. unfold days_needed. apply Qceiling_pos.
  unfold RouteService.max_on_duty_daily. apply Qlt_shift_div_l; [lra |].
  unfold total_time_with_breaks, total_on_duty_needed.
  assert (Hf : 0 <= inject_Z (RouteService.fuel_stops dm)).
  { change 0 with (inject_Z 0). rewrite <- Zle_Qle.
    unfold RouteService.fuel_stops, fuel_stop_interval.
    assert (H1 : (1 <= Qceiling (dm / 1000))%Z).
    { apply Qceiling_pos. apply Qlt_shift_div_l; lra. }
    lia. }
  assert (Hb : 0 <= inject_Z (RouteService.mandatory_breaks dh)).
  { change 0 with (inject_Z 0). rewrite <- Zle_Qle.
    unfold RouteService.mandatory_breaks, mandatory_break_after.
    apply Qfloor_nonneg. apply Qle_shift_div_l; lra. }
  lra.
Qed.



(** X8.  A route with a positive distance and a duration of zero is
    given [total_days_needed] days, at least one, and each of them
    drives zero hours over zero miles: the loop leaves only when its
    days are used up. *)
Theorem zero_duration_days_are_empty (route_info : RouteInfo)
    (cycle_used : Q) :
  0 < ri_distance_miles route_info ->
  ri_duration_hours route_info == 0 ->
  exists plan,
    generate_hos_compliant_plan route_info cycle_used = Ok plan
    /\ (1 <= total_days_needed plan)%Z
    /\ List.length (daily_plans plan) = Z.to_nat (total_days_needed plan)
    /\ Forall (fun day => dp_driving_hours day == 0
                          /\ dp_distance_miles day == 0)
              (daily_plans plan).
Proof.
  intros Hdm Hdh.
  destruct (planner_result route_info cycle_used)
    as (plan & Hplan & Hloop & Hdays & _).
  exists plan. split; [exact Hplan |]. rewrite Hdays.
  set (dm := ri_distance_miles route_info) in *.
  set (dh := ri_duration_hours route_info) in *.
  split; [apply days_needed_pos; lra |].
  set (days := days_needed dm dh) in *.
  assert (H : List.length (daily_plans plan) = Z.to_nat (days + 1 - 1)
              /\ Forall (fun day => dp_driving_hours day == 0
                                    /\ dp_distance_miles day == 0)
                        (daily_plans plan)).
  { refine (plan_loop_days dm dh days
              (fun rd rh cd plans =>
                 0 < rd -> rh == 0 ->
                 List.length plans = Z.to_nat (days + 1 - cd)
                 /\ Forall (fun day => dp_driving_hours day == 0
                                       /\ dp_distance_miles day == 0) plans)
              _ _ dm dh 1%Z _ Hloop Hdm Hdh).
    - intros rd rh cd Hc Hrd _. split; [| constructor].
      unfold plan_continue in Hc. apply andb_false_iff in Hc as [Hc | Hc].
      + apply ltb_ge in Hc. lra.
      + apply Z.leb_gt in Hc. cbn [List.length]. lia.
    - intros rd rh cd day rest Hc Hday _ IH Hrd Hrh.
      destruct (plan_day_fields _ _ _ _ _ _ Hday)
        as (v & Hspeed & _ & Hdrv & Hdist & _).
      assert (Hzero : dp_driving_hours day == 0).
      { rewrite Hdrv.
        destruct (min_cases 11 rh) as [[_ ->] | [H ->]]; [exact Hrh | lra]. }
      assert (Hmiles : dp_distance_miles day == 0).
      { rewrite Hdist, <- Hdrv, Hzero. ring. }
      unfold plan_continue in Hc. apply andb_true_iff in Hc as [_ Hc].
      apply Z.leb_le in Hc.
      destruct IH as [IHlen IHall].
      + rewrite Hmiles. lra.
      + rewrite Hzero, Hrh. ring.
      + split.
        * cbn [List.length]. rewrite IHlen. lia.
        * constructor; [split; assumption | exact IHall]. }
  replace (days + 1 - 1)%Z with days in H by lia. exact H.
Qed.

Lemma zero_duration_days_are_empty_witness :
  exists plan,
    generate_hos_compliant_plan (route 30000 0) 0 = Ok plan
    /\ (1 <= total_days_needed plan)%Z
    /\ List.length (daily_plans plan) = Z.to_nat (total_days_needed plan)
    /\ Forall (fun day => dp_driving_hours day == 0
                          /\ dp_distance_miles day == 0)
              (daily_plans plan).
Proof.
  apply (zero_duration_days_are_empty (route 30000 0) 0); simpl; lra.
Defined.

(** ** The logs of a trip *)




(** *** The scan for driving without a break *)












(** *** The breaks a day is logged with *)

Lemma Qceiling_unique (x : Q) (n : Z) :
  inject_Z (n - 1) < x -> x <= inject_Z n -> Qceiling x = n.
Proof.
  intros Hlo Hhi.
  assert (H1 : (Qceiling x <= n)%Z).
  { rewrite <- (Qceiling_Z n). apply Qceiling_resp_le. exact Hhi. }
  assert (H2 : (n - 1 < Qceiling x)%Z).
  { rewrite Zlt_Qlt.
    apply Qlt_le_trans with x; [exact Hlo | apply Qle_ceiling]. }
  lia.
Qed.

Lemma Qceiling_last_segment (r : Q) : 0 < r -> r <= 8 -> Qceiling (r / 8) = 1%Z.
Proof.
  intros H0 H8. apply Qceiling_unique.
  - change (inject_Z (1 - 1)) with 0. apply Qlt_shift_div_l; lra.
  - change (inject_Z 1) with 1. apply Qle_shift_div_r; lra.
Qed.

Lemma Qceiling_next_segment (r : Q) :
  Qceiling ((r - 8.0) / 8) = (Qceiling (r / 8) - 1)%Z.
Proof.
  assert (E : (r - 8.0) / 8 == r / 8 - 1) by field.
  rewrite (Qceiling_comp _ _ E).
  pose proof (Qle_ceiling (r / 8)) as Hle.
  pose proof (Qceiling_lt (r / 8)) as Hlt.
  apply Qceiling_unique.
  - replace (Qceiling (r / 8) - 1 - 1)%Z with (Qceiling (r / 8) - 1 + -1)%Z
      by lia.
    rewrite inject_Z_plus. change (inject_Z (-1)) with (-1 # 1). lra.
  - replace (Qceiling (r / 8) - 1)%Z with (Qceiling (r / 8) + -1)%Z by lia.
    rewrite inject_Z_plus. change (inject_Z (-1)) with (-1 # 1). lra.
Qed.

Lemma count_notes_app text (a b : list Event) :
  count_notes text (a ++ b) = (count_notes text a + count_notes text b)%nat.
Proof.
  unfold count_notes. rewrite filter_app, length_app. reflexivity.
Qed.

Lemma segment_changes_counts dp i pl dl t covered seg brk :
  count_notes begin_driving_notes
    (segment_changes dp i pl dl t covered seg brk) = 1%nat
  /\ count_notes break_notes (segment_changes dp i pl dl t covered seg brk)
     = (if brk then 1 else 0)%nat
  /\ count_notes fueling_notes (segment_changes dp i pl dl t covered seg brk)
     = (if fuel_fires dp seg then 1 else 0)%nat.
Proof.
  unfold segment_changes.
  destruct (fuel_fires dp seg), brk; repeat split; reflexivity.
Qed.

Lemma opening_changes_counts i cur pl d :
  count_notes begin_driving_notes (fst (opening_changes i cur pl d)) = 0%nat
  /\ count_notes break_notes (fst (opening_changes i cur pl d)) = 0%nat
  /\ count_notes fueling_notes (fst (opening_changes i cur pl d)) = 0%nat.
Proof.
  unfold opening_changes.
  destruct (0 <? i)%nat, (i =? 0)%nat; repeat split; reflexivity.
Qed.

Lemma closing_changes_counts dp i dl changes t :
  count_notes begin_driving_notes (closing_changes dp i dl changes t)
  = count_notes begin_driving_notes changes
  /\ count_notes break_notes (closing_changes dp i dl changes t)
     = count_notes break_notes changes
  /\ count_notes fueling_notes (closing_changes dp i dl changes t)
     = count_notes fueling_notes changes.
Proof.
  unfold closing_changes.
  destruct (last_day dp i || final_day_flag dp);
    rewrite !count_notes_app; repeat split; cbn; lia.
Qed.

Lemma fuel_fires_needs_stops dp seg :
  (dp_fuel_stops dp <= 0)%Z -> fuel_fires dp seg = false.
Proof.
  intros H. unfold fuel_fires. apply andb_false_iff. left.
  apply Z.ltb_ge. exact H.
Qed.

(** The starts of driving, the breaks and the fuel stops that the
    changes of a day with some driving show. *)
Lemma generated_counts dp i cur pl dl log_date :
  0 < dp_driving_hours dp ->
  exists changes,
    _generate_duty_status_changes dp i cur pl dl log_date = Ok changes
    /\ Z.of_nat (count_notes begin_driving_notes changes)
       = Qceiling (dp_driving_hours dp / 8)
    /\ Z.of_nat (count_notes break_notes changes)
       = (Qceiling (dp_driving_hours dp / 8) - 1)%Z
    /\ (count_notes fueling_notes changes
        <= count_notes begin_driving_notes changes)%nat
    /\ ((dp_fuel_stops dp <= 0)%Z ->
        count_notes fueling_notes changes = 0%nat).
Proof.
  intros Hdh. rewrite generate_changes_eq.
  destruct (loop_entry_returns dp i pl dl
              (fst (opening_changes i cur pl log_date))
              (snd (opening_changes i cur pl log_date))) as [s Hs].
  rewrite Hs. eexists. split; [reflexivity |].
  set (C := Qceiling (dp_driving_hours dp / 8)).
  set (I := fun s : DrivingState =>
              Z.of_nat (count_notes begin_driving_notes (ds_changes s))
              = Z.add (Z.of_nat (count_notes break_notes (ds_changes s)))
                      (if 0 <? ds_remaining_driving s then 0%Z else 1%Z)
              /\ (0 < ds_remaining_driving s ->
                  (Z.of_nat (count_notes break_notes (ds_changes s))
                   + Qceiling (ds_remaining_driving s / 8) = C)%Z)
              /\ (ds_remaining_driving s <= 0 ->
                  Z.of_nat (count_notes break_notes (ds_changes s))
                  = (C - 1)%Z)
              /\ (count_notes fueling_notes (ds_changes s)
                  <= count_notes begin_driving_notes (ds_changes s))%nat
              /\ ((dp_fuel_stops dp <= 0)%Z ->
                  count_notes fueling_notes (ds_changes s) = 0%nat)).
  assert (Hexit : I s /\ ds_remaining_driving s <= 0).
  { eapply (drive_loop_rule I); [| | exact Hs].
    - intros s0 s1 (Hbegin & Hmore & _ & Hfuel & Hnone) Hpos Hseg.
      rewrite drive_segment_eq in Hseg.
      destruct (dp_driving_hours dp =? 0); [discriminate |].
      apply Ok_inj in Hseg. subst s1.
      specialize (Hmore Hpos).
      assert (Eb : (0 <? ds_remaining_driving s0) = true)
        by (apply ltb_lt; exact Hpos).
      rewrite Eb in Hbegin.
      unfold I, pass. cbn [ds_changes ds_remaining_driving].
      set (r := ds_remaining_driving s0) in *.
      destruct (segment_changes_counts dp i pl dl (ds_current_time s0)
                  (ds_distance_covered s0)
                  (Py.min 8.0 r) (break_follows r (Py.min 8.0 r)))
        as (Ec1 & Ec2 & Ec3).
      rewrite !count_notes_app, Ec1, Ec2, Ec3.
      assert (Hfuel' :
        (count_notes fueling_notes (ds_changes s0)
         + (if fuel_fires dp (Py.min 8.0 r) then 1 else 0)
         <= count_notes begin_driving_notes (ds_changes s0) + 1)%nat
        /\ ((dp_fuel_stops dp <= 0)%Z ->
            (count_notes fueling_notes (ds_changes s0)
             + (if fuel_fires dp (Py.min 8.0 r) then 1 else 0))%nat
            = 0%nat)).
      { split.
        - destruct (fuel_fires dp (Py.min 8.0 r)); lia.
        - intros Hz. rewrite (fuel_fires_needs_stops dp _ Hz).
          rewrite (Hnone Hz). reflexivity. }
      destruct Hfuel' as [Hf1 Hf2].
      destruct (Qlt_le_dec 8 r) as [Hlong | Hshort].
      + assert (Emin : Py.min 8.0 r = 8.0) by (apply min_8_of_more; lra).
        rewrite Emin in *.
        assert (Ebrk : break_follows r 8.0 = true).
        { unfold break_follows. apply andb_true_iff. split.
          - apply ltb_lt. lra.
          - apply leb_le. lra. }
        rewrite Ebrk.
        assert (Enext : (0 <? r - 8.0) = true) by (apply ltb_lt; lra).
        rewrite Enext.
        split; [lia |]. split; [| split; [| split; assumption]].
        * intros _. rewrite Qceiling_next_segment. lia.
        * intros Hle. exfalso. lra.
      + assert (Hrest : r - Py.min 8.0 r <= 0).
        { destruct (min_cases 8.0 r) as [[_ ->] | [_ ->]]; lra. }
        assert (Ebrk : break_follows r (Py.min 8.0 r) = false).
        { unfold break_follows. apply andb_false_iff. left.
          apply ltb_ge. exact Hrest. }
        rewrite Ebrk.
        assert (Enext : (0 <? r - Py.min 8.0 r) = false)
          by (apply ltb_ge; exact Hrest).
        rewrite Enext.
        rewrite (Qceiling_last_segment r Hpos Hshort) in Hmore.
        split; [lia |]. split; [| split; [| split; assumption]].
        * intros Hgt. exfalso. lra.
        * intros _. lia.
    - unfold I, loop_entry. cbn [ds_changes ds_remaining_driving].
      destruct (opening_changes_counts i cur pl log_date) as (-> & -> & ->).
      assert (Eb : (0 <? dp_driving_hours dp) = true)
        by (apply ltb_lt; exact Hdh).
      rewrite Eb. split; [reflexivity |]. split; [| split; [| split]].
      + intros _. reflexivity.
      + intros Hle. exfalso. lra.
      + lia.
      + intros _. reflexivity. }
  destruct Hexit as [(Hbegin & _ & Hdone & Hfuel & Hnone) Hzero].
  specialize (Hdone Hzero).
  assert (Eb : (0 <? ds_remaining_driving s) = false)
    by (apply ltb_ge; exact Hzero).
  rewrite Eb in Hbegin.
  destruct (closing_changes_counts dp i dl (ds_changes s) (ds_current_time s))
    as (-> & -> & ->).
  split; [lia |]. split; [lia |]. split; [exact Hfuel | exact Hnone].
Qed.

(** X10.  A day with driving hours [h > 0] is logged with
    [ceil(h / 8)] starts of driving and [ceil(h / 8) - 1] mandatory
    breaks: a break follows each segment of eight hours but the last.
    The planner counts [floor(h / 8)] breaks, one more whenever [h] is
    a multiple of 8. *)
Theorem breaks_logged (daily_plan : DailyPlan) (day_idx : nat)
    (current_loc pickup_loc dropoff_loc : string) (log_date : Z) :
  0 < dp_driving_hours daily_plan ->
  exists changes,
    _generate_duty_status_changes daily_plan day_idx current_loc pickup_loc
      dropoff_loc log_date = Ok changes
    /\ Z.of_nat (count_notes begin_driving_notes changes)
       = Qceiling (dp_driving_hours daily_plan / 8)
    /\ Z.of_nat (count_notes break_notes changes)
       = (Qceiling (dp_driving_hours daily_plan / 8) - 1)%Z.
Proof.
  intros Hdh.
  destruct (generated_counts daily_plan day_idx current_loc pickup_loc
              dropoff_loc log_date Hdh)
    as (changes & Hchanges & Hbegin & Hbreak & _).
  exists changes. split; [exact Hchanges |]. split; assumption.
Qed.

(** A day of exactly eight hours: one break in the plan, none in the
    changes. *)
Lemma breaks_logged_witness :
  exists plan day changes,
    generate_hos_compliant_plan (route 400 8) 0 = Ok plan
    /\ daily_plans plan = [day]
    /\ dp_mandatory_breaks day = 1%Z
    /\ _generate_duty_status_changes day 0 "A" "B" "C" 0 = Ok changes
    /\ Z.of_nat (count_notes begin_driving_notes changes) = 1%Z
    /\ Z.of_nat (count_notes break_notes changes) = 0%Z.
Proof.
  eexists. eexists.
  destruct (breaks_logged
              {| dp_day := 1; dp_driving_hours := 8;
                 dp_distance_miles := 8 * (400 / 8);
                 dp_fuel_stops := 0; dp_mandatory_breaks := 1;
                 dp_total_on_duty := 8 + 0 * 0.5 + 1 + 1;
                 dp_pickup_dropoff_time := 2.0; dp_is_final_day := None |}
              0 "A" "B" "C" 0)
    as (changes & Hchanges & Hbegin & Hbreak).
  { simpl. lra. }
  exists changes.
  split; [vm_compute; reflexivity |].
  split; [reflexivity |].
  split; [reflexivity |].
  split; [exact Hchanges |].
  split; [exact Hbegin | exact Hbreak].
Defined.

(** X20.  The changes of a day show at most one fuel stop per driving
    segment, whatever the number of fuel stops of the daily plan, and
    none when the plan has none: with driving hours [h > 0] there are
    at most [ceil(h / 8)] changes with the notes of a fuel stop, so a
    day of 11 hours planned with three fuel stops is logged with two. *)
Theorem fuel_stops_logged (daily_plan : DailyPlan) (day_idx : nat)
    (current_loc pickup_loc dropoff_loc : string) (log_date : Z) :
  0 < dp_driving_hours daily_plan ->
  exists changes,
    _generate_duty_status_changes daily_plan day_idx current_loc pickup_loc
      dropoff_loc log_date = Ok changes
    /\ (Z.of_nat (count_notes fueling_notes changes)
        <= Qceiling (dp_driving_hours daily_plan / 8))%Z
    /\ ((dp_fuel_stops daily_plan <= 0)%Z ->
        count_notes fueling_notes changes = 0%nat).
Proof.
  intros Hdh.
  destruct (generated_counts daily_plan day_idx current_loc pickup_loc
              dropoff_loc log_date Hdh)
    as (changes & Hchanges & Hbegin & _ & Hfuel & Hnone).
  exists changes. split; [exact Hchanges |]. split; [lia | exact Hnone].
Qed.

(** 3000 miles in 11 hours: the day has three fuel stops in the plan
    and in the [fuel_stops] of its log, and two in its changes. *)
Lemma fuel_stops_logged_witness :
  exists plan day changes,
    generate_hos_compliant_plan (route 3000 11) 0 = Ok plan
    /\ daily_plans plan = [day]
    /\ dp_fuel_stops day = 3%Z
    /\ _generate_duty_status_changes day 0 "A" "B" "C" 0 = Ok changes
    /\ (Z.of_nat (count_notes fueling_notes changes) <= 2)%Z.
Proof.
  eexists. eexists.
  destruct (fuel_stops_logged
              {| dp_day := 1; dp_driving_hours := 11;
                 dp_distance_miles := 11 * (3000 / 11);
                 dp_fuel_stops := 3; dp_mandatory_breaks := 1;
                 dp_total_on_duty := 11 + 3 * 0.5 + 1 + 1;
                 dp_pickup_dropoff_time := 2.0; dp_is_final_day := None |}
              0 "A" "B" "C" 0)
    as (changes & Hchanges & Hfuel & _).
  { simpl. lra. }
  exists changes.
  split; [vm_compute; reflexivity |].
  split; [reflexivity |].
  split; [reflexivity |].
  split; [exact Hchanges |].
  exact Hfuel.
Defined.

(** *** A full day of eleven driving hours *)

(** The loop on eleven hours: eight hours, the break, three hours. *)
Lemma drive_loop_eleven_hours dp i pl dl changes t :
  dp_driving_hours dp == 11 ->
  drive_loop dp i pl dl (loop_entry dp changes t)
  = Ok (pass dp i pl dl (pass dp i pl dl (loop_entry dp changes t))).
Proof.
  intros Hdh.
  assert (Hnz : ~ dp_driving_hours dp == 0) by lra.
  assert (H8 : 8 <= dp_driving_hours dp) by lra.
  assert (H3 : dp_driving_hours dp - 8.0 < 8) by lra.
  rewrite drive_loop_eq. cbn [loop_entry ds_remaining_driving].
  assert (E0 : (0 <? dp_driving_hours dp) = true) by (apply ltb_lt; lra).
  rewrite E0, drive_segment_pass by exact Hnz.
  rewrite drive_loop_eq.
  cbn [pass loop_entry ds_remaining_driving].
  rewrite (min_8_of_more (dp_driving_hours dp) H8).
  assert (E1 : (0 <? dp_driving_hours dp - 8.0) = true) by (apply ltb_lt; lra).
  rewrite E1, drive_segment_pass by exact Hnz.
  rewrite drive_loop_eq.
  cbn [pass loop_entry ds_remaining_driving].
  rewrite (min_8_of_more (dp_driving_hours dp) H8).
  rewrite (min_8_of_less (dp_driving_hours dp - 8.0) H3).
  assert (E2 : (0 <? dp_driving_hours dp - 8.0 - (dp_driving_hours dp - 8.0))
               = false) by (apply ltb_ge; lra).
  rewrite E2. reflexivity.
Qed.

Lemma eleven_hours_timeline dp i cur pl dl :
  dp_driving_hours dp == 11 ->
  exists changes,
    _generate_duty_status_changes dp i cur pl dl 0 = Ok changes
    /\ timeline changes
       = map stamp
           (opening_instants i 0
            ++ segment_instants (fuel_fires dp 8.0) true (opening_clock i 0) 8.0
            ++ segment_instants (fuel_fires dp (dp_driving_hours dp - 8.0)) false
                 (opening_clock i 0 + 28800000000 + 1800000000) 3
            ++ closing_instants (last_day dp i || final_day_flag dp)
                 (opening_clock i 0 + 28800000000 + 1800000000 + 10800000000)).
Proof.
  intros Hdh.
  assert (H8 : 8 <= dp_driving_hours dp) by lra.
  assert (H3 : dp_driving_hours dp - 8.0 < 8) by lra.
  rewrite generate_changes_eq.
  rewrite drive_loop_eleven_hours by exact Hdh.
  eexists. split; [reflexivity |].
  rewrite timeline_closing, !timeline_pass.
  cbn [pass loop_entry ds_remaining_driving ds_current_time ds_changes].
  destruct (timeline_opening i cur pl 0) as [-> ->].
  rewrite !(min_8_of_more (dp_driving_hours dp) H8).
  rewrite !(min_8_of_less (dp_driving_hours dp - 8.0) H3).
  assert (B0 : break_follows (dp_driving_hours dp) 8.0 = true).
  { unfold break_follows. apply andb_true_iff. split.
    - apply ltb_lt. lra.
    - apply leb_le. lra. }
  assert (B1 : break_follows (dp_driving_hours dp - 8.0)
                             (dp_driving_hours dp - 8.0) = false).
  { unfold break_follows. apply andb_false_iff. left. apply ltb_ge. lra. }
  rewrite B0, B1.
  rewrite (timedelta_hours_comp (dp_driving_hours dp - 8.0) 3) by lra.
  rewrite (segment_instants_comp _ _ _ (dp_driving_hours dp - 8.0) 3) by lra.
  rewrite !map_app, <- !app_assoc. reflexivity.
Qed.

Lemma eleven_hours_without_fuel dp seg :
  dp_driving_hours dp == 11 -> 0 <= seg <= 8 ->
  (dp_fuel_stops dp <= 0)%Z \/ dp_distance_miles dp * 2 <= 1375 ->
  fuel_fires dp seg = false.
Proof.
  intros Hdh [Hseg0 Hseg8] [Hfuel | Hdist]; unfold fuel_fires;
    apply andb_false_iff.
  - left. apply Z.ltb_ge. exact Hfuel.
  - right. apply ltb_ge. unfold segment_distance.
    assert (E : seg / dp_driving_hours dp * dp_distance_miles dp
                == seg * dp_distance_miles dp / 11).
    { rewrite Hdh. field. }
    rewrite E. apply Qle_shift_div_r; [lra |].
    destruct (Qlt_le_dec (dp_distance_miles dp) 0) as [Hneg | Hpos].
    + assert (H0 : 0 <= seg * (0 - dp_distance_miles dp))
        by (apply Qmult_le_0_compat; lra).
      lra.
    + assert (H0 : 0 <= (8 - seg) * dp_distance_miles dp)
        by (apply Qmult_le_0_compat; lra).
      lra.
Qed.

(** A day of eleven hours without a fuel stop and without the changes
    of the dropoff: its last driving change lasts until the post-trip
    inspection. *)
Lemma eleven_hours_drive_time (daily_plan : DailyPlan) (day_idx : nat)
    (current_loc pickup_loc dropoff_loc : string) (log_date : Z) :
  dp_driving_hours daily_plan == 11 ->
  (dp_fuel_stops daily_plan <= 0)%Z
  \/ dp_distance_miles daily_plan * 2 <= 1375 ->
  last_day daily_plan day_idx || final_day_flag daily_plan = false ->
  exists changes,
    _generate_duty_status_changes daily_plan day_idx current_loc pickup_loc
      dropoff_loc log_date = Ok changes
    /\ driving (_calculate_daily_totals changes) == 45 # 4
    /\ _check_hos_compliance (_calculate_daily_totals changes) = false
    /\ In (ExceededDrivingTime (driving (_calculate_daily_totals changes)) 11)
          (_check_violations (_calculate_daily_totals changes) changes).
Proof.
  intros Hdh Hfuel Hlast. rewrite changes_any_date.
  destruct (eleven_hours_timeline daily_plan day_idx current_loc pickup_loc
              dropoff_loc Hdh) as (changes & Hchanges & Htimeline).
  exists changes. split; [exact Hchanges |].
  assert (Hdrv : driving (_calculate_daily_totals changes) == 45 # 4).
  { rewrite daily_totals_timeline, Htimeline, Hlast.
    rewrite (eleven_hours_without_fuel daily_plan 8.0 Hdh) by (lra || exact Hfuel).
    rewrite (eleven_hours_without_fuel daily_plan
               (dp_driving_hours daily_plan - 8.0) Hdh)
      by (lra || exact Hfuel).
    destruct day_idx as [| k].
    - vm_compute. reflexivity.
    - change (opening_instants (S k) 0) with (opening_instants 1 0).
      change (opening_clock (S k) 0) with (opening_clock 1 0).
      vm_compute. reflexivity. }
  split; [exact Hdrv |].
  apply over_cap_flagged. rewrite Hdrv. reflexivity.
Qed.

(** X11.  A day of 11 driving hours with no fuel stop in its segments
    (no fuel stop planned, or at most 687.5 miles) that does not get
    the changes of the dropoff is logged with 11.25 hours of driving:
    the last driving change lasts until the post-trip inspection, a
    quarter of an hour after the driving ends.  The day is reported as
    not compliant, with the violation of the 11-hour cap. *)
Theorem full_day_logged_over_the_cap (daily_plan : DailyPlan) (day_idx : nat)
    (current_loc pickup_loc dropoff_loc : string) (log_date : Z) :
  dp_driving_hours daily_plan == 11 ->
  (dp_fuel_stops daily_plan <= 0)%Z
  \/ dp_distance_miles daily_plan * 2 <= 1375 ->
  last_day daily_plan day_idx || final_day_flag daily_plan = false ->
  exists changes,
    _generate_duty_status_changes daily_plan day_idx current_loc pickup_loc
      dropoff_loc log_date = Ok changes
    /\ driving (_calculate_daily_totals changes) == 45 # 4
    /\ _check_hos_compliance (_calculate_daily_totals changes) = false
    /\ In (ExceededDrivingTime (driving (_calculate_daily_totals changes)) 11)
          (_check_violations (_calculate_daily_totals changes) changes).
Proof.
  apply eleven_hours_drive_time.
Qed.

Lemma full_day_logged_over_the_cap_witness :
  exists changes,
    _generate_duty_status_changes
      {| dp_day := 1; dp_driving_hours := 11; dp_distance_miles := 605;
         dp_fuel_stops := 0; dp_mandatory_breaks := 1;
         dp_total_on_duty := 12; dp_pickup_dropoff_time := 2;
         dp_is_final_day := None |} 0 "A" "B" "C" 0 = Ok changes
    /\ driving (_calculate_daily_totals changes) == 45 # 4
    /\ _check_hos_compliance (_calculate_daily_totals changes) = false
    /\ In (ExceededDrivingTime (driving (_calculate_daily_totals changes)) 11)
          (_check_violations (_calculate_daily_totals changes) changes).
Proof.
  apply (full_day_logged_over_the_cap
           {| dp_day := 1; dp_driving_hours := 11; dp_distance_miles := 605;
              dp_fuel_stops := 0; dp_mandatory_breaks := 1;
              dp_total_on_duty := 12; dp_pickup_dropoff_time := 2;
              dp_is_final_day := None |} 0 "A" "B" "C" 0).
  - simpl. lra.
  - left. simpl. lia.
  - reflexivity.
Defined.





(** *** The hours a log accounts for *)

Lemma add_duration_total (totals : Totals) (st : DutyStatus) (d : Q) :
  total_hours (add_duration totals st d) == total_hours totals + d.
Proof.
  unfold total_hours.
  destruct st; cbn [add_duration driving on_duty_not_driving sleeper_berth
                    off_duty]; ring.
Qed.

Lemma add_duration_grows (totals : Totals) (st : DutyStatus) (d : Q) :
  0 <= d ->
  driving totals <= driving (add_duration totals st d)
  /\ on_duty_not_driving totals
     <= on_duty_not_driving (add_duration totals st d)
  /\ sleeper_berth totals <= sleeper_berth (add_duration totals st d)
  /\ off_duty totals <= off_duty (add_duration totals st d).
Proof.
  intros Hd.
  destruct st; cbn [add_duration driving on_duty_not_driving sleeper_berth
                    off_duty]; repeat split; lra.
Qed.

Lemma duration_hours_in_order (change next_change : Event) :
  (strptime_HM (time change) <= strptime_HM (time next_change))%Z ->
  duration_hours change next_change
  == inject_Z (strptime_HM (time next_change) - strptime_HM (time change)) / 60.
Proof.
  intros Hle. unfold duration_hours.
  assert (E : (strptime_HM (time next_change) <? strptime_HM (time change))%Z
              = false) by (apply Z.ltb_ge; exact Hle).
  rewrite E. rewrite inject_Z_mult. change (inject_Z 60) with 60. field.
Qed.

Lemma accumulate_totals_span (changes : list Event) :
  forall totals,
    StronglySorted Z.le (minutes changes) ->
    (driving totals <= driving (accumulate_totals changes totals)
     /\ on_duty_not_driving totals
        <= on_duty_not_driving (accumulate_totals changes totals)
     /\ sleeper_berth totals
        <= sleeper_berth (accumulate_totals changes totals)
     /\ off_duty totals <= off_duty (accumulate_totals changes totals))
    /\ total_hours (accumulate_totals changes totals)
       == total_hours totals
          + inject_Z (last (minutes changes) 0%Z - hd 0%Z (minutes changes))
            / 60.
Proof.
  induction changes as [| change rest IH]; intros totals Hsorted.
  - cbn [accumulate_totals minutes map last hd].
    split; [repeat split; lra |].
    change (inject_Z (0 - 0)) with 0. field.
  - destruct rest as [| next_change rest].
    + cbn [accumulate_totals minutes map last hd].
      split; [repeat split; lra |].
      rewrite Z.sub_diag. change (inject_Z 0) with 0. field.
    + change (accumulate_totals (change :: next_change :: rest) totals)
        with (accumulate_totals (next_change :: rest)
                (add_duration totals (status change)
                              (duration_hours change next_change))).
      unfold minutes in Hsorted. cbn [map] in Hsorted.
      apply StronglySorted_inv in Hsorted as [Hrest Hfirst].
      pose proof (Forall_inv Hfirst) as Hle.
      pose proof (duration_hours_in_order change next_change Hle) as Hd.
      assert (Hd0 : 0 <= duration_hours change next_change).
      { rewrite Hd. apply Qle_shift_div_l; [lra |].
        assert (H0 : inject_Z 0 <= inject_Z (strptime_HM (time next_change)
                                             - strptime_HM (time change))).
        { rewrite <- Zle_Qle. lia. }
        change (inject_Z 0) with 0 in H0. lra. }
      destruct (IH (add_duration totals (status change)
                                 (duration_hours change next_change)) Hrest)
        as [(G1 & G2 & G3 & G4) Hspan].
      destruct (add_duration_grows totals (status change) _ Hd0)
        as (A1 & A2 & A3 & A4).
      split; [repeat split; lra |].
      rewrite Hspan, add_duration_total, Hd.
      unfold minutes. cbn [map hd].
      change (last (strptime_HM (time change)
                    :: strptime_HM (time next_change)
                    :: map (fun e => strptime_HM (time e)) rest) 0%Z)
        with (last (strptime_HM (time next_change)
                    :: map (fun e => strptime_HM (time e)) rest) 0%Z).
      set (m0 := strptime_HM (time change)).
      set (m1 := strptime_HM (time next_change)).
      set (ml := last (m1 :: map (fun e => strptime_HM (time e)) rest) 0%Z).
      replace (ml - m0)%Z with ((m1 - m0) + (ml - m1))%Z by lia.
      rewrite inject_Z_plus. field.
Qed.

(** X13.  When the printed times of a list of changes are in
    non-decreasing order, each of the four totals is non-negative and
    together they are the time from the first change to the last: what
    follows the last change of a day is in no total. *)
Theorem totals_run_from_first_to_last (changes : list Event) :
  StronglySorted Z.le (minutes changes) ->
  0 <= driving (_calculate_daily_totals changes)
  /\ 0 <= on_duty_not_driving (_calculate_daily_totals changes)
  /\ 0 <= sleeper_berth (_calculate_daily_totals changes)
  /\ 0 <= off_duty (_calculate_daily_totals changes)
  /\ total_hours (_calculate_daily_totals changes)
     == inject_Z (last (minutes changes) 0%Z - hd 0%Z (minutes changes)) / 60.
Proof.
  intros Hsorted. unfold _calculate_daily_totals.
  destruct (accumulate_totals_span changes
              {| driving := 0.0; on_duty_not_driving := 0.0;
                 sleeper_berth := 0.0; off_duty := 0.0 |} Hsorted)
    as [(G1 & G2 & G3 & G4) Hspan].
  cbn [driving on_duty_not_driving sleeper_berth off_duty] in G1, G2, G3, G4.
  repeat (split; [lra |]).
  rewrite Hspan. unfold total_hours.
  cbn [driving on_duty_not_driving sleeper_berth off_duty]. field.
Qed.

Lemma totals_run_from_first_to_last_witness :
  total_hours
    (_calculate_daily_totals
       [ {| status := OFF_DUTY; time := {| hour := 6; minute := 0 |};
            location := "Rest Area"; odometer := 250000; notes := "Status change" |};
         {| status := ON_DUTY_NOT_DRIVING;
            time := {| hour := 6; minute := 15 |};
            location := "Rest Area"; odometer := 250000; notes := "Status change" |};
         {| status := DRIVING; time := {| hour := 6; minute := 15 |};
            location := "Rest Area"; odometer := 250000; notes := "Status change" |};
         {| status := OFF_DUTY; time := {| hour := 14; minute := 45 |};
            location := "Rest Area"; odometer := 250400; notes := "Status change" |} ])
  == inject_Z (885 - 360) / 60.
Proof.
  apply (totals_run_from_first_to_last
           [ {| status := OFF_DUTY; time := {| hour := 6; minute := 0 |};
                location := "Rest Area"; odometer := 250000; notes := "Status change" |};
             {| status := ON_DUTY_NOT_DRIVING;
                time := {| hour := 6; minute := 15 |};
                location := "Rest Area"; odometer := 250000; notes := "Status change" |};
             {| status := DRIVING; time := {| hour := 6; minute := 15 |};
                location := "Rest Area"; odometer := 250000; notes := "Status change" |};
             {| status := OFF_DUTY; time := {| hour := 14; minute := 45 |};
                location := "Rest Area"; odometer := 250400; notes := "Status change" |} ]).
  unfold minutes, strptime_HM. cbn [map time hour minute].
  repeat constructor; lia.
Defined.

(** The order and the range of the printed times of a day of at most
    eleven driving hours: from 06:00 to 21:11. *)
Lemma generated_minutes dp i cur pl dl log_date changes :
  dp_driving_hours dp <= 11 ->
  (dp_fuel_stops dp <= 0)%Z
  \/ dp_distance_miles dp <= 500 * dp_driving_hours dp ->
  _generate_duty_status_changes dp i cur pl dl log_date = Ok changes ->
  StronglySorted Z.le (minutes changes)
  /\ Forall (fun m => (360 <= m <= 1271)%Z) (minutes changes)
  /\ changes <> [].
Proof.
  intros Hcap Hplan Hchanges.
  rewrite changes_any_date, generate_changes_eq in Hchanges.
  destruct (loop_exit_on_schedule dp i cur pl dl Hcap Hplan)
    as (s & Hs & ((instants & Htl & Hord) & Hlo & _ & Hend) & Hdone).
  rewrite Hs in Hchanges. apply Ok_inj in Hchanges. subst changes.
  specialize (Hend Hdone).
  destruct (opening_ordered i) as [_ Hclock].
  change (six_am 0) with 21600000000%Z in *.
  set (dropoff := last_day dp i || final_day_flag dp).
  assert (Hall : ordered_within 21600000000 (ds_current_time s + 5400000000)
                   (instants ++ closing_instants dropoff (ds_current_time s))).
  { eapply ordered_within_app;
      [exact Hord | apply closing_ordered | lia]. }
  assert (Hmin : minutes (closing_changes dp i dl (ds_changes s)
                                          (ds_current_time s))
                 = map (fun entry => strptime_HM (snd (stamp entry)))
                       (instants
                        ++ closing_instants dropoff (ds_current_time s))).
  { apply minutes_of_timeline.
    rewrite timeline_closing, Htl, map_app. reflexivity. }
  split; [| split].
  - rewrite Hmin. eapply printed_in_order; [exact Hall | lia |].
    unfold us_per_day. lia.
  - rewrite Hmin. rewrite Forall_map.
    destruct Hall as [_ Hbounds].
    eapply Forall_impl; [| exact Hbounds].
    intros entry Hin. cbn beta in Hin. unfold stamp. cbn [snd].
    rewrite (minute_of_day_in_day 0) by (unfold us_per_day; lia).
    unfold us_per_minute.
    assert (H1 : (360 <= snd entry / 60000000)%Z)
      by (apply Z.div_le_lower_bound; lia).
    assert (H2 : (snd entry / 60000000 < 1272)%Z)
      by (apply Z.div_lt_upper_bound; lia).
    lia.
  - destruct (closing_changes_last dp i dl (ds_changes s) (ds_current_time s))
      as (body & closing & -> & _).
    destruct body; discriminate.
Qed.

Lemma last_in_range (P : Z -> Prop) (l : list Z) (d : Z) :
  l <> [] -> Forall P l -> P (last l d).
Proof.
  intros Hne Hall. induction l as [| x l IH]; [contradiction |].
  destruct l as [| y l].
  - cbn [last]. apply Forall_inv in Hall. exact Hall.
  - change (last (x :: y :: l) d) with (last (y :: l) d).
    apply IH; [discriminate | apply Forall_inv_tail in Hall; exact Hall].
Qed.

(** X14.  The log of a day of at most 11 driving hours, with no fuel
    stop or an average of at most 500 mph, accounts for at most 15
    hours and 11 minutes in its four totals: the day runs from 06:00
    to 21:11 at the latest, and the rest that follows it is not
    counted as off-duty time. *)
Theorem day_totals_stay_under_sixteen_hours (daily_plan : DailyPlan)
    (day_idx : nat) (current_loc pickup_loc dropoff_loc : string)
    (log_date : Z) :
  dp_driving_hours daily_plan <= 11 ->
  (dp_fuel_stops daily_plan <= 0)%Z
  \/ dp_distance_miles daily_plan <= 500 * dp_driving_hours daily_plan ->
  exists changes,
    _generate_duty_status_changes daily_plan day_idx current_loc pickup_loc
      dropoff_loc log_date = Ok changes
    /\ total_hours (_calculate_daily_totals changes) <= 911 / 60
    /\ 0 <= off_duty (_calculate_daily_totals changes) <= 911 / 60.
Proof.
  intros Hcap Hplan.
  destruct (changes_return daily_plan day_idx current_loc pickup_loc
              dropoff_loc log_date) as [changes Hchanges].
  exists changes. split; [exact Hchanges |].
  destruct (generated_minutes _ _ _ _ _ _ _ Hcap Hplan Hchanges)
    as (Hsorted & Hrange & Hne).
  unfold _calculate_daily_totals.
  destruct (accumulate_totals_span changes
              {| driving := 0.0; on_duty_not_driving := 0.0;
                 sleeper_berth := 0.0; off_duty := 0.0 |} Hsorted)
    as [(G1 & G2 & G3 & G4) Hspan].
  cbn [driving on_duty_not_driving sleeper_berth off_duty] in G1, G2, G3, G4.
  assert (Hne' : minutes changes <> []).
  { unfold minutes. destruct changes; [contradiction | discriminate]. }
  pose proof (last_in_range _ _ 0%Z Hne' Hrange) as Hlast.
  assert (Hfirst : (360 <= hd 0%Z (minutes changes) <= 1271)%Z).
  { destruct (minutes changes) as [| m ms]; [contradiction |].
    apply Forall_inv in Hrange. exact Hrange. }
  cbn beta in Hlast.
  assert (Hbound : total_hours
                     (accumulate_totals changes
                        {| driving := 0.0; on_duty_not_driving := 0.0;
                           sleeper_berth := 0.0; off_duty := 0.0 |})
                   <= 911 / 60).
  { rewrite Hspan. unfold total_hours.
    cbn [driving on_duty_not_driving sleeper_berth off_duty].
    assert (Hq : inject_Z (last (minutes changes) 0%Z
                           - hd 0%Z (minutes changes)) <= inject_Z 911).
    { rewrite <- Zle_Qle. lia. }
    change (inject_Z 911) with 911 in Hq.
    set (span := inject_Z _) in *.
    assert (E : 0.0 + 0.0 + 0.0 + 0.0 + span / 60 == span / 60) by field.
    rewrite E. unfold Qdiv.
    apply Qmult_le_compat_r; [exact Hq | vm_compute; discriminate]. }
  split; [exact Hbound |].
  unfold total_hours in Hbound. split; lra.
Qed.

Lemma day_totals_stay_under_sixteen_hours_witness :
  exists changes,
    _generate_duty_status_changes
      {| dp_day := 1; dp_driving_hours := 9; dp_distance_miles := 500;
         dp_fuel_stops := 0; dp_mandatory_breaks := 1; dp_total_on_duty := 11;
         dp_pickup_dropoff_time := 2; dp_is_final_day := None |}
      0 "A" "B" "C" 0 = Ok changes
    /\ total_hours (_calculate_daily_totals changes) <= 911 / 60
    /\ 0 <= off_duty (_calculate_daily_totals changes) <= 911 / 60.
Proof.
  apply (day_totals_stay_under_sixteen_hours
           {| dp_day := 1; dp_driving_hours := 9; dp_distance_miles := 500;
              dp_fuel_stops := 0; dp_mandatory_breaks := 1;
              dp_total_on_duty := 11;
              dp_pickup_dropoff_time := 2; dp_is_final_day := None |}
           0 "A" "B" "C" 0).
  - simpl. lra.
  - left. simpl. lia.
Defined.

(** ** The grid of a log sheet *)

Lemma set_slot_length (st : DutyStatus) (g : list DutyStatus) :
  forall k, List.length (set_slot g k st) = List.length g.
Proof.
  induction g as [| a g IH]; intros k; [reflexivity |].
  destruct k; cbn [set_slot List.length]; [reflexivity |].
  rewrite IH. reflexivity.
Qed.

Lemma set_slot_nth (st : DutyStatus) (g : list DutyStatus) :
  forall k c,
    (k < List.length g)%nat ->
    nth_error (set_slot g k st) c
    = if (c =? k)%nat then Some st else nth_error g c.
Proof.
  induction g as [| a g IH]; intros k c Hk; [cbn in Hk; lia |].
  destruct k, c; cbn [set_slot nth_error Nat.eqb]; try reflexivity.
  apply IH. cbn [List.length] in Hk. lia.
Qed.

(** The loop [for slot in range(...)] on a grid of 96 cells. *)
Lemma fill_range (st : DutyStatus) (n : nat) :
  forall start g,
    List.length g = 96%nat ->
    List.length
      (fold_left (fun grid slot =>
                    if (slot <? 96)%nat then set_slot grid slot st else grid)
                 (seq start n) g) = 96%nat
    /\ forall c,
         nth_error
           (fold_left (fun grid slot =>
                         if (slot <? 96)%nat then set_slot grid slot st
                         else grid)
                      (seq start n) g) c
         = if (start <=? c)%nat && (c <? start + n)%nat && (c <? 96)%nat
           then Some st else nth_error g c.
Proof.
  induction n as [| n IH]; intros start g Hlen.
  - cbn [seq fold_left]. split; [exact Hlen |]. intros c.
    destruct (Nat.leb_spec start c), (Nat.ltb_spec c (start + 0));
      cbn [andb]; try reflexivity; lia.
  - cbn [seq fold_left].
    set (g1 := if (start <? 96)%nat then set_slot g start st else g).
    assert (Hlen1 : List.length g1 = 96%nat).
    { subst g1. destruct (start <? 96)%nat; [| exact Hlen].
      rewrite set_slot_length. exact Hlen. }
    destruct (IH (S start) g1 Hlen1) as [IHlen IHnth].
    split; [exact IHlen |]. intros c. rewrite IHnth.
    assert (Hg1 : nth_error g1 c
                  = if (c =? start)%nat && (start <? 96)%nat
                    then Some st else nth_error g c).
    { subst g1. destruct (Nat.ltb_spec start 96).
      - rewrite set_slot_nth by lia. rewrite andb_true_r. reflexivity.
      - rewrite andb_false_r. reflexivity. }
    rewrite Hg1.
    destruct (Nat.leb_spec (S start) c), (Nat.ltb_spec c (S start + n)),
             (Nat.ltb_spec c 96), (Nat.leb_spec start c),
             (Nat.ltb_spec c (start + S n)), (Nat.eqb_spec c start),
             (Nat.ltb_spec start 96);
      cbn [andb]; try reflexivity; lia.
Qed.

Lemma fill_slots_cells (st : DutyStatus) (g : list DutyStatus) (a b : Z) :
  List.length g = 96%nat -> (0 <= a)%Z ->
  List.length (fill_slots g a b st) = 96%nat
  /\ (forall c, (a <= Z.of_nat c < b)%Z -> (c < 96)%nat ->
                nth_error (fill_slots g a b st) c = Some st)
  /\ (forall c, ~ (a <= Z.of_nat c < b)%Z ->
                nth_error (fill_slots g a b st) c = nth_error g c).
Proof.
  intros Hlen Ha. unfold fill_slots.
  destruct (fill_range st (Z.to_nat (b - a)) (Z.to_nat a) g Hlen)
    as [Hl Hnth].
  split; [exact Hl |]. split; intros c Hc; [intros H96 |]; rewrite Hnth.
  - destruct (Nat.leb_spec (Z.to_nat a) c),
             (Nat.ltb_spec c (Z.to_nat a + Z.to_nat (b - a))),
             (Nat.ltb_spec c 96); cbn [andb]; try reflexivity; lia.
  - destruct (Nat.leb_spec (Z.to_nat a) c),
             (Nat.ltb_spec c (Z.to_nat a + Z.to_nat (b - a))),
             (Nat.ltb_spec c 96); cbn [andb]; try reflexivity; lia.
Qed.

Lemma slot_of_minutes (t : HHMM) :
  slot_of t = (strptime_HM t / 15)%Z.
Proof.
  unfold slot_of, strptime_HM.
  replace (hour t * 60)%Z with (hour t * 4 * 15)%Z by lia.
  rewrite Z.div_add_l by lia. reflexivity.
Qed.

Lemma slot_of_range (t : HHMM) : valid_time t -> (0 <= slot_of t <= 95)%Z.
Proof.
  intros [Hh Hm]. unfold slot_of.
  assert (H0 : (0 <= minute t / 15)%Z) by (apply Z.div_pos; lia).
  assert (H3 : (minute t / 15 < 4)%Z) by (apply Z.div_lt_upper_bound; lia).
  lia.
Qed.

Lemma fill_grid_step (e0 e1 : Event) (rest : list Event)
    (g : list DutyStatus) :
  fill_grid (e0 :: e1 :: rest) g
  = fill_grid (e1 :: rest)
      (fill_slots g (slot_of (time e0)) (Z.min 96 (slot_of (time e1)))
                  (status e0)).
Proof. reflexivity. Qed.

(** The cells of the grid after the sweep over the changes. *)
Lemma fill_grid_cells (changes : list Event) :
  forall g,
    List.length g = 96%nat ->
    Forall (fun e => valid_time (time e)) changes ->
    List.length (fill_grid changes g) = 96%nat
    /\ (forall c,
          (forall k e e',
             nth_error changes k = Some e ->
             nth_error changes (S k) = Some e' ->
             ~ (slot_of (time e) <= Z.of_nat c < slot_of (time e'))%Z) ->
          nth_error (fill_grid changes g) c = nth_error g c)
    /\ (StronglySorted Z.le (map (fun e => slot_of (time e)) changes) ->
        forall k e e' c,
          nth_error changes k = Some e ->
          nth_error changes (S k) = Some e' ->
          (slot_of (time e) <= Z.of_nat c < slot_of (time e'))%Z ->
          nth_error (fill_grid changes g) c = Some (status e)).
Proof.
  induction changes as [| e0 rest IH]; intros g Hlen Hvalid.
  - cbn [fill_grid]. split; [exact Hlen |]. split; [reflexivity |].
    intros _ [| k] e e' c H; discriminate.
  - destruct rest as [| e1 rest].
    + cbn [fill_grid]. split; [exact Hlen |]. split; [reflexivity |].
      intros _ [| [| k]] e e' c H H'; discriminate.
    + rewrite fill_grid_step.
      pose proof (Forall_inv Hvalid) as Hv0.
      pose proof (Forall_inv_tail Hvalid) as Hvrest.
      pose proof (Forall_inv Hvrest) as Hv1.
      pose proof (slot_of_range _ Hv0) as Hs0.
      pose proof (slot_of_range _ Hv1) as Hs1.
      destruct (fill_slots_cells (status e0) g (slot_of (time e0))
                  (Z.min 96 (slot_of (time e1))) Hlen ltac:(lia))
        as (Hlen1 & Hin & Hout).
      destruct (IH _ Hlen1 Hvrest) as (IHlen & IHout & IHin).
      split; [exact IHlen |]. split.
      * intros c Hpairs. rewrite IHout.
        -- apply Hout. intros Hc.
           apply (Hpairs 0%nat e0 e1 eq_refl eq_refl). lia.
        -- intros k e e' Hk Hk'. apply (Hpairs (S k) e e'); assumption.
      * intros Hsorted k e e' c Hk Hk' Hc.
        cbn [map] in Hsorted.
        apply StronglySorted_inv in Hsorted as [Hsrest Hsfirst].
        destruct k as [| k].
        -- cbn [nth_error] in Hk, Hk'.
           injection Hk as <-. injection Hk' as <-.
           rewrite IHout.
           ++ apply Hin; lia.
           ++ intros j a a' Hj Hj' Hca.
              apply StronglySorted_inv in Hsrest as [_ Hnext].
              apply nth_error_In in Hj.
              destruct Hj as [<- | Hj]; [lia |].
              rewrite Forall_map in Hnext. rewrite Forall_forall in Hnext.
              specialize (Hnext a Hj). cbn beta in Hnext. lia.
        -- apply (IHin Hsrest k e e' c); assumption.
Qed.

Lemma StronglySorted_map_mono {A B : Type} (R : A -> A -> Prop)
    (R' : B -> B -> Prop) (f : A -> B) (l : list A) :
  (forall x y, R x y -> R' (f x) (f y)) ->
  StronglySorted R l -> StronglySorted R' (map f l).
Proof.
  intros Hf Hs. induction Hs as [| a l Hs IH Hall]; cbn [map]; constructor.
  - exact IH.
  - rewrite Forall_map. eapply Forall_impl; [| exact Hall].
    intros b Hab. apply Hf. exact Hab.
Qed.

(** X15.  For changes with times of the day in non-decreasing order,
    the grid has 96 cells; the cells from the quarter of an hour of a
    change up to that of the next change hold the status of the change;
    and the cells before the first change and from the last change on
    stay [off_duty]. *)
Theorem grid_shows_each_change_until_the_next (changes : list Event) :
  Forall (fun e => valid_time (time e)) changes ->
  StronglySorted Z.le (minutes changes) ->
  List.length (grid (_generate_log_sheet_grid changes)) = 96%nat
  /\ List.length (time_slots (_generate_log_sheet_grid changes)) = 96%nat
  /\ (forall k e e' c,
        nth_error changes k = Some e ->
        nth_error changes (S k) = Some e' ->
        (slot_of (time e) <= Z.of_nat c < slot_of (time e'))%Z ->
        nth_error (grid (_generate_log_sheet_grid changes)) c
        = Some (status e))
  /\ (forall c,
        (c < 96)%nat ->
        (forall e, In e changes -> (Z.of_nat c < slot_of (time e))%Z)
        \/ (forall e, In e changes -> (slot_of (time e) <= Z.of_nat c)%Z) ->
        nth_error (grid (_generate_log_sheet_grid changes)) c
        = Some OFF_DUTY).
Proof.
  intros Hvalid Hsorted.
  unfold _generate_log_sheet_grid. cbn [grid time_slots].
  destruct (fill_grid_cells changes (repeat OFF_DUTY 96)
              (repeat_length OFF_DUTY 96) Hvalid) as (Hlen & Hout & Hin).
  split; [exact Hlen |]. split; [reflexivity |]. split.
  - apply Hin.
    assert (E : map (fun e => slot_of (time e)) changes
                = map (fun m => (m / 15)%Z) (minutes changes)).
    { unfold minutes. rewrite map_map. apply map_ext.
      intros e. apply slot_of_minutes. }
    rewrite E. eapply StronglySorted_map_mono; [| exact Hsorted].
    intros x y Hxy. apply Z.div_le_mono; [lia | exact Hxy].
  - intros c Hc Hside. rewrite Hout.
    + apply nth_error_repeat. exact Hc.
    + intros k e e' Hk Hk' Hrange.
      apply nth_error_In in Hk. apply nth_error_In in Hk'.
      destruct Hside as [Hbefore | Hafter].
      * specialize (Hbefore e Hk). lia.
      * specialize (Hafter e' Hk'). lia.
Qed.

Lemma grid_shows_each_change_until_the_next_witness :
  nth_error
    (grid (_generate_log_sheet_grid
       [ {| status := OFF_DUTY; time := {| hour := 6; minute := 0 |};
            location := "Rest Area"; odometer := 250000;
            notes := "End of required 10-hour off-duty period" |};
         {| status := ON_DUTY_NOT_DRIVING;
            time := {| hour := 6; minute := 15 |};
            location := "Rest Area"; odometer := 250000;
            notes := "Pre-trip inspection" |};
         {| status := DRIVING; time := {| hour := 6; minute := 15 |};
            location := "Rest Area"; odometer := 250000;
            notes := "Begin driving" |};
         {| status := OFF_DUTY; time := {| hour := 14; minute := 45 |};
            location := "Rest Area"; odometer := 250400;
            notes := "Begin 10-hour off-duty period" |} ])) 30
  = Some DRIVING.
Proof.
  refine (proj1 (proj2 (proj2
    (grid_shows_each_change_until_the_next
       [ {| status := OFF_DUTY; time := {| hour := 6; minute := 0 |};
            location := "Rest Area"; odometer := 250000;
            notes := "End of required 10-hour off-duty period" |};
         {| status := ON_DUTY_NOT_DRIVING;
            time := {| hour := 6; minute := 15 |};
            location := "Rest Area"; odometer := 250000;
            notes := "Pre-trip inspection" |};
         {| status := DRIVING; time := {| hour := 6; minute := 15 |};
            location := "Rest Area"; odometer := 250000;
            notes := "Begin driving" |};
         {| status := OFF_DUTY; time := {| hour := 14; minute := 45 |};
            location := "Rest Area"; odometer := 250400;
            notes := "Begin 10-hour off-duty period" |} ] _ _)))
    2%nat _ _ 30%nat eq_refl eq_refl _).
  - repeat constructor; cbn; lia.
  - unfold minutes, strptime_HM. cbn [map time hour minute].
    repeat constructor; lia.
  - cbn. lia.
Defined.

(** ** The odometer within a day *)

Lemma climbing_nil lo hi : climbing lo hi [].
Proof. split; constructor. Qed.

Lemma climbing_cons lo hi o rest :
  lo <= o <= hi -> climbing o hi rest -> climbing lo hi (o :: rest).
Proof.
  intros Ho [Hsorted Hall]. split.
  - constructor; [exact Hsorted |].
    eapply Forall_impl; [| exact Hall]. intros x H. cbn beta in *. lra.
  - constructor; [exact Ho |].
    eapply Forall_impl; [| exact Hall]. intros x H. cbn beta in *. lra.
Qed.

Lemma climbing_app lo mid hi a b :
  climbing lo mid a -> climbing mid hi b -> lo <= mid <= hi ->
  climbing lo hi (a ++ b).
Proof.
  intros [Sa Fa] [Sb Fb] Hle. split.
  - induction a as [| x a IH]; [exact Sb |].
    cbn [app]. apply StronglySorted_inv in Sa as [Sa Ha].
    constructor.
    + apply IH; [exact Sa |]. apply Forall_inv_tail in Fa. exact Fa.
    + apply Forall_app. split; [exact Ha |].
      apply Forall_inv in Fa.
      eapply Forall_impl; [| exact Fb].
      intros y H. cbn beta in *. lra.
  - apply Forall_app. split.
    + eapply Forall_impl; [| exact Fa]. intros y H. cbn beta in *. lra.
    + eapply Forall_impl; [| exact Fb]. intros y H. cbn beta in *. lra.
Qed.

Lemma climbing_wider lo lo' hi hi' l :
  climbing lo hi l -> lo' <= lo -> hi <= hi' -> climbing lo' hi' l.
Proof.
  intros [Hs Hf] Hlo Hhi. split; [exact Hs |].
  eapply Forall_impl; [| exact Hf]. intros o H. cbn beta in *. lra.
Qed.

(** Every change of a day is written with the odometer base of an
    empty list of plans: 250000. *)
Lemma day_base (day_idx : nat) :
  inject_Z (_calculate_odometer day_idx [] 250000) = 250000.
Proof.
  unfold _calculate_odometer. rewrite firstn_nil. reflexivity.
Qed.

Lemma segment_changes_odometer dp i pl dl t covered seg brk :
  0 <= segment_distance dp seg ->
  climbing (250000 + covered)
           (250000 + (covered + segment_distance dp seg))
           (map odometer (segment_changes dp i pl dl t covered seg brk)).
Proof.
  intros Hseg. unfold segment_changes. rewrite day_base.
  set (sd := segment_distance dp seg) in *.
  assert (Hhalf : 0 <= sd / 2) by (apply Qle_shift_div_l; lra).
  assert (Hhalf' : sd / 2 <= sd).
  { apply Qle_shift_div_r; lra. }
  destruct (fuel_fires dp seg), brk; cbn [app map odometer];
    repeat (apply climbing_cons; [lra |]); apply climbing_nil.
Qed.

Lemma opening_changes_odometer i cur pl d :
  (0 < i)%nat ->
  climbing 250000 250000 (map odometer (fst (opening_changes i cur pl d)))
  /\ exists first rest,
       fst (opening_changes i cur pl d) = first :: rest
       /\ odometer first = 250000.
Proof.
  intros Hi. unfold opening_changes. rewrite day_base.
  destruct i as [| i]; [lia |].
  cbn [Nat.ltb Nat.leb Nat.eqb app fst map odometer]. split.
  - repeat (apply climbing_cons; [lra |]). apply climbing_nil.
  - eexists. eexists. split; reflexivity.
Qed.

Lemma closing_changes_odometer dp i dl changes t :
  exists tail closing,
    closing_changes dp i dl changes t = changes ++ tail ++ [closing]
    /\ climbing (250000 + dp_distance_miles dp)
                (250000 + dp_distance_miles dp)
                (map odometer (tail ++ [closing]))
    /\ odometer closing = 250000 + dp_distance_miles dp.
Proof.
  unfold closing_changes. rewrite day_base.
  destruct (last_day dp i || final_day_flag dp).
  - eexists [_; _; _]. eexists.
    rewrite <- !app_assoc. cbn [app]. split; [reflexivity |].
    split; [| reflexivity].
    cbn [map odometer].
    repeat (apply climbing_cons; [lra |]). apply climbing_nil.
  - eexists [_]. eexists.
    rewrite <- !app_assoc. cbn [app]. split; [reflexivity |].
    split; [| reflexivity].
    cbn [map odometer].
    repeat (apply climbing_cons; [lra |]). apply climbing_nil.
Qed.

(** X16.  On every day after the first, over a distance that is not
    negative, the odometer readings of the changes never step back:
    they start at 250000, whatever the day and the miles of the days
    before it, and end at 250000 plus the distance of the day. *)
Theorem odometer_climbs_after_first_day (daily_plan : DailyPlan)
    (day_idx : nat) (current_loc pickup_loc dropoff_loc : string)
    (log_date : Z) :
  (0 < day_idx)%nat ->
  0 <= dp_distance_miles daily_plan ->
  exists first body closing,
    _generate_duty_status_changes daily_plan day_idx current_loc pickup_loc
      dropoff_loc log_date = Ok (first :: body ++ [closing])
    /\ odometer first = 250000
    /\ odometer closing = 250000 + dp_distance_miles daily_plan
    /\ climbing 250000 (250000 + dp_distance_miles daily_plan)
                (map odometer (first :: body ++ [closing])).
Proof.
  intros Hi Hdist. rewrite generate_changes_eq.
  destruct (loop_entry_returns daily_plan day_idx pickup_loc dropoff_loc
              (fst (opening_changes day_idx current_loc pickup_loc log_date))
              (snd (opening_changes day_idx current_loc pickup_loc log_date)))
    as [s Hs].
  rewrite Hs.
  destruct (opening_changes_odometer day_idx current_loc pickup_loc log_date
              Hi) as (Hopen & first & rest & Hfirst & Hodo).
  set (dh := dp_driving_hours daily_plan) in *.
  set (total := dp_distance_miles daily_plan) in *.
  set (I := fun s : DrivingState =>
              (exists more, ds_changes s = first :: rest ++ more)
              /\ climbing 250000 (250000 + ds_distance_covered s)
                          (map odometer (ds_changes s))
              /\ 0 <= ds_distance_covered s <= total
              /\ (0 < dh ->
                  0 <= ds_remaining_driving s
                  /\ total - ds_distance_covered s
                     == ds_remaining_driving s / dh * total)).
  assert (Hentry : I (loop_entry daily_plan
                        (fst (opening_changes day_idx current_loc pickup_loc
                                              log_date))
                        (snd (opening_changes day_idx current_loc pickup_loc
                                              log_date)))).
  { unfold I, loop_entry.
    cbn [ds_changes ds_distance_covered ds_remaining_driving].
    split; [exists []; rewrite app_nil_r; exact Hfirst |].
    split.
    { destruct Hopen as [Hs0 Hf0]. split; [exact Hs0 |].
      eapply Forall_impl; [| exact Hf0]. intros o H. cbn beta in *. lra. }
    split; [lra |].
    intros Hpos. fold dh. split; [lra |]. field. lra. }
  assert (Hexit : I s).
  { destruct (Qlt_le_dec 0 dh) as [Hpos | Hneg].
    - eapply (drive_loop_rule I); [| exact Hentry | exact Hs].
      intros s0 s1 (Hshape & Hclimb & Hcov & Hrem) Hr Hseg.
      destruct (Hrem Hpos) as [Hr0 Hleft].
      rewrite drive_segment_pass in Hseg by (fold dh; lra).
      apply Ok_inj in Hseg. subst s1.
      unfold I, pass.
      cbn [ds_changes ds_distance_covered ds_remaining_driving].
      set (r := ds_remaining_driving s0) in *.
      set (seg := Py.min 8.0 r).
      assert (Hseg0 : 0 < seg <= r).
      { subst seg. destruct (min_cases 8.0 r) as [[H ->] | [H ->]]; lra. }
      assert (Hq : 0 <= seg / dh) by (apply Qle_shift_div_l; lra).
      assert (Hsd : 0 <= segment_distance daily_plan seg).
      { unfold segment_distance. fold dh. fold total.
        apply Qmult_le_0_compat; lra. }
      assert (Hleft' : total - (ds_distance_covered s0
                                + segment_distance daily_plan seg)
                       == (r - seg) / dh * total).
      { unfold segment_distance. fold dh. fold total.
        assert (E : (r - seg) / dh * total
                    == r / dh * total - seg / dh * total) by (field; lra).
        rewrite E, <- Hleft. ring. }
      assert (Hmore : 0 <= (r - seg) / dh * total).
      { apply Qmult_le_0_compat; [apply Qle_shift_div_l; lra | lra]. }
      split.
      { destruct Hshape as [more ->]. eexists.
        rewrite <- app_comm_cons, <- app_assoc. reflexivity. }
      split.
      { rewrite map_app. eapply climbing_app.
        - exact Hclimb.
        - apply segment_changes_odometer. exact Hsd.
        - lra. }
      split; [lra |].
      intros _. split; [lra | exact Hleft'].
    - unfold loop_entry in Hs. rewrite drive_loop_skipped in Hs
        by (cbn [ds_remaining_driving]; exact Hneg).
      apply Ok_inj in Hs. subst s. exact Hentry. }
  destruct Hexit as ((more & Hshape) & Hclimb & Hcov & _).
  destruct (closing_changes_odometer daily_plan day_idx dropoff_loc
              (ds_changes s) (ds_current_time s))
    as (tail & closing & Hclose & Htail & Hlast).
  fold total in Htail, Hlast.
  exists first, (rest ++ more ++ tail), closing.
  assert (E : first :: (rest ++ more ++ tail) ++ [closing]
              = ds_changes s ++ tail ++ [closing]).
  { rewrite Hshape. cbn [app]. rewrite <- !app_assoc. reflexivity. }
  rewrite Hclose, <- E. split; [reflexivity |]. split; [exact Hodo |].
  split; [exact Hlast |].
  rewrite E, map_app.
  eapply climbing_app;
    [exact Hclimb | eapply climbing_wider; [exact Htail | lra | lra] | lra].
Qed.

Lemma odometer_climbs_after_first_day_witness :
  exists first body closing,
    _generate_duty_status_changes
      {| dp_day := 2; dp_driving_hours := 9; dp_distance_miles := 500;
         dp_fuel_stops := 0; dp_mandatory_breaks := 1; dp_total_on_duty := 9;
         dp_pickup_dropoff_time := 0; dp_is_final_day := None |}
      1 "A" "B" "C" 1 = Ok (first :: body ++ [closing])
    /\ odometer first = 250000
    /\ odometer closing = 250000 + 500
    /\ climbing 250000 (250000 + 500)
                (map odometer (first :: body ++ [closing])).
Proof.
  apply (odometer_climbs_after_first_day
           {| dp_day := 2; dp_driving_hours := 9; dp_distance_miles := 500;
              dp_fuel_stops := 0; dp_mandatory_breaks := 1;
              dp_total_on_duty := 9;
              dp_pickup_dropoff_time := 0; dp_is_final_day := None |}
           1 "A" "B" "C" 1).
  - lia.
  - simpl. lra.
Defined.

(** ** The odometer from log to log *)







(** ** The drawing of a log sheet *)

Lemma hour_x_range (h : Q) :
  0 <= h <= 24 -> (80 <= GenerateLog.hour_x h <= 680)%Z.
Proof.
  intros [H0 H24]. unfold GenerateLog.hour_x, GenerateLog.grid_start_x,
    GenerateLog.grid_width.
  change (inject_Z 600) with 600.
  assert (Hlo : (0 <= Qfloor (h * 600 / 24))%Z).
  { apply Qfloor_nonneg. apply Qle_shift_div_l; lra. }
  assert (Hhi : (Qfloor (h * 600 / 24) <= Qfloor (inject_Z 600))%Z).
  { apply Qfloor_resp_le.
    apply Qle_shift_div_r; [lra |]. change (inject_Z 600) with 600. lra. }
  rewrite Qfloor_Z in Hhi. lia.
Qed.

Lemma hour_x_mono (h h' : Q) :
  h <= h' -> (GenerateLog.hour_x h <= GenerateLog.hour_x h')%Z.
Proof.
  intros H. unfold GenerateLog.hour_x, GenerateLog.grid_width.
  change (inject_Z 600) with 600.
  assert (Hle : (Qfloor (h * 600 / 24) <= Qfloor (h' * 600 / 24))%Z).
  { apply Qfloor_resp_le. apply Qle_shift_div_l; [lra |].
    assert (E : h * 600 / 24 * 24 == h * 600) by field.
    rewrite E. lra. }
  lia.
Qed.

Lemma row_range (duty_type : string) : (0 <= GenerateLog.row duty_type <= 3)%Z.
Proof.
  unfold GenerateLog.row.
  destruct (String.eqb duty_type "off_duty"),
           (String.eqb duty_type "sleeper_berth"),
           (String.eqb duty_type "driving"); lia.
Qed.

(** X18.  A duty period with its two hours between 0 and 24 is drawn
    as a horizontal line inside the grid (x from 80 to 680), at
    mid-height of the row of its duty type (y = 130 + 100 * row, rows
    0 to 3), from left to right when the period ends after it
    starts. *)
Theorem period_drawn_in_its_row (period : GenerateLog.Period) :
  0 <= GenerateLog.get (GenerateLog.start_hour period) 0 <= 24 ->
  0 <= GenerateLog.get (GenerateLog.end_hour period) 0 <= 24 ->
  let line := GenerateLog.period_line period in
  let r := GenerateLog.row
             (GenerateLog.get (GenerateLog.duty_type period) "off_duty"%string) in
  (0 <= r <= 3)%Z
  /\ snd (GenerateLog.start_point line) = (130 + 100 * r)%Z
  /\ snd (GenerateLog.end_point line) = (130 + 100 * r)%Z
  /\ (80 <= fst (GenerateLog.start_point line) <= 680)%Z
  /\ (80 <= fst (GenerateLog.end_point line) <= 680)%Z
  /\ (GenerateLog.get (GenerateLog.start_hour period) 0
      <= GenerateLog.get (GenerateLog.end_hour period) 0 ->
      (fst (GenerateLog.start_point line)
       <= fst (GenerateLog.end_point line))%Z).
Proof.
  intros Hstart Hend line r. subst line r.
  unfold GenerateLog.period_line.
  cbn [GenerateLog.start_point GenerateLog.end_point fst snd].
  pose proof (row_range
                (GenerateLog.get (GenerateLog.duty_type period)
                                 "off_duty"%string)) as Hrow.
  pose proof (hour_x_range _ Hstart) as Hx0.
  pose proof (hour_x_range _ Hend) as Hx1.
  change GenerateLog.grid_start_y with 80%Z.
  change GenerateLog.row_height with 100%Z.
  change (100 / 2)%Z with 50%Z.
  split; [exact Hrow |]. split; [lia |]. split; [lia |].
  split; [exact Hx0 |]. split; [exact Hx1 |].
  apply hour_x_mono.
Qed.

Lemma period_drawn_in_its_row_witness :
  let line :=
    GenerateLog.period_line
      {| GenerateLog.duty_type := Some "driving"%string;
         GenerateLog.start_hour := Some 9;
         GenerateLog.end_hour := Some 18 |} in
  GenerateLog.start_point line = (305, 330)%Z
  /\ GenerateLog.end_point line = (530, 330)%Z
  /\ (80 <= fst (GenerateLog.start_point line) <= 680)%Z.
Proof.
  pose proof (period_drawn_in_its_row
                {| GenerateLog.duty_type := Some "driving"%string;
                   GenerateLog.start_hour := Some 9;
                   GenerateLog.end_hour := Some 18 |}) as H.
  cbn [GenerateLog.get GenerateLog.start_hour GenerateLog.end_hour] in H.
  destruct H as (_ & _ & _ & Hx & _); [lra | lra |].
  split; [vm_compute; reflexivity |].
  split; [vm_compute; reflexivity | exact Hx].
Defined.

Lemma add_hours_known totals duty_type hours :
  String.eqb duty_type "off_duty" || String.eqb duty_type "sleeper_berth"
  || String.eqb duty_type "driving" || String.eqb duty_type "on_duty" = true ->
  exists totals',
    GenerateLog.add_hours totals duty_type hours = GenerateLog.Done totals'
    /\ sheet_hours totals' == sheet_hours totals + hours.
Proof.
  intros H. unfold GenerateLog.add_hours.
  destruct (String.eqb duty_type "off_duty");
    [eexists; split; [reflexivity | unfold sheet_hours; cbn; ring] |].
  destruct (String.eqb duty_type "sleeper_berth");
    [eexists; split; [reflexivity | unfold sheet_hours; cbn; ring] |].
  destruct (String.eqb duty_type "driving");
    [eexists; split; [reflexivity | unfold sheet_hours; cbn; ring] |].
  destruct (String.eqb duty_type "on_duty");
    [eexists; split; [reflexivity | unfold sheet_hours; cbn; ring] |].
  discriminate.
Qed.

Lemma add_hours_unknown totals duty_type hours :
  String.eqb duty_type "off_duty" || String.eqb duty_type "sleeper_berth"
  || String.eqb duty_type "driving" || String.eqb duty_type "on_duty" = false ->
  GenerateLog.add_hours totals duty_type hours = GenerateLog.KeyError duty_type
  /\ GenerateLog.row duty_type = 3%Z
  /\ GenerateLog.duty_colors duty_type = "black"%string.
Proof.
  intros H. unfold GenerateLog.add_hours, GenerateLog.row,
    GenerateLog.duty_colors.
  destruct (String.eqb duty_type "off_duty"); [discriminate |].
  destruct (String.eqb duty_type "sleeper_berth"); [discriminate |].
  destruct (String.eqb duty_type "driving"); [discriminate |].
  destruct (String.eqb duty_type "on_duty"); [discriminate |].
  repeat split.
Qed.

Lemma sum_periods_known periods :
  forall totals,
    forallb known_duty_type periods = true ->
    exists totals',
      GenerateLog.sum_periods periods totals = GenerateLog.Done totals'
      /\ sheet_hours totals' == sheet_hours totals + sum_hours periods.
Proof.
  induction periods as [| p periods IH]; intros totals Hknown.
  - exists totals. split; [reflexivity |].
    cbn [sum_hours fold_right]. ring.
  - cbn [forallb] in Hknown. apply andb_true_iff in Hknown as [Hp Hrest].
    cbn [GenerateLog.sum_periods].
    destruct (add_hours_known totals _ (period_hours p) Hp)
      as (totals1 & E1 & H1).
    unfold period_hours in E1. rewrite E1.
    destruct (IH totals1 Hrest) as (totals' & E' & H').
    exists totals'. split; [exact E' |].
    rewrite H', H1. cbn [sum_hours fold_right]. fold (sum_hours periods).
    ring.
Qed.

Lemma sum_periods_unknown earlier p later :
  forall totals,
    forallb known_duty_type earlier = true ->
    known_duty_type p = false ->
    GenerateLog.sum_periods (earlier ++ p :: later) totals
    = GenerateLog.KeyError
        (GenerateLog.get (GenerateLog.duty_type p) "off_duty"%string).
Proof.
  induction earlier as [| q earlier IH]; intros totals Hknown Hp.
  - cbn [app GenerateLog.sum_periods].
    destruct (add_hours_unknown totals _ (period_hours p) Hp) as [E _].
    unfold period_hours in E. rewrite E. reflexivity.
  - cbn [forallb] in Hknown. apply andb_true_iff in Hknown as [Hq Hrest].
    cbn [app GenerateLog.sum_periods].
    destruct (add_hours_known totals _ (period_hours q) Hq)
      as (totals1 & E1 & _).
    unfold period_hours in E1. rewrite E1.
    apply IH; assumption.
Qed.

(** X19.  The summary of a log sheet has four keys.  When every period
    has one of them as its duty type (a missing one counts as
    [off_duty]) the call draws one line per period and its four totals
    add up to the hours of the periods.  The first period with any
    other duty type, which the drawing loop puts on the last row in
    black, makes the summary loop raise [KeyError] on that duty
    type. *)
Theorem sheet_totals_need_a_known_duty_type
    (duty_periods : list GenerateLog.Period) :
  (forallb known_duty_type duty_periods = true ->
   exists totals,
     GenerateLog.generate_log_sheet duty_periods
     = GenerateLog.Done (map GenerateLog.period_line duty_periods, totals)
     /\ sheet_hours totals == sum_hours duty_periods)
  /\ (forall earlier period later,
        duty_periods = earlier ++ period :: later ->
        forallb known_duty_type earlier = true ->
        known_duty_type period = false ->
        GenerateLog.generate_log_sheet duty_periods
        = GenerateLog.KeyError
            (GenerateLog.get (GenerateLog.duty_type period) "off_duty"%string)
        /\ GenerateLog.fill (GenerateLog.period_line period) = "black"%string
        /\ snd (GenerateLog.start_point (GenerateLog.period_line period))
           = 430%Z).
Proof.
  split.
  - intros Hknown. unfold GenerateLog.generate_log_sheet.
    destruct (sum_periods_known duty_periods
                {| GenerateLog.off_duty := 0; GenerateLog.sleeper_berth := 0;
                   GenerateLog.driving := 0; GenerateLog.on_duty := 0 |}
                Hknown) as (totals & E & H).
    rewrite E. exists totals. split; [reflexivity |].
    rewrite H. unfold sheet_hours. cbn. ring.
  - intros earlier period later -> Hknown Hp.
    unfold GenerateLog.generate_log_sheet.
    rewrite (sum_periods_unknown earlier period later _ Hknown Hp).
    split; [reflexivity |].
    destruct (add_hours_unknown
                {| GenerateLog.off_duty := 0; GenerateLog.sleeper_berth := 0;
                   GenerateLog.driving := 0; GenerateLog.on_duty := 0 |}
                _ 0 Hp) as (_ & Hrow & Hcolor).
    unfold GenerateLog.period_line.
    cbn [GenerateLog.fill GenerateLog.start_point snd].
    rewrite Hrow, Hcolor. split; reflexivity.
Qed.

(** The periods of [create_sample_log_sheet] add up to 24 hours; with
    the generator's status for on-duty time in place of [on_duty] the
    call raises. *)
Lemma sheet_totals_need_a_known_duty_type_witness :
  (exists totals,
     GenerateLog.generate_log_sheet
       [ {| GenerateLog.duty_type := Some "off_duty"%string;
            GenerateLog.start_hour := Some 0;
            GenerateLog.end_hour := Some 8 |};
         {| GenerateLog.duty_type := Some "on_duty"%string;
            GenerateLog.start_hour := Some 8;
            GenerateLog.end_hour := Some 9 |};
         {| GenerateLog.duty_type := Some "driving"%string;
            GenerateLog.start_hour := Some 9;
            GenerateLog.end_hour := Some 18 |};
         {| GenerateLog.duty_type := Some "off_duty"%string;
            GenerateLog.start_hour := Some 18;
            GenerateLog.end_hour := Some 24 |} ]
     = GenerateLog.Done
         (map GenerateLog.period_line
            [ {| GenerateLog.duty_type := Some "off_duty"%string;
                 GenerateLog.start_hour := Some 0;
                 GenerateLog.end_hour := Some 8 |};
              {| GenerateLog.duty_type := Some "on_duty"%string;
                 GenerateLog.start_hour := Some 8;
                 GenerateLog.end_hour := Some 9 |};
              {| GenerateLog.duty_type := Some "driving"%string;
                 GenerateLog.start_hour := Some 9;
                 GenerateLog.end_hour := Some 18 |};
              {| GenerateLog.duty_type := Some "off_duty"%string;
                 GenerateLog.start_hour := Some 18;
                 GenerateLog.end_hour := Some 24 |} ], totals)
     /\ sheet_hours totals == 24)
  /\ GenerateLog.generate_log_sheet
       [ {| GenerateLog.duty_type := Some "off_duty"%string;
            GenerateLog.start_hour := Some 0;
            GenerateLog.end_hour := Some 8 |};
         {| GenerateLog.duty_type := Some "on_duty_not_driving"%string;
            GenerateLog.start_hour := Some 8;
            GenerateLog.end_hour := Some 9 |} ]
     = GenerateLog.KeyError "on_duty_not_driving".
Proof.
  split.
  - destruct (proj1 (sheet_totals_need_a_known_duty_type
                [ {| GenerateLog.duty_type := Some "off_duty"%string;
                     GenerateLog.start_hour := Some 0;
                     GenerateLog.end_hour := Some 8 |};
                  {| GenerateLog.duty_type := Some "on_duty"%string;
                     GenerateLog.start_hour := Some 8;
                     GenerateLog.end_hour := Some 9 |};
                  {| GenerateLog.duty_type := Some "driving"%string;
                     GenerateLog.start_hour := Some 9;
                     GenerateLog.end_hour := Some 18 |};
                  {| GenerateLog.duty_type := Some "off_duty"%string;
                     GenerateLog.start_hour := Some 18;
                     GenerateLog.end_hour := Some 24 |} ]) eq_refl)
      as (totals & E & H).
    exists totals. split; [exact E |]. rewrite H. vm_compute. reflexivity.
  - apply (proj2 (sheet_totals_need_a_known_duty_type
             [ {| GenerateLog.duty_type := Some "off_duty"%string;
                  GenerateLog.start_hour := Some 0;
                  GenerateLog.end_hour := Some 8 |};
               {| GenerateLog.duty_type := Some "on_duty_not_driving"%string;
                  GenerateLog.start_hour := Some 8;
                  GenerateLog.end_hour := Some 9 |} ])
             [ {| GenerateLog.duty_type := Some "off_duty"%string;
                  GenerateLog.start_hour := Some 0;
                  GenerateLog.end_hour := Some 8 |} ]
             {| GenerateLog.duty_type := Some "on_duty_not_driving"%string;
                GenerateLog.start_hour := Some 8;
                GenerateLog.end_hour := Some 9 |} []
             eq_refl eq_refl eq_refl).
Defined.

(** ** The fallback distance *)

Section FallbackDistance.

Import Stdlib.Reals.Reals.
Local Open Scope R_scope.

Lemma sin_half_sym (x y : R) : sin ((x - y) / 2) ^ 2 = sin ((y - x) / 2) ^ 2.
Proof.
  replace ((y - x) / 2) with (- ((x - y) / 2)) by Lra.lra.
  rewrite sin_neg. ring.
Qed.

Lemma asin_nonneg (x : R) : 0 <= x <= 1 -> 0 <= asin x.
Proof.
  intros [H0 H1].
  destruct (Rle_or_lt 0 (asin x)) as [H | H]; [exact H |].
  exfalso.
  pose proof (asin_bound x) as [Hlo _].
  assert (Hs : sin (asin x) < 0).
  { apply sin_lt_0_var; [| exact H]. pose proof PI_RGT_0. Lra.lra. }
  rewrite sin_asin in Hs by Lra.lra. Lra.lra.
Qed.

(** X22.  The fallback distance, over the real numbers: it is the same
    in both directions, it is zero from a point to itself, and when it
    is returned it lies between 0 and half the circumference of a
    sphere of radius 3956 miles. *)
Theorem fallback_distance_is_a_distance (coord1 coord2 : R * R) :
  RouteFallback._calculate_distance_fallback coord1 coord2
  = RouteFallback._calculate_distance_fallback coord2 coord1
  /\ RouteFallback._calculate_distance_fallback coord1 coord1 = Some 0
  /\ (forall d,
        RouteFallback._calculate_distance_fallback coord1 coord2 = Some d ->
        0 <= d <= PI * 3956).
Proof.
  destruct coord1 as [lat1 lon1]. destruct coord2 as [lat2 lon2].
  unfold RouteFallback._calculate_distance_fallback.
  set (p1 := RouteFallback.radians lat1).
  set (l1 := RouteFallback.radians lon1).
  set (p2 := RouteFallback.radians lat2).
  set (l2 := RouteFallback.radians lon2).
  split; [| split].
  - rewrite (sin_half_sym p2 p1), (sin_half_sym l2 l1).
    rewrite (Rmult_comm (cos p1) (cos p2)). reflexivity.
  - replace ((p1 - p1) / 2) with 0 by Lra.lra.
    replace ((l1 - l1) / 2) with 0 by Lra.lra.
    rewrite sin_0.
    replace (0 ^ 2 + cos p1 * cos p1 * 0 ^ 2) with 0 by ring.
    destruct (Rlt_dec 0 0) as [H | _]; [exfalso; Lra.lra |].
    rewrite sqrt_0.
    destruct (Rlt_dec 1 0) as [H | _]; [exfalso; Lra.lra |].
    rewrite asin_0. f_equal. ring.
  - intros d.
    set (a := sin ((p2 - p1) / 2) ^ 2
              + cos p1 * cos p2 * sin ((l2 - l1) / 2) ^ 2).
    destruct (Rlt_dec a 0) as [_ | Ha]; [discriminate |].
    destruct (Rlt_dec 1 (sqrt a)) as [_ | Hs]; [discriminate |].
    intros E. injection E as <-.
    pose proof (sqrt_pos a) as H0.
    pose proof (asin_bound (sqrt a)) as [_ Hhi].
    pose proof (asin_nonneg (sqrt a)) as Hlo.
    assert (H1 : sqrt a <= 1) by Lra.lra.
    specialize (Hlo (conj H0 H1)).
    split; Lra.lra.
Qed.

Lemma fallback_distance_is_a_distance_witness :
  RouteFallback._calculate_distance_fallback (0, 0) (0, 0) = Some 0
  /\ 0 <= 0 <= PI * 3956.
Proof.
  pose proof (fallback_distance_is_a_distance (0, 0) (0, 0))
    as (_ & Hzero & Hrange).
  split; [exact Hzero | exact (Hrange 0 Hzero)].
Defined.

End FallbackDistance.

(** ** Days of a whole number of driving minutes *)

Lemma add_duration_hours_of (totals : Totals) (st st' : DutyStatus) (d : Q) :
  hours_of st (add_duration totals st' d)
  == hours_of st totals + (if same_status st' st then d else 0).
Proof.
  destruct st, st';
    cbn [hours_of add_duration same_status driving on_duty_not_driving
         sleeper_berth off_duty]; ring.
Qed.

(** In a list of changes with times in order, the total of a status is
    the minutes the list spends in it. *)
Lemma accumulate_totals_by_status (st : DutyStatus) (changes : list Event) :
  forall totals,
    StronglySorted Z.le (minutes changes) ->
    hours_of st (accumulate_totals changes totals)
    == hours_of st totals
       + inject_Z (minutes_in st (in_minutes changes)) / 60.
Proof.
  induction changes as [| change rest IH]; intros totals Hsorted.
  - cbn [accumulate_totals in_minutes map minutes_in].
    change (inject_Z 0) with 0. field.
  - destruct rest as [| next_change rest].
    + cbn [accumulate_totals in_minutes map minutes_in].
      change (inject_Z 0) with 0. field.
    + change (accumulate_totals (change :: next_change :: rest) totals)
        with (accumulate_totals (next_change :: rest)
                (add_duration totals (status change)
                              (duration_hours change next_change))).
      unfold minutes in Hsorted. cbn [map] in Hsorted.
      apply StronglySorted_inv in Hsorted as [Hrest Hfirst].
      pose proof (Forall_inv Hfirst) as Hle.
      rewrite (IH _ Hrest), add_duration_hours_of.
      pose proof (duration_hours_in_order change next_change Hle) as Hd.
      change (in_minutes (change :: next_change :: rest))
        with ((status change, strptime_HM (time change))
              :: in_minutes (next_change :: rest)).
      change (in_minutes (next_change :: rest))
        with ((status next_change, strptime_HM (time next_change))
              :: in_minutes rest).
      cbn [minutes_in fst snd].
      fold (in_minutes rest).
      change ((status next_change, strptime_HM (time next_change))
              :: in_minutes rest)
        with (in_minutes (next_change :: rest)).
      rewrite inject_Z_plus.
      destruct (same_status (status change) st).
      * rewrite Hd. field.
      * change (inject_Z 0) with 0. field.
Qed.

Lemma timedelta_whole_minutes (h : Q) (m : Z) :
  h == inject_Z m / 60 -> timedelta_hours h = (m * us_per_minute)%Z.
Proof.
  intros E. unfold timedelta_hours.
  rewrite (round_half_even_comp _ (inject_Z (m * us_per_minute))).
  - apply round_half_even_Z.
  - rewrite E, inject_Z_mult. unfold us_per_hour, us_per_minute.
    change (inject_Z 3600000000) with 3600000000.
    change (inject_Z 60000000) with 60000000. field.
Qed.

Lemma cons_eq {A : Type} (a b : A) (l l' : list A) :
  a = b -> l = l' -> a :: l = b :: l'.
Proof. intros -> ->. reflexivity. Qed.

Lemma entry_eq (st : DutyStatus) (t t' : Z) : t = t' -> (st, t) = (st, t').
Proof. intros ->. reflexivity. Qed.

Lemma opening_in_minutes i :
  opening_instants i 0 = map scale (opening_minutes i)
  /\ opening_clock i 0 = (opening_minute i * us_per_minute)%Z.
Proof.
  unfold opening_instants, opening_minutes, opening_clock, opening_minute.
  destruct i as [| i]; cbn [Nat.ltb Nat.leb Nat.eqb]; split; reflexivity.
Qed.

Lemma closing_in_minutes (dropoff : bool) (t : Z) :
  closing_instants dropoff (t * us_per_minute)
  = map scale (closing_minutes dropoff t).
Proof.
  unfold closing_instants, closing_minutes, scale, us_per_minute.
  change (timedelta_hours 1) with 3600000000%Z.
  change (timedelta_minutes 15) with 900000000%Z.
  destruct dropoff; cbn [map fst snd];
    repeat (apply cons_eq; [apply entry_eq; lia |]); reflexivity.
Qed.

(** The loop on at most eight hours: one pass. *)
Lemma drive_loop_one_pass dp i pl dl changes t :
  0 < dp_driving_hours dp <= 8 ->
  drive_loop dp i pl dl (loop_entry dp changes t)
  = Ok (pass dp i pl dl (loop_entry dp changes t)).
Proof.
  intros [H0 H8].
  assert (Hnz : ~ dp_driving_hours dp == 0) by lra.
  rewrite drive_loop_eq. cbn [loop_entry ds_remaining_driving].
  assert (E0 : (0 <? dp_driving_hours dp) = true) by (apply ltb_lt; lra).
  rewrite E0, drive_segment_pass by exact Hnz.
  rewrite drive_loop_eq.
  cbn [pass loop_entry ds_remaining_driving].
  assert (E1 : (0 <? dp_driving_hours dp
                     - Py.min 8.0 (dp_driving_hours dp)) = false).
  { apply ltb_ge.
    destruct (min_cases 8.0 (dp_driving_hours dp)) as [[_ ->] | [_ ->]]; lra. }
  rewrite E1. reflexivity.
Qed.

(** The loop on more than eight and less than sixteen hours: eight
    hours, the break, the rest. *)
Lemma drive_loop_two_passes dp i pl dl changes t :
  8 < dp_driving_hours dp < 16 ->
  drive_loop dp i pl dl (loop_entry dp changes t)
  = Ok (pass dp i pl dl (pass dp i pl dl (loop_entry dp changes t))).
Proof.
  intros [Hlo Hhi].
  assert (Hnz : ~ dp_driving_hours dp == 0) by lra.
  assert (H8 : 8 <= dp_driving_hours dp) by lra.
  assert (Hrest : dp_driving_hours dp - 8.0 < 8) by lra.
  rewrite drive_loop_eq. cbn [loop_entry ds_remaining_driving].
  assert (E0 : (0 <? dp_driving_hours dp) = true) by (apply ltb_lt; lra).
  rewrite E0, drive_segment_pass by exact Hnz.
  rewrite drive_loop_eq.
  cbn [pass loop_entry ds_remaining_driving].
  rewrite (min_8_of_more (dp_driving_hours dp) H8).
  assert (E1 : (0 <? dp_driving_hours dp - 8.0) = true) by (apply ltb_lt; lra).
  rewrite E1, drive_segment_pass by exact Hnz.
  rewrite drive_loop_eq.
  cbn [pass loop_entry ds_remaining_driving].
  rewrite (min_8_of_more (dp_driving_hours dp) H8).
  rewrite (min_8_of_less (dp_driving_hours dp - 8.0) Hrest).
  assert (E2 : (0 <? dp_driving_hours dp - 8.0 - (dp_driving_hours dp - 8.0))
               = false) by (apply ltb_ge; lra).
  rewrite E2. reflexivity.
Qed.

(** The changes of such a day, minute by minute. *)
Lemma whole_minutes_timeline dp i cur pl dl (m : Z) :
  (0 < m <= 660)%Z ->
  dp_driving_hours dp == inject_Z m / 60 ->
  (dp_fuel_stops dp <= 0)%Z ->
  exists changes,
    _generate_duty_status_changes dp i cur pl dl 0 = Ok changes
    /\ timeline changes
       = map stamp
           (map scale
              (day_minutes i (last_day dp i || final_day_flag dp) m)).
Proof.
  intros Hm Hdh Hfuel.
  assert (Hq : inject_Z m / 60 * 60 == inject_Z m) by field.
  assert (Hm0 : 0 < inject_Z m).
  { change 0 with (inject_Z 0). rewrite <- Zlt_Qlt. lia. }
  assert (Hpos : 0 < dp_driving_hours dp).
  { rewrite Hdh. apply Qlt_shift_div_l; lra. }
  destruct (opening_in_minutes i) as [Hopen Hclock].
  rewrite generate_changes_eq.
  unfold day_minutes, driving_minutes.
  destruct (Z.leb_spec m 480) as [Hshort | Hlong].
  - (* one segment *)
    assert (H8 : dp_driving_hours dp <= 8).
    { rewrite Hdh. apply Qle_shift_div_r; [lra |].
      assert (H : inject_Z m <= inject_Z 480) by (rewrite <- Zle_Qle; lia).
      change (inject_Z 480) with 480 in H. lra. }
    rewrite drive_loop_one_pass by (split; assumption).
    eexists. split; [reflexivity |].
    rewrite timeline_closing, timeline_pass.
    cbn [pass loop_entry ds_remaining_driving ds_current_time ds_changes].
    destruct (timeline_opening i cur pl 0) as [-> ->].
    rewrite (fuel_fires_needs_stops dp _ Hfuel).
    assert (B : break_follows (dp_driving_hours dp)
                  (Py.min 8.0 (dp_driving_hours dp)) = false).
    { unfold break_follows. apply andb_false_iff. left. apply ltb_ge.
      destruct (min_cases 8.0 (dp_driving_hours dp)) as [[_ ->] | [_ ->]];
        lra. }
    rewrite B.
    assert (Emin : Py.min 8.0 (dp_driving_hours dp) == inject_Z m / 60).
    { destruct (min_cases 8.0 (dp_driving_hours dp)) as [[_ ->] | [H ->]];
        [exact Hdh | lra]. }
    rewrite (timedelta_whole_minutes _ m Emin).
    rewrite Hopen, Hclock.
    replace (opening_minute i * us_per_minute + m * us_per_minute)%Z
      with ((opening_minute i + m + 0) * us_per_minute)%Z by lia.
    rewrite closing_in_minutes.
    unfold segment_instants. cbn [app].
    rewrite <- !map_app, !map_app. cbn [map app scale fst snd].
    rewrite <- !app_assoc. reflexivity.
  - (* two segments *)
    assert (H8 : 8 < dp_driving_hours dp).
    { rewrite Hdh. apply Qlt_shift_div_l; [lra |].
      assert (H : inject_Z 480 < inject_Z m) by (rewrite <- Zlt_Qlt; lia).
      change (inject_Z 480) with 480 in H. lra. }
    assert (H16 : dp_driving_hours dp < 16).
    { rewrite Hdh. apply Qlt_shift_div_r; [lra |].
      assert (H : inject_Z m <= inject_Z 660) by (rewrite <- Zle_Qle; lia).
      change (inject_Z 660) with 660 in H. lra. }
    rewrite drive_loop_two_passes by (split; assumption).
    eexists. split; [reflexivity |].
    rewrite timeline_closing, !timeline_pass.
    cbn [pass loop_entry ds_remaining_driving ds_current_time ds_changes].
    destruct (timeline_opening i cur pl 0) as [-> ->].
    assert (G8 : 8 <= dp_driving_hours dp) by lra.
    assert (Grest : dp_driving_hours dp - 8.0 < 8) by lra.
    rewrite !(min_8_of_more (dp_driving_hours dp) G8).
    rewrite !(min_8_of_less (dp_driving_hours dp - 8.0) Grest).
    rewrite !(fuel_fires_needs_stops dp _ Hfuel).
    assert (B0 : break_follows (dp_driving_hours dp) 8.0 = true).
    { unfold break_follows. apply andb_true_iff. split.
      - apply ltb_lt. lra.
      - apply leb_le. lra. }
    assert (B1 : break_follows (dp_driving_hours dp - 8.0)
                               (dp_driving_hours dp - 8.0) = false).
    { unfold break_follows. apply andb_false_iff. left. apply ltb_ge. lra. }
    rewrite B0, B1.
    assert (Erest : dp_driving_hours dp - 8.0 == inject_Z (m - 480) / 60).
    { rewrite Hdh. unfold Z.sub. rewrite inject_Z_plus.
      change (inject_Z (- (480))) with (-480 # 1). field. }
    rewrite (timedelta_whole_minutes _ (m - 480) Erest).
    change (timedelta_hours 8.0) with (480 * us_per_minute)%Z.
    change (timedelta_minutes 30) with (30 * us_per_minute)%Z.
    rewrite Hopen, Hclock.
    replace (opening_minute i * us_per_minute + 480 * us_per_minute
             + 30 * us_per_minute + (m - 480) * us_per_minute)%Z
      with ((opening_minute i + m + 30) * us_per_minute)%Z by lia.
    rewrite closing_in_minutes.
    unfold segment_instants. cbn [app].
    rewrite !map_app. cbn [map app scale fst snd].
    rewrite <- !app_assoc. cbn [app].
    change (timedelta_hours 8.0) with (480 * us_per_minute)%Z.
    unfold scale. cbn [fst snd].
    f_equal.
    repeat (apply cons_eq; [f_equal; apply entry_eq; lia |]).
    reflexivity.
Qed.

Lemma stamp_scale (entry : DutyStatus * Z) :
  (0 <= snd entry < 1440)%Z ->
  (fst (stamp (scale entry)), strptime_HM (snd (stamp (scale entry))))
  = entry.
Proof.
  intros H. destruct entry as [st t]. unfold stamp, scale. cbn [fst snd] in *.
  rewrite strptime_strftime. unfold us_per_minute.
  rewrite Z.div_mul by lia. rewrite Z.mod_small by lia. reflexivity.
Qed.

Lemma in_minutes_of_timeline changes entries :
  timeline changes = map stamp (map scale entries) ->
  Forall (fun entry => (0 <= snd entry < 1440)%Z) entries ->
  in_minutes changes = entries.
Proof.
  intros Htl Hall.
  assert (E : in_minutes changes
              = map (fun p => (fst p, strptime_HM (snd p)))
                    (timeline changes)).
  { unfold in_minutes, timeline. rewrite map_map. reflexivity. }
  rewrite E, Htl, !map_map. clear E Htl.
  induction Hall as [| entry entries Hentry _ IH]; [reflexivity |].
  cbn [map]. rewrite IH. f_equal. apply stamp_scale. exact Hentry.
Qed.

Lemma minutes_of_in_minutes changes :
  minutes changes = map snd (in_minutes changes).
Proof. unfold minutes, in_minutes. rewrite map_map. reflexivity. Qed.

Lemma day_minutes_facts i dropoff m :
  (0 < m <= 660)%Z ->
  Forall (fun entry => (0 <= snd entry < 1440)%Z) (day_minutes i dropoff m)
  /\ StronglySorted Z.le (map snd (day_minutes i dropoff m))
  /\ minutes_in DRIVING (day_minutes i dropoff m)
     = (m + (if dropoff then 0 else 15))%Z
  /\ minutes_in ON_DUTY_NOT_DRIVING (day_minutes i dropoff m)
     = ((if (i =? 0)%nat then 105 else 0) + (if dropoff then 90 else 15))%Z
  /\ minutes_in OFF_DUTY (day_minutes i dropoff m)
     = ((if (i =? 0)%nat then 0 else 15) + (if (m <=? 480)%Z then 0 else 30))%Z
  /\ minutes_in SLEEPER_BERTH (day_minutes i dropoff m) = 0%Z.
Proof.
  intros Hm.
  unfold day_minutes, opening_minutes, opening_minute, driving_minutes,
    closing_minutes.
  destruct i as [| i]; cbn [Nat.ltb Nat.leb Nat.eqb];
    destruct dropoff; destruct (Z.leb_spec m 480);
    cbn [app map minutes_in same_status fst snd];
    (split; [repeat constructor; cbn [snd]; lia |]);
    (split; [repeat constructor; lia |]);
    repeat split; lia.
Qed.

(** X23.  A day with a whole number of driving minutes, at most 11
    hours, and no fuel stop planned is logged with exactly these
    totals: driving is the planned driving plus a quarter of an hour,
    unless the day has the changes of the dropoff; on-duty time not
    driving is 1.75 hours on the first day of the trip and none on the
    others, plus 1.5 hours with the dropoff and 0.25 without; off-duty
    time is the quarter of an hour before the inspection on days after
    the first and the half hour of the break after eight hours of
    driving, and nothing of the rest after the day. *)
Theorem whole_minute_day_totals (daily_plan : DailyPlan) (day_idx : nat)
    (current_loc pickup_loc dropoff_loc : string) (log_date : Z) (m : Z) :
  (0 < m <= 660)%Z ->
  dp_driving_hours daily_plan == inject_Z m / 60 ->
  (dp_fuel_stops daily_plan <= 0)%Z ->
  exists changes,
    _generate_duty_status_changes daily_plan day_idx current_loc pickup_loc
      dropoff_loc log_date = Ok changes
    /\ driving (_calculate_daily_totals changes)
       == dp_driving_hours daily_plan
          + (if last_day daily_plan day_idx || final_day_flag daily_plan
             then 0 else 1 # 4)
    /\ on_duty_not_driving (_calculate_daily_totals changes)
       == (if (day_idx =? 0)%nat then 7 # 4 else 0)
          + (if last_day daily_plan day_idx || final_day_flag daily_plan
             then 3 # 2 else 1 # 4)
    /\ off_duty (_calculate_daily_totals changes)
       == (if (day_idx =? 0)%nat then 0 else 1 # 4)
          + (if (m <=? 480)%Z then 0 else 1 # 2)
    /\ sleeper_berth (_calculate_daily_totals changes) == 0.
Proof.
  intros Hm Hdh Hfuel. rewrite changes_any_date.
  destruct (whole_minutes_timeline daily_plan day_idx current_loc pickup_loc
              dropoff_loc m Hm Hdh Hfuel) as (changes & Hchanges & Htl).
  exists changes. split; [exact Hchanges |].
  set (dropoff := last_day daily_plan day_idx || final_day_flag daily_plan)
    in *.
  destruct (day_minutes_facts day_idx dropoff m Hm)
    as (Hrange & Hsorted & Hdrv & Hduty & Hoff & Hsleep).
  pose proof (in_minutes_of_timeline changes _ Htl Hrange) as Hmin.
  assert (Hord : StronglySorted Z.le (minutes changes)).
  { rewrite minutes_of_in_minutes, Hmin. exact Hsorted. }
  pose proof (accumulate_totals_by_status DRIVING changes no_hours Hord) as T1.
  pose proof (accumulate_totals_by_status ON_DUTY_NOT_DRIVING changes no_hours
                Hord) as T2.
  pose proof (accumulate_totals_by_status OFF_DUTY changes no_hours Hord)
    as T3.
  pose proof (accumulate_totals_by_status SLEEPER_BERTH changes no_hours Hord)
    as T4.
  rewrite Hmin in T1, T2, T3, T4.
  rewrite Hdrv in T1. rewrite Hduty in T2. rewrite Hoff in T3.
  rewrite Hsleep in T4.
  cbn [hours_of no_hours driving on_duty_not_driving off_duty sleeper_berth]
    in T1, T2, T3, T4.
  fold no_hours in T1, T2, T3, T4.
  change (accumulate_totals changes no_hours)
    with (_calculate_daily_totals changes) in T1, T2, T3, T4.
  split; [| split; [| split]].
  - rewrite T1, Hdh, inject_Z_plus.
    destruct dropoff.
    + change (inject_Z 0) with 0. field.
    + change (inject_Z 15) with 15. field.
  - rewrite T2, inject_Z_plus.
    destruct (day_idx =? 0)%nat, dropoff; reflexivity.
  - rewrite T3, inject_Z_plus.
    destruct (day_idx =? 0)%nat, (m <=? 480)%Z; reflexivity.
  - rewrite T4. reflexivity.
Qed.

(** Nine and a half hours on the second day of a trip are logged as
    nine and three quarters. *)
Lemma whole_minute_day_totals_witness :
  exists changes,
    _generate_duty_status_changes
      {| dp_day := 2; dp_driving_hours := 19 # 2; dp_distance_miles := 500;
         dp_fuel_stops := 0; dp_mandatory_breaks := 1;
         dp_total_on_duty := 19 # 2;
         dp_pickup_dropoff_time := 0; dp_is_final_day := None |}
      1 "A" "B" "C" 1 = Ok changes
    /\ driving (_calculate_daily_totals changes) == 39 # 4
    /\ off_duty (_calculate_daily_totals changes) == 3 # 4.
Proof.
  destruct (whole_minute_day_totals
              {| dp_day := 2; dp_driving_hours := 19 # 2;
                 dp_distance_miles := 500;
                 dp_fuel_stops := 0; dp_mandatory_breaks := 1;
                 dp_total_on_duty := 19 # 2;
                 dp_pickup_dropoff_time := 0; dp_is_final_day := None |}
              1 "A" "B" "C" 1 570)
    as (changes & Hchanges & Hdrv & _ & Hoff & _).
  - lia.
  - reflexivity.
  - simpl. lia.
  - exists changes. split; [exact Hchanges |].
    split; [rewrite Hdrv | rewrite Hoff]; reflexivity.
Defined.
